(** * ESP8266 Neopixel Controller: the device-state core

    A shallow embedding of [ESP8266_Neopixel_Controller.ino]: the palette
    of saved colours kept in the EEPROM record, the request handlers
    ([colorRequest], [offRequest], [effectRequest], [saveRequest],
    [deleteRequest]), the button handler [processClick], the EEPROM
    helpers and the part of [loop] that drives the LEDs.

    Conventions.
    - [uint8_t], [int16_t] and [uint32_t] values are integers of [Z]; every
      operation that can leave the range has its wrap-around written out.
    - The globals of the sketch are one record, [Globals], threaded through
      a state monad [M].  A computation yields [None] where the C program
      has no defined behaviour: an array index outside the array, or a read
      of a variable that was never assigned.
    - What the hardware and the libraries decide (the result of
      [EEPROM.commit], [EEPROM.percentUsed], [millis]) is an argument of
      the function that asks for it. *)

From Stdlib Require Import ZArith Lia Bool Ascii String.
From stdpp Require Import base tactics option list.

Local Open Scope Z_scope.

(** ** Settings and constants *)

Definition COLOR_COUNT : Z := 10.
Definition EFFECT_BRIGHTNESS : Z := 96.
Definition EFFECT_FRAMES_PER_SECOND : Z := 30.

Definition BUTTON_NO_CLICK : Z := 0.
Definition BUTTON_SINGLE_CLICK : Z := 1.
Definition BUTTON_DOUBLE_CLICK : Z := 2.
Definition BUTTON_LONG_CLICK : Z := 3.

(** Wrap-around of the fixed-width integer types. *)
Definition wrap8 (x : Z) : Z := x mod 256.
Definition wrap32 (x : Z) : Z := x mod 2 ^ 32.
Definition wrap16s (x : Z) : Z := (x + 2 ^ 15) mod 2 ^ 16 - 2 ^ 15.

(** ** Types *)

Inductive TProgram_States : Type :=
  | NEOPIXEL_OFF
  | NEOPIXEL_COLOR
  | NEOPIXEL_EFFECT.

#[global] Instance TProgram_States_eq_dec : EqDecision TProgram_States.
Proof. solve_decision. Defined.

(** The twelve effect functions; [effectFunctionType] is a function pointer
    in the sketch and the name of the function here. *)
Inductive effectFunctionType : Type :=
  | rainbow | rainbowWithGlitter | confetti | sinelon | bpm | juggle
  | fire2012 | cylon | sparkle | snowsparkle | meteor | theatre.

#[global] Instance effectFunctionType_eq_dec : EqDecision effectFunctionType.
Proof. solve_decision. Defined.

Record effectType : Type := mk_effect {
  effectName : string;
  effectFunction : effectFunctionType;
  effectFrames : Z
}.

(** [colorType]: [rgb[0]], [rgb[1]], [rgb[2]] and the brightness. *)
Record colorType : Type := mk_color {
  rgb_0 : Z;
  rgb_1 : Z;
  rgb_2 : Z;
  brtns : Z
}.

#[global] Instance colorType_eq_dec : EqDecision colorType.
Proof. solve_decision. Defined.

Record npControllerSettingType : Type := mk_setting {
  colorCount : Z;
  programState : TProgram_States;
  activeColor : Z;
  activeEffect : Z
}.

(** The record written to the EEPROM.  [colors] has [COLOR_COUNT + 1]
    elements; index [COLOR_COUNT] is the colour requested but not saved. *)
Record npControllerEEPROMType : Type := mk_eeprom {
  crc32 : Z;
  npControllerSetting : npControllerSettingType;
  colors : list colorType
}.

(** What the LED driver is asked to do during one pass of [loop]. *)
Inductive LedAction : Type :=
  | ShowColor (r g b brightness : Z)
  | SetBrightness (brightness : Z)
  | CallEffect (f : effectFunctionType) (frame : Z)
  | ShowLeds
  | ClearLeds.

(** ** Global variables

    [EEPROM_data] is the buffer of the ESP_EEPROM library ([EEPROM.get]
    reads it, [EEPROM.put] writes it); [EEPROM_flash] is what a successful
    [EEPROM.commit] stored. *)
Record Globals : Type := mk_globals {
  npControllerEEPROM : npControllerEEPROMType;
  actualFrame : Z;
  lastNeopixelRefresh : Z;
  changeNeopixel : Z;
  EEPROM_data : npControllerEEPROMType;
  EEPROM_flash : npControllerEEPROMType
}.

Definition with_crc32 (v : Z) (e : npControllerEEPROMType) :=
  mk_eeprom v (npControllerSetting e) (colors e).
Definition with_setting (s : npControllerSettingType) (e : npControllerEEPROMType) :=
  mk_eeprom (crc32 e) s (colors e).
Definition with_colors (l : list colorType) (e : npControllerEEPROMType) :=
  mk_eeprom (crc32 e) (npControllerSetting e) l.

Definition with_colorCount (v : Z) (s : npControllerSettingType) :=
  mk_setting v (programState s) (activeColor s) (activeEffect s).
Definition with_programState (v : TProgram_States) (s : npControllerSettingType) :=
  mk_setting (colorCount s) v (activeColor s) (activeEffect s).
Definition with_activeColor (v : Z) (s : npControllerSettingType) :=
  mk_setting (colorCount s) (programState s) v (activeEffect s).
Definition with_activeEffect (v : Z) (s : npControllerSettingType) :=
  mk_setting (colorCount s) (programState s) (activeColor s) v.

Definition with_rgb_0 (v : Z) (c : colorType) := mk_color v (rgb_1 c) (rgb_2 c) (brtns c).
Definition with_rgb_1 (v : Z) (c : colorType) := mk_color (rgb_0 c) v (rgb_2 c) (brtns c).
Definition with_rgb_2 (v : Z) (c : colorType) := mk_color (rgb_0 c) (rgb_1 c) v (brtns c).
Definition with_brtns (v : Z) (c : colorType) := mk_color (rgb_0 c) (rgb_1 c) (rgb_2 c) v.

Definition with_ram (e : npControllerEEPROMType) (g : Globals) :=
  mk_globals e (actualFrame g) (lastNeopixelRefresh g) (changeNeopixel g)
             (EEPROM_data g) (EEPROM_flash g).
Definition with_actualFrame (v : Z) (g : Globals) :=
  mk_globals (npControllerEEPROM g) v (lastNeopixelRefresh g) (changeNeopixel g)
             (EEPROM_data g) (EEPROM_flash g).
Definition with_lastNeopixelRefresh (v : Z) (g : Globals) :=
  mk_globals (npControllerEEPROM g) (actualFrame g) v (changeNeopixel g)
             (EEPROM_data g) (EEPROM_flash g).
Definition with_changeNeopixel (v : Z) (g : Globals) :=
  mk_globals (npControllerEEPROM g) (actualFrame g) (lastNeopixelRefresh g) v
             (EEPROM_data g) (EEPROM_flash g).
Definition with_EEPROM_data (e : npControllerEEPROMType) (g : Globals) :=
  mk_globals (npControllerEEPROM g) (actualFrame g) (lastNeopixelRefresh g)
             (changeNeopixel g) e (EEPROM_flash g).
Definition with_EEPROM_flash (e : npControllerEEPROMType) (g : Globals) :=
  mk_globals (npControllerEEPROM g) (actualFrame g) (lastNeopixelRefresh g)
             (changeNeopixel g) (EEPROM_data g) e.

(** ** The monad of the sketch: global state, and [None] for undefined
    behaviour *)

Definition M (A : Type) : Type := Globals -> option (A * Globals).

Definition ret {A} (a : A) : M A := fun g => Some (a, g).
Definition bind {A B} (m : M A) (k : A -> M B) : M B :=
  fun g => match m g with
           | Some (a, g') => k a g'
           | None => None
           end.
Definition undefined {A} : M A := fun _ => None.
Definition lift {A} (o : option A) : M A :=
  fun g => match o with Some a => Some (a, g) | None => None end.

Declare Scope sketch_scope.
Delimit Scope sketch_scope with sketch.
Notation "'do' x <- m ; k" := (bind m (fun x => k))
  (at level 10, x name, m at level 100, k at level 200) : sketch_scope.
Local Open Scope sketch_scope.

(** [npControllerSetting->field] and [npControllerSetting->field = v]. *)
Definition setting : M npControllerSettingType :=
  fun g => Some (npControllerSetting (npControllerEEPROM g), g).
Definition update_setting (f : npControllerSettingType -> npControllerSettingType) : M unit :=
  fun g => Some (tt, with_ram (with_setting (f (npControllerSetting (npControllerEEPROM g)))
                                            (npControllerEEPROM g)) g).

(** [colors[i]] as a value; undefined outside the array. *)
Definition color_at (i : Z) : M colorType :=
  fun g => if 0 <=? i
           then match colors (npControllerEEPROM g) !! Z.to_nat i with
                | Some c => Some (c, g)
                | None => None
                end
           else None.

(** [colors[i].field = v], as the change [f] of the element; undefined
    outside the array. *)
Definition update_color (i : Z) (f : colorType -> colorType) : M unit :=
  fun g => if 0 <=? i
           then match colors (npControllerEEPROM g) !! Z.to_nat i with
                | Some c => Some (tt, with_ram (with_colors
                                     (<[Z.to_nat i := f c]> (colors (npControllerEEPROM g)))
                                     (npControllerEEPROM g)) g)
                | None => None
                end
           else None.

Definition set_changeNeopixel (v : Z) : M unit :=
  fun g => Some (tt, with_changeNeopixel v g).
Definition set_actualFrame (v : Z) : M unit :=
  fun g => Some (tt, with_actualFrame v g).
Definition set_lastNeopixelRefresh (v : Z) : M unit :=
  fun g => Some (tt, with_lastNeopixelRefresh v g).

Definition get_changeNeopixel : M Z := fun g => Some (changeNeopixel g, g).
Definition get_actualFrame : M Z := fun g => Some (actualFrame g, g).
Definition get_lastNeopixelRefresh : M Z := fun g => Some (lastNeopixelRefresh g, g).

(** ** C strings and the C library

    A [char*] argument is a [string]; as in C, the text ends at the first
    zero character (or at the end of the [string], which stands for the
    terminating zero). *)

Definition char_code (c : ascii) : Z := Z.of_N (N_of_ascii c).
Definition is_nul (c : ascii) : bool := char_code c =? 0.

Fixpoint strlen (s : string) : Z :=
  match s with
  | EmptyString => 0
  | String c s' => if is_nul c then 0 else 1 + strlen s'
  end.

(** [s[i]]: the terminating zero at the end, undefined beyond it. *)
Definition char_at (s : string) (i : Z) : option ascii :=
  if 0 <=? i
  then match String.get (Z.to_nat i) s with
       | Some c => Some c
       | None => if i =? Z.of_nat (String.length s) then Some zero else None
       end
  else None.

Definition isxdigit (c : ascii) : bool :=
  let n := char_code c in
  ((48 <=? n) && (n <=? 57)) || ((65 <=? n) && (n <=? 70)) || ((97 <=? n) && (n <=? 102)).

Definition hex_digit_value (c : ascii) : Z :=
  let n := char_code c in
  if n <=? 57 then n - 48 else if n <=? 70 then n - 55 else n - 87.

Fixpoint strcmp (a b : string) : Z :=
  match a, b with
  | EmptyString, EmptyString => 0
  | EmptyString, String y _ => 0 - char_code y
  | String x _, EmptyString => char_code x
  | String x a', String y b' =>
      if char_code x =? char_code y
      then if is_nul x then 0 else strcmp a' b'
      else char_code x - char_code y
  end.

(** [sscanf(s, "%x", &v)] on a text made of hexadecimal digits only, which
    is all the sketch passes to it: [checkValidColor] has tested the six
    characters before any call.  [None] stands for the rest of the C
    library's behaviour (white space, sign, [0x] prefix, a value too large
    for 32 bits, and no assignment at all when no digit is read). *)
Fixpoint scan_hex (s : string) (acc : Z) : option Z :=
  match s with
  | EmptyString => Some acc
  | String c s' =>
      if is_nul c then Some acc
      else if isxdigit c then scan_hex s' (16 * acc + hex_digit_value c)
      else None
  end.

Definition sscanf_x (s : string) : option Z :=
  if 0 <? strlen s
  then match scan_hex s 0 with
       | Some v => if v <? 2 ^ 32 then Some v else None
       | None => None
       end
  else None.

(** Arduino's [map] (long arithmetic, C division). *)
Definition map_range (x in_min in_max out_min out_max : Z) : Z :=
  Z.quot ((x - in_min) * (out_max - out_min)) (in_max - in_min) + out_min.

(** ** The effect table *)

Definition effects : list effectType :=
  [ mk_effect "rainbow"   rainbow            (EFFECT_FRAMES_PER_SECOND * 5);
    mk_effect "rainbowGl" rainbowWithGlitter (EFFECT_FRAMES_PER_SECOND * 5);
    mk_effect "confetti"  confetti           (EFFECT_FRAMES_PER_SECOND * 5);
    mk_effect "sinelon"   sinelon            (EFFECT_FRAMES_PER_SECOND * 5);
    mk_effect "bpm"       bpm                (EFFECT_FRAMES_PER_SECOND * 5);
    mk_effect "juggle"    juggle             EFFECT_FRAMES_PER_SECOND;
    mk_effect "fire2012"  fire2012           EFFECT_FRAMES_PER_SECOND;
    mk_effect "cylon"     cylon              (EFFECT_FRAMES_PER_SECOND * 4);
    mk_effect "sparkle"   sparkle            EFFECT_FRAMES_PER_SECOND;
    mk_effect "snowspark" snowsparkle        EFFECT_FRAMES_PER_SECOND;
    mk_effect "meteor"    meteor             (EFFECT_FRAMES_PER_SECOND * 2);
    mk_effect "theatre"   theatre            (Z.quot EFFECT_FRAMES_PER_SECOND 2) ].

Definition ARRAY_SIZE {A} (a : list A) : Z := Z.of_nat (length a).

(** ** Colour helpers *)

Definition resetColor (color : colorType) : colorType :=
  with_brtns 0 (with_rgb_2 0 (with_rgb_1 0 (with_rgb_0 0 color))).

Definition parseHexColor (rgbHex : string) : option (Z * Z * Z) :=
  match sscanf_x rgbHex with
  | Some rgb32 =>
      Some (wrap8 (Z.shiftr (Z.land rgb32 0x00ff0000) 16),
            wrap8 (Z.shiftr (Z.land rgb32 0x0000ff00) 8),
            wrap8 (Z.land rgb32 0x000000ff))
  | None => None
  end.

(** The loop [for (i = 0; i < 6; i++) if (!isxdigit(rgbHex[i])) return 0;]:
    [Some true] when it runs to its end. *)
Fixpoint checkValidColor_digits (n : nat) (i : Z) (rgbHex : string) : option bool :=
  match n with
  | O => Some true
  | S n' =>
      match char_at rgbHex i with
      | Some c => if negb (isxdigit c) then Some false
                  else checkValidColor_digits n' (wrap8 (i + 1)) rgbHex
      | None => None
      end
  end.

Definition checkValidColor (rgbHex : string) (brightness : Z) : option Z :=
  if negb (strlen rgbHex =? 6) then Some 0
  else match checkValidColor_digits 6 0 rgbHex with
       | Some false => Some 0
       | Some true =>
           match parseHexColor rgbHex with
           | Some (r, g, b) =>
               if (r =? 0) && (g =? 0) && (b =? 0) then Some 0
               else if 100 <? brightness then Some 0
               else Some 1
           | None => None
           end
       | None => None
       end.

Fixpoint checkValidEffect_from (table : list effectType) (i : Z) (name : string) : Z :=
  match table with
  | [] => ARRAY_SIZE effects
  | e :: table' =>
      if strcmp (effectName e) name =? 0 then i
      else checkValidEffect_from table' (wrap8 (i + 1)) name
  end.

Definition checkValidEffect (name : string) : Z :=
  checkValidEffect_from effects 0 name.

(** The loop of [findColor], [n] elements from index [i] on. *)
Fixpoint findColor_from (n : nat) (i : Z) (rgb : Z * Z * Z) (brightness : Z) : M Z :=
  match n with
  | O => ret COLOR_COUNT
  | S n' =>
      do c <- color_at i;
      if (brtns c =? brightness) && (rgb_0 c =? rgb.1.1)
         && (rgb_1 c =? rgb.1.2) && (rgb_2 c =? rgb.2)
      then ret i
      else findColor_from n' (wrap8 (i + 1)) rgb brightness
  end.

Definition findColor (rgb : Z * Z * Z) (brightness : Z) : M Z :=
  do s <- setting;
  if 0 <? colorCount s
  then findColor_from (Z.to_nat (colorCount s)) 0 rgb brightness
  else ret COLOR_COUNT.

(** ** JSON responses

    The text that [saveResponse] and [effectResponse] put in ["rsE"] for
    the result of the request; the rest of the responses is formatting. *)

Definition saveResponse_rsE (saveResult : Z) : string :=
  if negb (saveResult =? 1) then
    if saveResult =? 0 then "Could not save the new color to EEPROM."
    else if saveResult =? 2 then "Wrong format for color/brightness."
    else if saveResult =? 3 then "Color is already saved."
    else "Maximum number of colors saved."
  else "".

Definition effectResponse_rsE (effectResult : Z) : string :=
  if negb (effectResult =? 1) then "Wrong name of effect." else "".

(** ** Request processing *)

Definition colorRequest (rgbHex : string) (brightness : Z) : M Z :=
  do result <- lift (checkValidColor rgbHex brightness);
  if negb (result =? 0) then
    do _ <- update_setting (with_programState NEOPIXEL_COLOR);
    do _ <- set_changeNeopixel 1;
    do rgb <- lift (parseHexColor rgbHex);
    do colorIndex <- findColor rgb brightness;
    do _ <- update_color colorIndex (with_brtns brightness);
    do _ <- update_color colorIndex (with_rgb_0 rgb.1.1);
    do _ <- update_color colorIndex (with_rgb_1 rgb.1.2);
    do _ <- update_color colorIndex (with_rgb_2 rgb.2);
    do _ <- update_setting (with_activeColor colorIndex);
    ret result
  else ret result.

Definition offRequest : M Z :=
  do _ <- update_setting (with_programState NEOPIXEL_OFF);
  do _ <- set_changeNeopixel 1;
  ret 1.

Definition effectRequest (name : string) : M Z :=
  let effectIndex := checkValidEffect name in
  if effectIndex <? ARRAY_SIZE effects then
    do _ <- update_setting (with_programState NEOPIXEL_EFFECT);
    do _ <- set_changeNeopixel 1;
    do _ <- update_setting (with_activeEffect effectIndex);
    ret 1
  else ret 0.

(** ** Button click *)

Definition processClick (clickType : Z) : M unit :=
  do _ <- set_changeNeopixel 1;
  do s0 <- setting;
  let oldState := programState s0 in
  if clickType =? BUTTON_LONG_CLICK then
    update_setting (with_programState NEOPIXEL_OFF)
  else if clickType =? BUTTON_SINGLE_CLICK then
    if colorCount s0 =? 0 then ret tt
    else
      do _ <- update_setting (with_programState NEOPIXEL_COLOR);
      if activeColor s0 =? COLOR_COUNT then
        update_setting (with_activeColor 0)
      else if bool_decide (oldState = NEOPIXEL_OFF) || bool_decide (oldState = NEOPIXEL_EFFECT)
      then ret tt
      else if activeColor s0 =? colorCount s0 - 1 then
        do _ <- update_setting (with_programState NEOPIXEL_OFF);
        update_setting (with_activeColor 0)
      else
        update_setting (fun s => with_activeColor (wrap8 (activeColor s + 1)) s)
  else if clickType =? BUTTON_DOUBLE_CLICK then
    do _ <- update_setting (with_programState NEOPIXEL_EFFECT);
    if bool_decide (oldState = NEOPIXEL_OFF) || bool_decide (oldState = NEOPIXEL_COLOR)
    then ret tt
    else if activeEffect s0 =? ARRAY_SIZE effects - 1 then
      do _ <- update_setting (with_programState NEOPIXEL_OFF);
      update_setting (with_activeEffect 0)
    else
      update_setting (fun s => with_activeEffect (wrap8 (activeEffect s + 1)) s)
  else ret tt.

(** ** The LED part of [loop]

    [loop] first serves the web server, MQTT and the button, which call the
    handlers above; what follows is the rest of its body.  [millis_due] and
    [millis_shown] are the two readings of [millis()].  An effect function
    reads [actualFrame] and the effect table and writes only the LED
    buffer and its own static variables, so its call is recorded with the
    frame it sees. *)
Definition loop_neopixels (millis_due millis_shown : Z) : M (list LedAction) :=
  do s <- setting;
  do change <- get_changeNeopixel;
  do out <-
    match programState s with
    | NEOPIXEL_COLOR =>
        if negb (change =? 0) then
          do c <- color_at (activeColor s);
          let brightness := wrap8 (map_range (brtns c) 0 100 0 255) in
          ret [ShowColor (rgb_0 c) (rgb_1 c) (rgb_2 c) brightness]
        else ret []
    | NEOPIXEL_EFFECT =>
        do active <- lift (if 0 <=? activeEffect s
                           then effects !! Z.to_nat (activeEffect s) else None);
        do out1 <-
          (if negb (change =? 0) then
             do _ <- set_lastNeopixelRefresh 0;
             do _ <- set_actualFrame 0;
             ret [SetBrightness EFFECT_BRIGHTNESS]
           else ret []);
        do last <- get_lastNeopixelRefresh;
        if wrap32 (last + Z.quot 1000 EFFECT_FRAMES_PER_SECOND) <=? millis_due then
          do frame <- get_actualFrame;
          do _ <- set_actualFrame (wrap16s (frame + 1));
          do frame' <- get_actualFrame;
          do _ <- (if effectFrames active <=? frame' then set_actualFrame 0 else ret tt);
          do _ <- set_lastNeopixelRefresh millis_shown;
          ret (out1 ++ [CallEffect (effectFunction active) frame; ShowLeds])
        else ret out1
    | NEOPIXEL_OFF =>
        if negb (change =? 0) then ret [ClearLeds] else ret []
    end;
  do _ <- (if negb (change =? 0) then set_changeNeopixel 0 else ret tt);
  ret out.

(** ** EEPROM helpers *)

Fixpoint calculateCRC32_bits (n : nat) (i c crc : Z) : Z :=
  match n with
  | O => crc
  | S n' =>
      if 0 <? i then
        let bit := negb (Z.land crc 0x80000000 =? 0) in
        let bit := if negb (Z.land c i =? 0) then negb bit else bit in
        let crc := wrap32 (Z.shiftl crc 1) in
        let crc := if bit then Z.lxor crc 0x04c11db7 else crc in
        calculateCRC32_bits n' (Z.shiftr i 1) c crc
      else crc
  end.

Fixpoint calculateCRC32_from (crc : Z) (data : list Z) : Z :=
  match data with
  | [] => crc
  | c :: data' => calculateCRC32_from (calculateCRC32_bits 8 0x80 c crc) data'
  end.

Definition calculateCRC32 (data : list Z) : Z := calculateCRC32_from 0xffffffff data.

Definition EEPROM_begin : M unit :=
  fun g => Some (tt, with_EEPROM_data (EEPROM_flash g) g).
Definition EEPROM_get : M unit :=
  fun g => Some (tt, with_ram (EEPROM_data g) g).
Definition EEPROM_put : M unit :=
  fun g => Some (tt, with_EEPROM_data (npControllerEEPROM g) g).
Definition EEPROM_commit (commit_ok : bool) : M Z :=
  fun g => if commit_ok then Some (1, with_EEPROM_flash (EEPROM_data g) g)
           else Some (0, g).

(** The loop of [resetEEPROM] and the shifting loop of [deleteRequest]. *)
Fixpoint resetEEPROM_from (n : nat) (i : Z) : M unit :=
  match n with
  | O => ret tt
  | S n' => do _ <- update_color i resetColor; resetEEPROM_from n' (wrap8 (i + 1))
  end.

Fixpoint deleteRequest_shift (n : nat) (i : Z) : M unit :=
  match n with
  | O => ret tt
  | S n' =>
      let prevIndex := wrap8 (i - 1) in
      do c <- color_at i; do _ <- update_color prevIndex (with_brtns (brtns c));
      do c <- color_at i; do _ <- update_color prevIndex (with_rgb_0 (rgb_0 c));
      do c <- color_at i; do _ <- update_color prevIndex (with_rgb_1 (rgb_1 c));
      do c <- color_at i; do _ <- update_color prevIndex (with_rgb_2 (rgb_2 c));
      deleteRequest_shift n' (wrap8 (i + 1))
  end.

Section Persistence.

(** The bytes of [npControllerEEPROM] after its first four, the ones the
    checksum covers.  Their layout is the compiler's, so it is left
    open; it does not read the [crc32] field. *)
Variable struct_bytes : npControllerSettingType -> list colorType -> list Z.

Definition record_crc (e : npControllerEEPROMType) : Z :=
  calculateCRC32 (struct_bytes (npControllerSetting e) (colors e)).

Definition saveEEPROM (commit_ok : bool) : M Z :=
  do _ <- (fun g => Some (tt, with_ram (with_crc32 (record_crc (npControllerEEPROM g))
                                                   (npControllerEEPROM g)) g));
  do _ <- EEPROM_put;
  do result <- EEPROM_commit commit_ok;
  ret result.

Definition resetEEPROM (commit_ok : bool) : M unit :=
  do _ <- resetEEPROM_from (Z.to_nat COLOR_COUNT) 0;
  do _ <- update_setting (with_colorCount 0);
  do _ <- update_setting (with_programState NEOPIXEL_OFF);
  do _ <- update_setting (with_activeColor 0);
  do _ <- update_setting (with_activeEffect 0);
  do _ <- saveEEPROM commit_ok;
  ret tt.

Definition saveRequest (commit_ok : bool) (rgbHex : string) (brightness : Z) : M Z :=
  do s <- setting;
  if colorCount s =? COLOR_COUNT then ret 4
  else
    do valid <- lift (checkValidColor rgbHex brightness);
    if negb (valid =? 0) then
      do rgb <- lift (parseHexColor rgbHex);
      do colorIndex <- findColor rgb brightness;
      if colorIndex <? COLOR_COUNT then ret 3
      else
        do _ <- update_color (colorCount s) (with_brtns brightness);
        do _ <- update_color (colorCount s) (with_rgb_0 rgb.1.1);
        do _ <- update_color (colorCount s) (with_rgb_1 rgb.1.2);
        do _ <- update_color (colorCount s) (with_rgb_2 rgb.2);
        do _ <- update_setting (fun s => with_colorCount (wrap8 (colorCount s + 1)) s);
        saveEEPROM commit_ok
    else ret 2.

Definition deleteRequest (commit_ok : bool) (rgbHex : string) (brightness : Z) : M Z :=
  do valid <- lift (checkValidColor rgbHex brightness);
  if negb (valid =? 0) then
    do rgb <- lift (parseHexColor rgbHex);
    do colorIndex <- findColor rgb brightness;
    if colorIndex =? COLOR_COUNT then ret 3
    else
      do _ <- update_color colorIndex resetColor;
      do s <- setting;
      do _ <- deleteRequest_shift (Z.to_nat (colorCount s - wrap8 (colorIndex + 1)))
                                  (wrap8 (colorIndex + 1));
      do _ <- (if activeColor s =? colorIndex then update_setting (with_activeColor 0)
               else if colorIndex <? activeColor s
               then update_setting (fun s => with_activeColor (wrap8 (activeColor s - 1)) s)
               else ret tt);
      do _ <- update_setting (fun s => with_colorCount (wrap8 (colorCount s - 1)) s);
      saveEEPROM commit_ok
  else ret 2.

(** The EEPROM part of [setup]; the rest of it starts WiFi, the web
    server and MQTT and touches none of the globals above. *)
Definition setup (percentUsed : Z) (commit_ok : bool) : M unit :=
  do _ <- EEPROM_begin;
  if 0 <=? percentUsed then
    do _ <- EEPROM_get;
    do crc <- (fun g => Some (record_crc (npControllerEEPROM g), g));
    do stored <- (fun g => Some (crc32 (npControllerEEPROM g), g));
    if crc =? stored then ret tt
    else resetEEPROM commit_ok
  else resetEEPROM commit_ok.

End Persistence.

(** One layout of the record, the one of the ESP8266 tool chain: a
    four-byte little-endian [enum], [uint8_t] fields padded to four bytes
    with zeros, then four bytes per colour. *)
Definition enum_value (p : TProgram_States) : Z :=
  match p with NEOPIXEL_OFF => 0 | NEOPIXEL_COLOR => 1 | NEOPIXEL_EFFECT => 2 end.

Definition esp8266_struct_bytes (s : npControllerSettingType) (cs : list colorType) : list Z :=
  [colorCount s; 0; 0; 0; enum_value (programState s); 0; 0; 0;
   activeColor s; activeEffect s; 0; 0]
  ++ concat (List.map (fun c => [rgb_0 c; rgb_1 c; rgb_2 c; brtns c]) cs).

(** ** Views of the state used in the statements *)

Definition palette (g : Globals) : list colorType := colors (npControllerEEPROM g).
Definition settings (g : Globals) : npControllerSettingType :=
  npControllerSetting (npControllerEEPROM g).
Definition set_palette (l : list colorType) (g : Globals) : Globals :=
  with_ram (with_colors l (npControllerEEPROM g)) g.
Definition set_settings (s : npControllerSettingType) (g : Globals) : Globals :=
  with_ram (with_setting s (npControllerEEPROM g)) g.

(** The saved colours, [colors[0 .. colorCount-1]]. *)
Definition saved (g : Globals) : list colorType :=
  take (Z.to_nat (colorCount (settings g))) (palette g).

(** The invariant of the record in RAM: [colorCount] is within the
    capacity, [activeColor] is a [uint8_t] and the array has its eleven
    elements. *)
Definition wf (g : Globals) : Prop :=
  0 <= colorCount (settings g) <= COLOR_COUNT /\
  0 <= activeColor (settings g) < 256 /\
  length (palette g) = Z.to_nat (COLOR_COUNT + 1).

(** [c] is the colour [rgb] at [brightness], the test of [findColor]. *)
Definition same_color (c : colorType) (rgb : Z * Z * Z) (brightness : Z) : Prop :=
  brtns c = brightness /\ rgb_0 c = rgb.1.1 /\ rgb_1 c = rgb.1.2 /\ rgb_2 c = rgb.2.

Definition zero_color : colorType := mk_color 0 0 0 0.

(** Example states. *)
Definition red : colorType := mk_color 255 0 0 50.
Definition green : colorType := mk_color 0 255 0 80.
Definition blue : colorType := mk_color 0 0 255 10.

Definition example_record (s : npControllerSettingType) (saved_colors : list colorType)
    (scratch : colorType) : npControllerEEPROMType :=
  mk_eeprom 0 s (saved_colors
                 ++ replicate (Z.to_nat COLOR_COUNT - length saved_colors) zero_color
                 ++ [scratch]).

Definition example_state (s : npControllerSettingType) (saved_colors : list colorType)
    (scratch : colorType) : Globals :=
  let e := example_record s saved_colors scratch in
  mk_globals e 0 0 0 e e.

(** ** Auxiliary definitions for the statements *)

(** [r] is what a scan of [l] over the indices [lo <= j < hi] returns: the
    first index that holds the colour, or [COLOR_COUNT]. *)
Definition find_result (l : list colorType) (lo hi : Z) (rgb : Z * Z * Z)
    (brightness r : Z) : Prop :=
  (lo <= r < hi /\
   (exists c, l !! Z.to_nat r = Some c /\ same_color c rgb brightness) /\
   forall j c, lo <= j < r -> l !! Z.to_nat j = Some c -> ~ same_color c rgb brightness)
  \/
  (r = COLOR_COUNT /\
   forall j c, lo <= j < hi -> l !! Z.to_nat j = Some c -> ~ same_color c rgb brightness).

(** The state [colorRequest] leaves when it stores [c] at index [i]. *)
Definition color_shown (i : Z) (c : colorType) (g : Globals) : Globals :=
  let g1 := with_changeNeopixel 1
              (set_settings (with_programState NEOPIXEL_COLOR (settings g)) g) in
  let g2 := set_palette (<[Z.to_nat i := c]> (palette g1)) g1 in
  set_settings (with_activeColor i (settings g2)) g2.

Definition full_state : Globals :=
  example_state (mk_setting 10 NEOPIXEL_COLOR 3 0)
    [red; green; blue; mk_color 1 2 3 4; mk_color 5 6 7 8; mk_color 9 9 9 9;
     mk_color 255 255 255 100; mk_color 18 52 86 10; mk_color 0 0 1 0; mk_color 7 7 7 7]
    zero_color.

(** Element [j] of an array whose elements [lo+1 .. hi] were moved down by
    one place. *)
Definition shifted (l : list colorType) (lo hi : Z) (j : nat) : option colorType :=
  if (lo <=? Z.of_nat j) && (Z.of_nat j <? hi) then l !! S j else l !! j.

(** The state after [saveEEPROM]: the checksum is stored in the record,
    the record is copied to the library's buffer, and the flash holds it
    when the commit succeeds. *)
Definition committed (struct_bytes : npControllerSettingType -> list colorType -> list Z)
    (commit_ok : bool) (g : Globals) : Globals :=
  let e := with_crc32 (record_crc struct_bytes (npControllerEEPROM g)) (npControllerEEPROM g) in
  let g1 := with_EEPROM_data e (with_ram e g) in
  if commit_ok then with_EEPROM_flash e g1 else g1.

(** The index [activeColor] after the deletion of the element at [i]. *)
Definition activeColor_after_delete (active i : Z) : Z :=
  if active =? i then 0 else if i <? active then active - 1 else active.

Definition three_colors (active : Z) : Globals :=
  example_state (mk_setting 3 NEOPIXEL_COLOR active 0) [red; green; blue] (mk_color 1 2 3 4).

Definition full_unsaved_shown : Globals :=
  example_state (mk_setting 10 NEOPIXEL_COLOR 10 0)
    [red; green; blue; mk_color 1 2 3 4; mk_color 5 6 7 8; mk_color 9 9 9 9;
     mk_color 255 255 255 100; mk_color 18 52 86 10; mk_color 0 0 1 0; mk_color 7 7 7 7]
    (mk_color 171 205 239 60).

(** The state [resetEEPROM] commits: array [l'], all settings zero. *)
Definition reset_state (struct_bytes : npControllerSettingType -> list colorType -> list Z)
    (commit_ok : bool) (l' : list colorType) (g : Globals) : Globals :=
  committed struct_bytes commit_ok
    (set_settings (mk_setting 0 NEOPIXEL_OFF 0 0) (set_palette l' g)).

Definition stale_record : Globals :=
  example_state (mk_setting 3 NEOPIXEL_COLOR 1 4) [red; green; blue] (mk_color 171 205 239 60).

(** C's [tolower] on one character, and on a text. *)
Definition tolower (c : ascii) : ascii :=
  let n := char_code c in
  if (65 <=? n) && (n <=? 90) then ascii_of_N (Z.to_N (n + 32)) else c.

Fixpoint lower (s : string) : string :=
  match s with
  | EmptyString => EmptyString
  | String c s' => String (tolower c) (lower s')
  end.

(** ** Further definitions for the statements *)

(** The element [saveRequest] and [colorRequest] store for a parsed colour. *)
Definition color_of (rgb : Z * Z * Z) (brightness : Z) : colorType :=
  mk_color rgb.1.1 rgb.1.2 rgb.2 brightness.

(** The record in RAM after [saveRequest] has written [c] behind the saved
    colours, before [saveEEPROM]. *)
Definition appended (c : colorType) (g : Globals) : Globals :=
  set_settings (with_colorCount (colorCount (settings g) + 1) (settings g))
    (set_palette (<[Z.to_nat (colorCount (settings g)) := c]> (palette g)) g).

(** A colour [checkValidColor] lets through, as [uint8_t] fields. *)
Definition valid_color (c : colorType) : Prop :=
  0 <= rgb_0 c < 256 /\ 0 <= rgb_1 c < 256 /\ 0 <= rgb_2 c < 256 /\
  ~ (rgb_0 c = 0 /\ rgb_1 c = 0 /\ rgb_2 c = 0) /\
  0 <= brtns c <= 100.

(** The invariant of the device state: the record invariant, an active
    colour index within the array, a valid effect index, and saved colours
    that are valid and pairwise different. *)
Definition palette_ok (g : Globals) : Prop :=
  wf g /\
  activeColor (settings g) <= COLOR_COUNT /\
  0 <= activeEffect (settings g) < ARRAY_SIZE effects /\
  NoDup (saved g) /\
  Forall valid_color (saved g).

(** The commands the three sources (web server, MQTT, button) turn into
    calls of the handlers; [commit_ok] is what [EEPROM.commit] answers. *)
Inductive Command : Type :=
  | CmdColor (rgbHex : string) (brightness : Z)
  | CmdOff
  | CmdEffect (name : string)
  | CmdSave (commit_ok : bool) (rgbHex : string) (brightness : Z)
  | CmdDelete (commit_ok : bool) (rgbHex : string) (brightness : Z)
  | CmdClick (clickType : Z).

(** The brightness of a command is a [uint8_t] argument. *)
Definition command_uint8 (cmd : Command) : Prop :=
  match cmd with
  | CmdColor _ b | CmdSave _ _ b | CmdDelete _ _ b => 0 <= b < 256
  | _ => True
  end.

Definition run_command (struct_bytes : npControllerSettingType -> list colorType -> list Z)
    (cmd : Command) : M Z :=
  match cmd with
  | CmdColor rgbHex brightness => colorRequest rgbHex brightness
  | CmdOff => offRequest
  | CmdEffect name => effectRequest name
  | CmdSave commit_ok rgbHex brightness => saveRequest struct_bytes commit_ok rgbHex brightness
  | CmdDelete commit_ok rgbHex brightness => deleteRequest struct_bytes commit_ok rgbHex brightness
  | CmdClick clickType => do _ <- processClick clickType; ret 0
  end.

Fixpoint run_commands (struct_bytes : npControllerSettingType -> list colorType -> list Z)
    (cmds : list Command) : M unit :=
  match cmds with
  | [] => ret tt
  | cmd :: cmds' => do _ <- run_command struct_bytes cmd; run_commands struct_bytes cmds'
  end.

(** [n] clicks of one kind in a row. *)
Fixpoint clicks (clickType : Z) (n : nat) : M unit :=
  match n with
  | O => ret tt
  | S n' => do _ <- processClick clickType; clicks clickType n'
  end.

(** The inputs [checkValidColor] turns down. *)
Definition rejected_color (rgbHex : string) (brightness : Z) : Prop :=
  strlen rgbHex <> 6 \/
  100 < brightness \/
  (exists i c, 0 <= i < 6 /\ char_at rgbHex i = Some c /\ isxdigit c = false) \/
  parseHexColor rgbHex = Some (0, 0, 0).


(** The text [deleteResponse] puts in ["rsE"] for a result of
    [deleteRequest]. *)
Definition deleteResponse_rsE (deleteResult : Z) : string :=
  if negb (deleteResult =? 1) then
    if deleteResult =? 0 then "Error during saving to EEPROM."
    else if deleteResult =? 2 then "Wrong format for color/brightness."
    else "Color not found."
  else "".

(** The state after a click that leaves the program state [st] and the
    active colour index [k], respectively the active effect index [k]. *)
Definition color_clicked (st : TProgram_States) (k : Z) (g : Globals) : Globals :=
  with_changeNeopixel 1
    (set_settings (mk_setting (colorCount (settings g)) st k (activeEffect (settings g))) g).

Definition effect_clicked (st : TProgram_States) (k : Z) (g : Globals) : Globals :=
  with_changeNeopixel 1
    (set_settings (mk_setting (colorCount (settings g)) st (activeColor (settings g)) k) g).

(** One turn of the inner loop of [calculateCRC32], for the data bit [b]. *)
Definition crc_step (b : bool) (crc : Z) : Z :=
  let bit := negb (Z.land crc 0x80000000 =? 0) in
  let bit := if b then negb bit else bit in
  let crc := wrap32 (Z.shiftl crc 1) in
  if bit then Z.lxor crc 0x04c11db7 else crc.

(** ** JSON responses

    A response is the document the function fills before it is
    serialised into [strOutput]: the three members ["rsT"], ["rsE"] and
    ["rsV"], the last one absent when the function does not set it. *)

Inductive JsonValue : Type :=
  | JNumber (n : Z)
  | JText (s : string)
  | JColor (rgb : string) (brightness : Z)
  | JColors (l : list (string * Z)).

Record Response : Type := mk_response {
  rsT : string;
  rsE : string;
  rsV : option JsonValue
}.

(** [sprintf] with ["%02X"] on a [uint8_t]: two digits, letters in upper
    case. *)
Definition hex_digit (d : Z) : ascii :=
  ascii_of_N (Z.to_N (if d <? 10 then 48 + d else 55 + d)).

Definition sprintf_02X (v : Z) : string :=
  String (hex_digit (v / 16)) (String (hex_digit (v mod 16)) EmptyString).

(** [sprintf(rgbStr, "%02X%02X%02X", c.rgb[0], c.rgb[1], c.rgb[2])]. *)
Definition rgbStr (c : colorType) : string :=
  (sprintf_02X (rgb_0 c) ++ sprintf_02X (rgb_1 c) ++ sprintf_02X (rgb_2 c))%string.

(** The element of ["rsV"] for one colour. *)
Definition color_entry (c : colorType) : string * Z := (rgbStr c, brtns c).

(** The loop of [allResponse], [n] elements from index [i] on. *)
Fixpoint allResponse_from (n : nat) (i : Z) : M (list (string * Z)) :=
  match n with
  | O => ret []
  | S n' =>
      do c <- color_at i;
      do rest <- allResponse_from n' (wrap8 (i + 1));
      ret (color_entry c :: rest)
  end.

Definition allResponse : M Response :=
  do s <- setting;
  do l <- allResponse_from (Z.to_nat (colorCount s)) 0;
  ret (mk_response "all" "" (Some (JColors l))).

Definition colorResponse (colorResult : Z) : M Response :=
  if negb (colorResult =? 1) then
    ret (mk_response "color" "Wrong format of color/brightness." None)
  else
    do s <- setting;
    let colorIndex := activeColor s in
    do c <- color_at colorIndex;
    ret (mk_response "color" "" (Some (JColor (rgbStr c) (brtns c)))).

Definition offResponse : M Response :=
  ret (mk_response "off" "" (Some (JNumber 1))).

Definition effectResponse (effectResult : Z) : M Response :=
  if negb (effectResult =? 1) then
    ret (mk_response "effect" (effectResponse_rsE effectResult) None)
  else
    do s <- setting;
    do e <- lift (if 0 <=? activeEffect s
                  then effects !! Z.to_nat (activeEffect s) else None);
    ret (mk_response "effect" "" (Some (JText (effectName e)))).

Definition saveResponse (saveResult : Z) : M Response :=
  if negb (saveResult =? 1) then
    ret (mk_response "save" (saveResponse_rsE saveResult) None)
  else
    do s <- setting;
    let colorIndex := wrap8 (colorCount s - 1) in
    do c <- color_at colorIndex;
    ret (mk_response "save" "" (Some (JColor (rgbStr c) (brtns c)))).

Definition deleteResponse (deleteResult : Z) (rgbHex : string) (brightness : Z) : M Response :=
  if negb (deleteResult =? 1) then
    ret (mk_response "delete" (deleteResponse_rsE deleteResult) None)
  else
    ret (mk_response "delete" "" (Some (JColor rgbHex brightness))).

(** C's [toupper] on one character, and on a text. *)
Definition toupper (c : ascii) : ascii :=
  let n := char_code c in
  if (97 <=? n) && (n <=? 122) then ascii_of_N (Z.to_N (n - 32)) else c.

Fixpoint upper (s : string) : string :=
  match s with
  | EmptyString => EmptyString
  | String c s' => String (toupper c) (upper s')
  end.

(** ** The handlers of the REST API

    [char dst[n + 1]; strncpy(dst, src, n + 1); dst[n] = '\0';] as the text
    that [dst] holds afterwards: the first [n] characters of [src], or all
    of it when it is shorter. *)
Fixpoint strncpy_text (n : nat) (src : string) : string :=
  match n, src with
  | S n', String c src' =>
      if is_nul c then EmptyString else String c (strncpy_text n' src')
  | _, _ => EmptyString
  end.

(** The branches of the two [/api] handlers, from the copy of the
    arguments on.  [color] and [effect] are the texts of the arguments,
    [brightness_toInt] is what [toInt()] gave for the brightness; the
    result is the document sent with code 200. *)
Definition api_color (color : string) (brightness_toInt : Z) : M Response :=
  let rgbHex := strncpy_text 6 color in
  let brightness := wrap8 brightness_toInt in
  do colorResult <- colorRequest rgbHex brightness;
  colorResponse colorResult.

Definition api_off : M Response :=
  do _ <- offRequest;
  offResponse.

Definition api_effect (effect : string) : M Response :=
  let effectName := strncpy_text 9 effect in
  do effectResult <- effectRequest effectName;
  effectResponse effectResult.

Section Handlers.

Variable struct_bytes : npControllerSettingType -> list colorType -> list Z.

Definition api_save (commit_ok : bool) (color : string) (brightness_toInt : Z) : M Response :=
  let rgbHex := strncpy_text 6 color in
  let brightness := wrap8 brightness_toInt in
  do saveResult <- saveRequest struct_bytes commit_ok rgbHex brightness;
  saveResponse saveResult.

Definition api_delete (commit_ok : bool) (color : string) (brightness_toInt : Z) : M Response :=
  let rgbHex := strncpy_text 6 color in
  let brightness := wrap8 brightness_toInt in
  do deleteResult <- deleteRequest struct_bytes commit_ok rgbHex brightness;
  deleteResponse deleteResult rgbHex brightness.

End Handlers.

(** ** MQTT *)

Definition MQTT_MAX_PAYLOAD_LENGTH : Z := 15.

(** The loop of [findLastIndex].  Its test [i >= 0] holds for every
    [uint8_t], so it is left only by the [return] inside: after 256 turns
    [i] has its first value again and nothing has changed, and the search
    goes on for ever.  [None] stands for that and for a read outside the
    text; the [return -1] behind the loop is never reached. *)
Fixpoint findLastIndex_from (n : nat) (str : string) (x : ascii) (i : Z) : option Z :=
  match n with
  | O => None
  | S n' =>
      match char_at str i with
      | Some c => if Ascii.eqb c x then Some i
                  else findLastIndex_from n' str x (wrap8 (i - 1))
      | None => None
      end
  end.

Definition findLastIndex (str : string) (x : ascii) : option Z :=
  let len := wrap8 (strlen str) in
  findLastIndex_from 256 str x (wrap8 (len - 1)).

(** [memcpy] of the first [n] bytes, and the text behind [&s[n]]. *)
Fixpoint string_take (n : nat) (s : string) : string :=
  match n, s with
  | S n', String c s' => String c (string_take n' s')
  | _, _ => EmptyString
  end.

Fixpoint string_drop (n : nat) (s : string) : string :=
  match n, s with
  | S n', String _ s' => string_drop n' s'
  | _, _ => s
  end.

(** What [mqttCallback] publishes: a response on the response topic, the
    error text on the last-will topic, or nothing. *)
Inductive Published : Type :=
  | PublishResponse (r : Response)
  | PublishUnknown
  | PublishNothing.

Section Mqtt.

(** The C library's [atoi]. *)
Variable atoi : string -> Z.

(** [payload] holds the [length] bytes of the message.  The buffer
    [payloadMessage] is written up to its terminating zero only, so
    [&payloadMessage[7]] is a text when the payload has seven bytes or
    more, and is undefined otherwise. *)
Definition mqttCallback (topic payload : string) : M Published :=
  let length := Z.of_nat (String.length payload) in
  let payloadLength :=
    wrap8 (if MQTT_MAX_PAYLOAD_LENGTH - 1 <? length
           then MQTT_MAX_PAYLOAD_LENGTH - 1 else length) in
  let payloadMessage := string_take (Z.to_nat payloadLength) payload in
  do lastToken <- lift (findLastIndex topic "/");
  if (lastToken =? -1) || (6 <? wrap32 (strlen topic - (lastToken + 1)))
  then ret PublishNothing
  else
    let cmdType := string_drop (Z.to_nat (lastToken + 1)) topic in
    if strcmp cmdType "all" =? 0 then
      do r <- allResponse;
      ret (PublishResponse r)
    else if strcmp cmdType "color" =? 0 then
      let rgbHex := strncpy_text 6 payloadMessage in
      do number <- lift (if 7 <=? payloadLength
                         then Some (atoi (string_drop 7 payloadMessage)) else None);
      let brightness := wrap8 number in
      do colorResult <- colorRequest rgbHex brightness;
      do r <- colorResponse colorResult;
      ret (PublishResponse r)
    else if strcmp cmdType "off" =? 0 then
      do _ <- offRequest;
      do r <- offResponse;
      ret (PublishResponse r)
    else if strcmp cmdType "effect" =? 0 then
      do effectResult <- effectRequest payloadMessage;
      do r <- effectResponse effectResult;
      ret (PublishResponse r)
    else ret PublishUnknown.

End Mqtt.

(** [c] is not among the characters of [s]. *)
Definition absent (c : ascii) (s : string) : Prop :=
  forall i c', String.get i s = Some c' -> c' <> c.

(** A decimal reading of a text of digits, for the examples. *)
Fixpoint decimal_from (s : string) (acc : Z) : Z :=
  match s with
  | EmptyString => acc
  | String c s' =>
      let n := char_code c in
      if (48 <=? n) && (n <=? 57) then decimal_from s' (10 * acc + (n - 48)) else acc
  end.

Definition decimal (s : string) : Z := decimal_from s 0.

(** ** The effects [cylon] and [theatre]

    What an effect function writes to the array [leds], in the order of
    the writes; [fadeToBlackBy] dims all [NUM_LEDS] elements and
    [FastLED.clear()] sets them to black.  The array has the indices
    [0 .. NUM_LEDS - 1]. *)

Definition NUM_LEDS : Z := 16.

Inductive LedWrite : Type :=
  | SetLed (index : Z) (r g b : Z)
  | FadeToBlackBy (fadeBy : Z)
  | ClearData.

#[global] Instance LedWrite_eq_dec : EqDecision LedWrite.
Proof. solve_decision. Defined.

Definition cylon_writes (effectFrames actualFrame : Z) : list LedWrite :=
  let EyeSize := 2 in
  let half := Z.quot effectFrames 2 in
  let direction := negb (half <=? actualFrame) in
  let step_ :=
    if half <=? actualFrame
    then wrap8 (map_range actualFrame half (effectFrames - 1) 0 (NUM_LEDS - EyeSize))
    else wrap8 (map_range actualFrame 0 (half - 1) 0 (NUM_LEDS - EyeSize)) in
  (if direction && (step_ <? NUM_LEDS - EyeSize)
   then [SetLed (step_ + 2) (Z.quot 255 5) (Z.quot 0 5) (Z.quot 0 5)]
   else if 2 <? step_
        then [SetLed (NUM_LEDS - 1 - step_ - 2) (Z.quot 255 5) (Z.quot 0 5) (Z.quot 0 5)]
        else [])
  ++ [FadeToBlackBy 96]
  ++ (if direction
      then [SetLed (step_ + 0) 255 0 0; SetLed (step_ + 1) 255 0 0]
      else [SetLed (NUM_LEDS - 1 - step_ - 0) 255 0 0;
            SetLed (NUM_LEDS - 1 - step_ - 1) 255 0 0]).

(** The function as [loop] calls it: it reads [activeEffect], the table
    and [actualFrame]. *)
Definition cylon_effect : M (list LedWrite) :=
  do s <- setting;
  let effectIndex := activeEffect s in
  do e <- lift (if 0 <=? effectIndex then effects !! Z.to_nat effectIndex else None);
  do frame <- get_actualFrame;
  ret (cylon_writes (effectFrames e) frame).

(** The index of a write lies in the array. *)
Definition led_in_bounds (w : LedWrite) : bool :=
  match w with
  | SetLed index _ _ _ => (0 <=? index) && (index <? NUM_LEDS)
  | FadeToBlackBy _ | ClearData => true
  end.

(** What holds of the writes of [cylon] at frame [f]. *)
Definition cylon_frame_check (f : Z) : bool :=
  let ws := cylon_writes (EFFECT_FRAMES_PER_SECOND * 4) f in
  bool_decide (forallb led_in_bounds ws = negb ((f =? 59) || (f =? 119))) &&
  bool_decide (head ws = (if (f =? 59) || (f =? 119)
                          then Some (SetLed (-1) 51 0 0) else head ws)) &&
  forallb led_in_bounds (tail ws).

(** ** Sequences of passes and of commands *)




(** [int8_t] arithmetic. *)
Definition wrap8s (x : Z) : Z := (x + 2 ^ 7) mod 2 ^ 8 - 2 ^ 7.

(** The inner loop of [theatre], [n] turns from [j] on. *)
Fixpoint theatre_window (n : nat) (index j : Z) : list LedWrite :=
  match n with
  | O => []
  | S n' =>
      (if (0 <=? index + j) && (index + j <? NUM_LEDS - 1)
       then [SetLed (index + j) 255 0 0] else [])
      ++ theatre_window n' index (wrap8s (j + 1))
  end.

(** The outer loop of [theatre]: it runs while [i < NUM_LEDS + redWindow];
    [n] bounds the number of its turns. *)
Fixpoint theatre_windows (n : nat) (i step_ : Z) : list LedWrite :=
  let redWindow := 3 in
  let blackWindow := 2 in
  match n with
  | O => []
  | S n' =>
      if i <? NUM_LEDS + redWindow then
        let index := wrap8s (i + step_) in
        theatre_window (Z.to_nat redWindow) index 0
        ++ theatre_windows n' (wrap8s (i + (redWindow + blackWindow))) step_
      else []
  end.

Definition theatre_writes (effectFrames actualFrame : Z) : list LedWrite :=
  let redWindow := 3 in
  let blackWindow := 2 in
  let step_ := wrap8 (map_range actualFrame 0 (effectFrames - 1) 0
                        ((redWindow + blackWindow) * 10 - 1)) in
  let step_ := wrap8 (Z.quot step_ 10) in
  ClearData :: theatre_windows 256 (- redWindow - blackWindow) step_.

Definition theatre_effect : M (list LedWrite) :=
  do s <- setting;
  let effectIndex := activeEffect s in
  do e <- lift (if 0 <=? effectIndex then effects !! Z.to_nat effectIndex else None);
  do frame <- get_actualFrame;
  ret (theatre_writes (effectFrames e) frame).

(** The LEDs that a list of writes sets to red. *)
Definition set_red (ws : list LedWrite) (p : Z) : bool :=
  bool_decide (SetLed p 255 0 0 ∈ ws).

(** What holds of the writes of [theatre] at frame [f]: it clears, then
    sets to red the LEDs [p < NUM_LEDS - 1] with [(p - f / 3) mod 5 < 3],
    and nothing else. *)
Definition theatre_frame_check (f : Z) : bool :=
  let ws := theatre_writes (Z.quot EFFECT_FRAMES_PER_SECOND 2) f in
  bool_decide (head ws = Some ClearData) &&
  forallb (fun w => match w with
                    | SetLed p r g b =>
                        (0 <=? p) && (p <? NUM_LEDS - 1) && bool_decide ((r, g, b) = (255, 0, 0))
                    | FadeToBlackBy _ => false
                    | ClearData => false
                    end) (tail ws) &&
  forallb (fun p => bool_decide (set_red ws p = ((p - f / 3) mod 5 <? 3)))
          (List.map Z.of_nat (seq 0 15)).

(** * Properties *)

(** ** The monad and the array accesses *)

Lemma update_color_at (i : Z) (f : colorType -> colorType) (g : Globals) (c : colorType) :
  0 <= i -> palette g !! Z.to_nat i = Some c ->
  update_color i f g = Some (tt, set_palette (<[Z.to_nat i := f c]> (palette g)) g).
Proof.
  intros Hi Hc. unfold update_color, palette in *.
  destruct (Z.leb_spec 0 i); [|lia]. now rewrite Hc.
Qed.

Lemma color_at_lookup (i : Z) (g : Globals) (c : colorType) :
  0 <= i -> palette g !! Z.to_nat i = Some c -> color_at i g = Some (c, g).
Proof.
  intros Hi Hc. unfold color_at, palette in *.
  destruct (Z.leb_spec 0 i); [|lia]. now rewrite Hc.
Qed.

Lemma set_palette_twice (l1 l2 : list colorType) (g : Globals) :
  set_palette l2 (set_palette l1 g) = set_palette l2 g.
Proof. reflexivity. Qed.

Lemma set_palette_id (g : Globals) : set_palette (palette g) g = g.
Proof. now destruct g as [[? ? ?] ? ? ? ? ?]. Qed.

Lemma palette_set_palette (l : list colorType) (g : Globals) :
  palette (set_palette l g) = l.
Proof. reflexivity. Qed.

Lemma settings_set_palette (l : list colorType) (g : Globals) :
  settings (set_palette l g) = settings g.
Proof. reflexivity. Qed.

(** The four assignments [colors[i].brtns = ..; colors[i].rgb[0] = ..; ..]
    store one whole element. *)
Lemma update_color_fields {A} (i : Z) (rgb : Z * Z * Z) (brightness : Z) (k : M A)
    (g : Globals) :
  0 <= i -> (Z.to_nat i < length (palette g))%nat ->
  (do _ <- update_color i (with_brtns brightness);
   do _ <- update_color i (with_rgb_0 rgb.1.1);
   do _ <- update_color i (with_rgb_1 rgb.1.2);
   do _ <- update_color i (with_rgb_2 rgb.2);
   k) g
  = k (set_palette (<[Z.to_nat i := mk_color rgb.1.1 rgb.1.2 rgb.2 brightness]>
                      (palette g)) g).
Proof.
  intros Hi Hlen.
  destruct (lookup_lt_is_Some_2 _ _ Hlen) as [c Hc].
  unfold bind.
  rewrite (update_color_at i _ g c Hi Hc).
  do 3 (erewrite update_color_at; [|done|];
        [|rewrite !palette_set_palette; apply list_lookup_insert_eq;
          now rewrite ?length_insert];
        rewrite ?palette_set_palette, ?set_palette_twice, ?list_insert_insert_eq).
  reflexivity.
Qed.

(** ** [findColor] *)

Lemma same_color_test (c : colorType) (rgb : Z * Z * Z) (brightness : Z) :
  (brtns c =? brightness) && (rgb_0 c =? rgb.1.1) && (rgb_1 c =? rgb.1.2)
    && (rgb_2 c =? rgb.2) = true
  <-> same_color c rgb brightness.
Proof. unfold same_color. rewrite !andb_true_iff, !Z.eqb_eq. tauto. Qed.

Lemma findColor_from_spec (n : nat) (rgb : Z * Z * Z) (brightness : Z) (g : Globals) :
  forall i : Z,
    0 <= i ->
    i + Z.of_nat n <= Z.of_nat (length (palette g)) ->
    i + Z.of_nat n < 256 ->
    exists r, findColor_from n i rgb brightness g = Some (r, g)
              /\ find_result (palette g) i (i + Z.of_nat n) rgb brightness r.
Proof.
  induction n as [|n IH]; intros i Hi Hlen Hmax.
  - exists COLOR_COUNT. split; [reflexivity|]. right. split; [reflexivity|]. intros; lia.
  - assert (Hlt : (Z.to_nat i < length (palette g))%nat) by lia.
    destruct (lookup_lt_is_Some_2 _ _ Hlt) as [c Hc].
    cbn [findColor_from]. unfold bind at 1. rewrite (color_at_lookup i g c Hi Hc).
    destruct ((brtns c =? brightness) && (rgb_0 c =? rgb.1.1) && (rgb_1 c =? rgb.1.2)
              && (rgb_2 c =? rgb.2)) eqn:Htest.
    + exists i. split; [reflexivity|]. left. apply same_color_test in Htest.
      split; [lia|]. split; [eauto|]. intros; lia.
    + assert (Hno : ~ same_color c rgb brightness).
      { intros Hs. apply same_color_test in Hs. congruence. }
      assert (Hw : wrap8 (i + 1) = i + 1) by (unfold wrap8; apply Z.mod_small; lia).
      rewrite Hw.
      destruct (IH (i + 1)) as (r & Hr & Hres); [lia..|].
      exists r. split; [exact Hr|].
      replace (i + Z.of_nat (S n)) with (i + 1 + Z.of_nat n) by lia.
      destruct Hres as [(Hrange & Hc' & Hfirst)|(-> & Hnone)].
      * left. split; [lia|]. split; [exact Hc'|].
        intros j c' Hj Hjc. destruct (Z.eq_dec j i) as [->|Hne].
        -- rewrite Hc in Hjc. now inversion Hjc; subst.
        -- apply (Hfirst j); [lia|exact Hjc].
      * right. split; [reflexivity|].
        intros j c' Hj Hjc. destruct (Z.eq_dec j i) as [->|Hne].
        -- rewrite Hc in Hjc. now inversion Hjc; subst.
        -- apply (Hnone j); [lia|exact Hjc].
Qed.

Lemma findColor_spec (rgb : Z * Z * Z) (brightness : Z) (g : Globals) :
  wf g ->
  exists r, findColor rgb brightness g = Some (r, g)
            /\ find_result (palette g) 0 (colorCount (settings g)) rgb brightness r.
Proof.
  intros (Hcount & _ & Hlen). unfold COLOR_COUNT in *.
  unfold findColor, bind, setting. fold (settings g).
  destruct (Z.ltb_spec 0 (colorCount (settings g))) as [Hpos|Hzero].
  - destruct (findColor_from_spec (Z.to_nat (colorCount (settings g))) rgb brightness g 0)
      as (r & Hr & Hres); [lia..|].
    exists r. split; [exact Hr|].
    now replace (0 + Z.of_nat (Z.to_nat (colorCount (settings g))))
      with (colorCount (settings g)) in Hres by lia.
  - exists COLOR_COUNT. split; [reflexivity|]. right. split; [reflexivity|]. intros; lia.
Qed.

Lemma find_result_unique (l : list colorType) (lo hi : Z) (rgb : Z * Z * Z)
    (brightness r r' : Z) :
  hi <= COLOR_COUNT ->
  find_result l lo hi rgb brightness r -> find_result l lo hi rgb brightness r' -> r = r'.
Proof.
  intros Hhi [(Hr & (c & Hc & Hs) & Hfirst)|(-> & Hnone)]
             [(Hr' & (c' & Hc' & Hs') & Hfirst')|(-> & Hnone')].
  - destruct (Z.lt_trichotomy r r') as [Hlt|[Heq|Hgt]]; [|exact Heq|].
    + exfalso. apply (Hfirst' r c); [lia|exact Hc|exact Hs].
    + exfalso. apply (Hfirst r' c'); [lia|exact Hc'|exact Hs'].
  - exfalso. apply (Hnone' r c); [lia|exact Hc|exact Hs].
  - exfalso. apply (Hnone r' c'); [lia|exact Hc'|exact Hs'].
  - reflexivity.
Qed.

Lemma find_result_ext (l l' : list colorType) (lo hi : Z) (rgb : Z * Z * Z)
    (brightness r : Z) :
  (forall j, lo <= j < hi -> l' !! Z.to_nat j = l !! Z.to_nat j) ->
  find_result l lo hi rgb brightness r -> find_result l' lo hi rgb brightness r.
Proof.
  intros Hext [(Hr & (c & Hc & Hs) & Hfirst)|(-> & Hnone)].
  - left. split; [exact Hr|]. split.
    + exists c. rewrite Hext; [|lia]. now split.
    + intros j c' Hj Hjc. rewrite Hext in Hjc; [|lia]. now apply (Hfirst j c').
  - right. split; [reflexivity|].
    intros j c' Hj Hjc. rewrite Hext in Hjc; [|lia]. now apply (Hnone j c').
Qed.

(** Under the invariant the result of [findColor] is a saved index or
    [COLOR_COUNT], and it is decided by the saved colours alone. *)
Lemma findColor_inv (rgb : Z * Z * Z) (brightness r : Z) (g g' : Globals) :
  wf g -> findColor rgb brightness g = Some (r, g') ->
  g' = g /\ find_result (palette g) 0 (colorCount (settings g)) rgb brightness r.
Proof.
  intros Hwf Hfind. destruct (findColor_spec rgb brightness g Hwf) as (r0 & Hr0 & Hres).
  rewrite Hr0 in Hfind. now inversion Hfind; subst.
Qed.

Lemma findColor_ext (rgb : Z * Z * Z) (brightness r : Z) (g g' : Globals) :
  wf g -> wf g' ->
  colorCount (settings g') = colorCount (settings g) ->
  (forall j, 0 <= j < colorCount (settings g) ->
             palette g' !! Z.to_nat j = palette g !! Z.to_nat j) ->
  findColor rgb brightness g = Some (r, g) ->
  findColor rgb brightness g' = Some (r, g').
Proof.
  intros Hwf Hwf' Hset Hext Hfind.
  destruct (findColor_inv _ _ _ _ _ Hwf Hfind) as [_ Hres].
  destruct (findColor_spec rgb brightness g' Hwf') as (r' & Hr' & Hres').
  rewrite Hset in Hres'.
  assert (r' = r) as ->; [|exact Hr'].
  apply (find_result_unique (palette g') 0 (colorCount (settings g)) rgb brightness);
    [apply Hwf|exact Hres'|].
  now apply (find_result_ext (palette g)).
Qed.

(** ** [checkValidColor] and [parseHexColor] *)

Lemma checkValidColor_parse (rgbHex : string) (brightness : Z) :
  checkValidColor rgbHex brightness = Some 1 ->
  exists rgb, parseHexColor rgbHex = Some rgb.
Proof.
  unfold checkValidColor. destruct (negb (strlen rgbHex =? 6)); [discriminate|].
  destruct (checkValidColor_digits 6 0 rgbHex) as [[|]|]; [|discriminate..].
  destruct (parseHexColor rgbHex) as [rgb|]; [|discriminate]. eauto.
Qed.

(** What [checkValidColor] accepts: six characters, all hexadecimal
    digits, not the colour 000000, and a brightness of at most 100. *)
Lemma checkValidColor_accepts (rgbHex : string) (brightness : Z) :
  checkValidColor rgbHex brightness = Some 1
  <-> strlen rgbHex = 6 /\
      checkValidColor_digits 6 0 rgbHex = Some true /\
      (exists rgb, parseHexColor rgbHex = Some rgb /\ rgb <> (0, 0, 0)) /\
      brightness <= 100.
Proof.
  unfold checkValidColor. split.
  - destruct (Z.eqb_spec (strlen rgbHex) 6) as [Hlen|]; [|discriminate]. cbn [negb].
    destruct (checkValidColor_digits 6 0 rgbHex) as [[|]|]; [|discriminate..].
    destruct (parseHexColor rgbHex) as [[[r gr] b]|]; [|discriminate].
    destruct (Z.eqb_spec r 0), (Z.eqb_spec gr 0), (Z.eqb_spec b 0); cbn [andb];
      try discriminate;
      (destruct (Z.ltb_spec 100 brightness); [discriminate|]; intros _;
       repeat split; try assumption; eexists; split; [reflexivity|congruence]).
  - intros (Hlen & Hdigits & (rgb & Hparse & Hne) & Hb).
    rewrite Hlen, Hdigits, Hparse. cbn [Z.eqb negb]. destruct rgb as [[r gr] b].
    destruct (Z.ltb_spec 100 brightness); [lia|].
    destruct (Z.eqb_spec r 0), (Z.eqb_spec gr 0), (Z.eqb_spec b 0); cbn [andb];
      try reflexivity. subst. contradiction.
Qed.

(** ** [colorRequest] *)

Lemma wf_color_shown (i : Z) (c : colorType) (g : Globals) :
  wf g -> 0 <= i < 256 -> wf (color_shown i c g).
Proof.
  intros (Hcount & _ & Hlen) Hi. split; [exact Hcount|]. split; [exact Hi|].
  unfold color_shown; cbn. rewrite length_insert. exact Hlen.
Qed.

Lemma find_result_uint8 (l : list colorType) (hi : Z) (rgb : Z * Z * Z) (brightness r : Z) :
  0 <= hi <= COLOR_COUNT -> find_result l 0 hi rgb brightness r -> 0 <= r < 256.
Proof. intros Hhi [(Hr & _)|(Hr & _)]; unfold COLOR_COUNT in *; lia. Qed.

Lemma find_result_range (l : list colorType) (hi : Z) (rgb : Z * Z * Z) (brightness r : Z) :
  0 <= hi <= COLOR_COUNT -> find_result l 0 hi rgb brightness r ->
  (0 <= r < hi) \/ r = COLOR_COUNT.
Proof. intros Hhi [(Hr & _)|(-> & _)]; [now left|now right]. Qed.

Lemma colorRequest_valid (rgbHex : string) (brightness : Z) (rgb : Z * Z * Z) (i : Z)
    (g : Globals) :
  wf g ->
  checkValidColor rgbHex brightness = Some 1 ->
  parseHexColor rgbHex = Some rgb ->
  findColor rgb brightness g = Some (i, g) ->
  colorRequest rgbHex brightness g
  = Some (1, color_shown i (mk_color rgb.1.1 rgb.1.2 rgb.2 brightness) g).
Proof.
  intros Hwf Hvalid Hparse Hfind.
  destruct (findColor_inv _ _ _ _ _ Hwf Hfind) as [_ Hres].
  pose proof (find_result_range _ _ _ _ _ (proj1 Hwf) Hres) as Hrange.
  destruct Hwf as (Hcount & Hactive & Hlen). unfold COLOR_COUNT in *.
  set (g1 := with_changeNeopixel 1
               (set_settings (with_programState NEOPIXEL_COLOR (settings g)) g)).
  assert (Hwf1 : wf g1) by (repeat split; try apply Hcount; try apply Hactive; assumption).
  assert (Hfind1 : findColor rgb brightness g1 = Some (i, g1)).
  { apply (findColor_ext rgb brightness i g g1); [repeat split; try apply Hcount; try apply Hactive; assumption|exact Hwf1|
      reflexivity|reflexivity|exact Hfind]. }
  unfold colorRequest, bind at 1, lift at 1. rewrite Hvalid. cbn [Z.eqb negb].
  unfold bind at 1, update_setting. unfold bind at 1, set_changeNeopixel.
  unfold bind at 1, lift. rewrite Hparse.
  unfold bind at 1. fold (settings g). fold (set_settings (with_programState NEOPIXEL_COLOR (settings g)) g).
  fold g1. rewrite Hfind1.
  rewrite update_color_fields; [reflexivity|lia|].
  change (palette g1) with (palette g). lia.
Qed.

Lemma color_shown_twice (i : Z) (c : colorType) (g : Globals) :
  color_shown i c (color_shown i c g) = color_shown i c g.
Proof.
  destruct g as [[crc [cnt st ac ae] cols] af lnr chg dat fl].
  unfold color_shown, set_settings, set_palette, settings, palette; cbn.
  now rewrite list_insert_insert_eq.
Qed.

Lemma saved_color_shown (i : Z) (c : colorType) (g : Globals) :
  colorCount (settings g) <= i -> 0 <= colorCount (settings g) ->
  saved (color_shown i c g) = saved g.
Proof.
  intros Hi Hcount. unfold saved, color_shown; cbn.
  apply take_insert_ge. lia.
Qed.

(** A colour found at a saved index is overwritten with itself. *)
Lemma find_result_insert_id (l : list colorType) (hi : Z) (rgb : Z * Z * Z)
    (brightness i : Z) :
  hi <= COLOR_COUNT -> i < COLOR_COUNT ->
  find_result l 0 hi rgb brightness i ->
  <[Z.to_nat i := mk_color rgb.1.1 rgb.1.2 rgb.2 brightness]> l = l.
Proof.
  intros Hhi Hi [(Hr & (c & Hc & Hs) & _)|(-> & _)]; [|lia].
  apply list_insert_id. rewrite Hc. f_equal.
  destruct c as [r0 r1 r2 br]. destruct Hs as (Hb & H0 & H1 & H2); cbn in *. now subst.
Qed.

(** The invariant of a concrete state, by evaluation. *)
Ltac wf_by_computation := repeat split; vm_compute; (reflexivity || discriminate).

(** ** The claims on [colorRequest] *)

(** C6. For a colour that [checkValidColor] accepts (six hexadecimal
    digits, not black, brightness at most 100) [colorRequest] is
    idempotent: the second call with the same arguments succeeds and
    leaves the state the first call produced (program state, active
    colour and effect, palette, and everything else) as it is. *)
Theorem colorRequest_idempotent (rgbHex : string) (brightness : Z) (g : Globals) :
  wf g ->
  checkValidColor rgbHex brightness = Some 1 ->
  exists g',
    colorRequest rgbHex brightness g = Some (1, g') /\
    colorRequest rgbHex brightness g' = Some (1, g').
Proof.
  intros Hwf Hvalid.
  destruct (checkValidColor_parse _ _ Hvalid) as [rgb Hparse].
  destruct (findColor_spec rgb brightness g Hwf) as (i & Hfind & Hres).
  set (c := mk_color rgb.1.1 rgb.1.2 rgb.2 brightness).
  assert (Hwf' : wf (color_shown i c g)).
  { apply wf_color_shown; [exact Hwf|].
    apply (find_result_uint8 _ _ _ _ _ (proj1 Hwf) Hres). }
  exists (color_shown i c g).
  split; [now apply colorRequest_valid|].
  rewrite (colorRequest_valid rgbHex brightness rgb i (color_shown i c g));
    [now rewrite color_shown_twice|exact Hwf'|exact Hvalid|exact Hparse|].
  apply (findColor_ext rgb brightness i g); [exact Hwf|exact Hwf'|
    reflexivity| |exact Hfind].
  intros j Hj. unfold color_shown; cbn. fold (palette g).
  destruct (find_result_range _ _ _ _ _ (proj1 Hwf) Hres) as [Hin| ->].
  - unfold c. rewrite (find_result_insert_id (palette g) (colorCount (settings g)));
      [reflexivity|apply Hwf|destruct Hwf; lia|exact Hres].
  - apply list_lookup_insert_ne. destruct Hwf as [Hc _]. unfold COLOR_COUNT in *. lia.
Qed.

Lemma colorRequest_idempotent_witness :
  exists g',
    colorRequest "00FF00" 80 (example_state (mk_setting 1 NEOPIXEL_OFF 0 0) [red] zero_color)
      = Some (1, g') /\
    colorRequest "00FF00" 80 g' = Some (1, g').
Proof.
  apply colorRequest_idempotent.
  - wf_by_computation.
  - reflexivity.
Defined.

(** C8. A valid [colorRequest] changes neither [colorCount] nor any saved
    entry [colors[0 .. colorCount-1]].  When [findColor] returns a saved
    index the element written there already held these values, so the
    whole array is unchanged; when it returns [COLOR_COUNT] the only
    element written is the one at index [COLOR_COUNT]. *)
Theorem colorRequest_keeps_saved (rgbHex : string) (brightness : Z) (g : Globals) :
  wf g ->
  checkValidColor rgbHex brightness = Some 1 ->
  exists g' rgb i,
    parseHexColor rgbHex = Some rgb /\
    findColor rgb brightness g = Some (i, g) /\
    colorRequest rgbHex brightness g = Some (1, g') /\
    colorCount (settings g') = colorCount (settings g) /\
    saved g' = saved g /\
    (forall j, 0 <= j < colorCount (settings g) ->
               palette g' !! Z.to_nat j = palette g !! Z.to_nat j) /\
    (i < COLOR_COUNT -> palette g' = palette g) /\
    (i = COLOR_COUNT ->
     palette g' = <[Z.to_nat COLOR_COUNT := mk_color rgb.1.1 rgb.1.2 rgb.2 brightness]>
                    (palette g)).
Proof.
  intros Hwf Hvalid.
  destruct (checkValidColor_parse _ _ Hvalid) as [rgb Hparse].
  destruct (findColor_spec rgb brightness g Hwf) as (i & Hfind & Hres).
  set (c := mk_color rgb.1.1 rgb.1.2 rgb.2 brightness).
  exists (color_shown i c g), rgb, i.
  assert (Hfound : i < COLOR_COUNT -> palette (color_shown i c g) = palette g).
  { intros Hi. unfold color_shown; cbn. fold (palette g). unfold c.
    apply (find_result_insert_id (palette g) (colorCount (settings g)));
      [apply Hwf|exact Hi|exact Hres]. }
  assert (Hnew : i = COLOR_COUNT ->
                 palette (color_shown i c g) = <[Z.to_nat COLOR_COUNT := c]> (palette g)).
  { now intros ->. }
  split; [exact Hparse|]. split; [exact Hfind|].
  split; [now apply colorRequest_valid|]. split; [reflexivity|].
  destruct (find_result_range _ _ _ _ _ (proj1 Hwf) Hres) as [Hin|Heq].
  - assert (Hi : i < COLOR_COUNT) by (destruct Hwf; lia).
    split; [unfold saved; now rewrite Hfound|].
    split; [intros j _; now rewrite Hfound|]. split; [exact Hfound|exact Hnew].
  - split; [apply saved_color_shown; destruct Hwf; lia|].
    split; [|split; [exact Hfound|exact Hnew]].
    intros j Hj. rewrite Hnew by exact Heq. apply list_lookup_insert_ne.
    destruct Hwf as [Hc _]. unfold COLOR_COUNT in *. lia.
Qed.

Lemma colorRequest_keeps_saved_witness :
  exists g' rgb i,
    parseHexColor "00FF00" = Some rgb /\
    findColor rgb 80 (example_state (mk_setting 1 NEOPIXEL_OFF 0 0) [red] zero_color)
      = Some (i, example_state (mk_setting 1 NEOPIXEL_OFF 0 0) [red] zero_color) /\
    colorRequest "00FF00" 80 (example_state (mk_setting 1 NEOPIXEL_OFF 0 0) [red] zero_color)
      = Some (1, g') /\
    colorCount (settings g') = 1 /\
    saved g' = [red] /\
    (forall j, 0 <= j < 1 ->
       palette g' !! Z.to_nat j
       = palette (example_state (mk_setting 1 NEOPIXEL_OFF 0 0) [red] zero_color) !! Z.to_nat j) /\
    (i < COLOR_COUNT ->
     palette g' = palette (example_state (mk_setting 1 NEOPIXEL_OFF 0 0) [red] zero_color)) /\
    (i = COLOR_COUNT ->
     palette g' = <[Z.to_nat COLOR_COUNT := mk_color rgb.1.1 rgb.1.2 rgb.2 80]>
                    (palette (example_state (mk_setting 1 NEOPIXEL_OFF 0 0) [red] zero_color))).
Proof.
  apply (colorRequest_keeps_saved "00FF00" 80
           (example_state (mk_setting 1 NEOPIXEL_OFF 0 0) [red] zero_color)).
  - wf_by_computation.
  - reflexivity.
Defined.

(** ** The claim on a full palette *)

(** C3. With [colorCount = COLOR_COUNT], [saveRequest] returns 4, the
    result [saveResponse] reports as the maximum number of colours being
    saved, for every text and every brightness, valid or not, saved or
    not, whatever the commit would have answered, and leaves all of the
    state as it was. *)
Theorem saveRequest_full (struct_bytes : npControllerSettingType -> list colorType -> list Z)
    (commit_ok : bool) (rgbHex : string) (brightness : Z) (g : Globals) :
  colorCount (settings g) = COLOR_COUNT ->
  saveRequest struct_bytes commit_ok rgbHex brightness g = Some (4, g) /\
  saveResponse_rsE 4 = "Maximum number of colors saved."%string.
Proof.
  intros Hfull. split; [|reflexivity].
  unfold saveRequest, bind, setting. fold (settings g).
  now rewrite Hfull.
Qed.

Lemma saveRequest_full_witness :
  saveRequest esp8266_struct_bytes true "00FF00" 10 full_state = Some (4, full_state) /\
  saveRequest esp8266_struct_bytes true "not a colour" 200 full_state = Some (4, full_state) /\
  saveRequest esp8266_struct_bytes false "FF0000" 50 full_state = Some (4, full_state).
Proof.
  split; [apply (saveRequest_full esp8266_struct_bytes true "00FF00" 10); reflexivity|].
  split; [apply (saveRequest_full esp8266_struct_bytes true "not a colour" 200); reflexivity|].
  apply (saveRequest_full esp8266_struct_bytes false "FF0000" 50); reflexivity.
Defined.

(** ** The claims on the button *)

(** C2, as it holds.  With two saved colours, the program off and the
    active colour at index 0 (or at [COLOR_COUNT], the unsaved colour),
    three single clicks give: [NEOPIXEL_COLOR] with index 0; then index 1,
    still [NEOPIXEL_COLOR]; then [NEOPIXEL_OFF] with index 0.  The palette
    and [colorCount] stay as they are throughout. *)
Theorem single_click_cycle (g : Globals) :
  colorCount (settings g) = 2 ->
  programState (settings g) = NEOPIXEL_OFF ->
  activeColor (settings g) = 0 \/ activeColor (settings g) = COLOR_COUNT ->
  exists g1 g2 g3,
    processClick BUTTON_SINGLE_CLICK g = Some (tt, g1) /\
    programState (settings g1) = NEOPIXEL_COLOR /\ activeColor (settings g1) = 0 /\
    processClick BUTTON_SINGLE_CLICK g1 = Some (tt, g2) /\
    programState (settings g2) = NEOPIXEL_COLOR /\ activeColor (settings g2) = 1 /\
    processClick BUTTON_SINGLE_CLICK g2 = Some (tt, g3) /\
    programState (settings g3) = NEOPIXEL_OFF /\ activeColor (settings g3) = 0 /\
    palette g3 = palette g /\ colorCount (settings g3) = 2.
Proof.
  destruct g as [[crc [cnt st ac ae] cols] af lnr chg dat fl].
  unfold settings, palette; cbn. intros -> -> [-> | ->];
    (do 3 eexists; repeat split; reflexivity).
Qed.

Lemma single_click_cycle_witness :
  exists g1 g2 g3,
    processClick BUTTON_SINGLE_CLICK
      (example_state (mk_setting 2 NEOPIXEL_OFF 0 0) [red; green] zero_color) = Some (tt, g1) /\
    programState (settings g1) = NEOPIXEL_COLOR /\ activeColor (settings g1) = 0 /\
    processClick BUTTON_SINGLE_CLICK g1 = Some (tt, g2) /\
    programState (settings g2) = NEOPIXEL_COLOR /\ activeColor (settings g2) = 1 /\
    processClick BUTTON_SINGLE_CLICK g2 = Some (tt, g3) /\
    programState (settings g3) = NEOPIXEL_OFF /\ activeColor (settings g3) = 0 /\
    palette g3 = palette (example_state (mk_setting 2 NEOPIXEL_OFF 0 0) [red; green] zero_color) /\
    colorCount (settings g3) = 2.
Proof.
  apply (single_click_cycle
           (example_state (mk_setting 2 NEOPIXEL_OFF 0 0) [red; green] zero_color)).
  - reflexivity.
  - reflexivity.
  - left. reflexivity.
Defined.

(** C2 as stated fails when the program is off with the second colour
    still active: the first click shows that colour again, index 1. *)
Lemma single_click_resumes_last_color :
  let g := example_state (mk_setting 2 NEOPIXEL_OFF 1 0) [red; green] zero_color in
  colorCount (settings g) = 2 /\
  programState (settings g) = NEOPIXEL_OFF /\
  saved g = [red; green] /\
  exists g1, processClick BUTTON_SINGLE_CLICK g = Some (tt, g1) /\
             programState (settings g1) = NEOPIXEL_COLOR /\
             activeColor (settings g1) = 1 /\
             activeColor (settings g1) <> 0.
Proof.
  cbn zeta. split; [reflexivity|]. split; [reflexivity|]. split; [reflexivity|].
  eexists. split; [vm_compute; reflexivity|]. split; [reflexivity|]. split; [reflexivity|].
  vm_compute. discriminate.
Qed.

(** ** [deleteRequest] *)

(** One pass of the body of the shifting loop copies [colors[i]] over
    [colors[p]]. *)
Lemma deleteRequest_shift_body {A} (i p : Z) (c : colorType) (k : M A) (g : Globals) :
  0 <= i -> 0 <= p -> p <> i ->
  palette g !! Z.to_nat i = Some c ->
  (Z.to_nat p < length (palette g))%nat ->
  (do c <- color_at i; do _ <- update_color p (with_brtns (brtns c));
   do c <- color_at i; do _ <- update_color p (with_rgb_0 (rgb_0 c));
   do c <- color_at i; do _ <- update_color p (with_rgb_1 (rgb_1 c));
   do c <- color_at i; do _ <- update_color p (with_rgb_2 (rgb_2 c));
   k) g
  = k (set_palette (<[Z.to_nat p := c]> (palette g)) g).
Proof.
  intros Hi Hp Hne Hc Hlen.
  destruct (lookup_lt_is_Some_2 _ _ Hlen) as [cp Hcp].
  assert (Hnat : Z.to_nat p <> Z.to_nat i) by lia.
  unfold bind.
  rewrite (color_at_lookup i g c Hi Hc), (update_color_at p _ g cp Hp Hcp).
  do 3 (erewrite color_at_lookup; [|done|];
        [|rewrite !palette_set_palette, list_lookup_insert_ne by exact Hnat; exact Hc];
        erewrite update_color_at; [|done|];
        [|rewrite !palette_set_palette; apply list_lookup_insert_eq;
          now rewrite ?length_insert];
        rewrite ?palette_set_palette, ?set_palette_twice, ?list_insert_insert_eq).
  now destruct c, cp.
Qed.

Lemma deleteRequest_shift_spec (n : nat) :
  forall (i : Z) (g : Globals),
    1 <= i ->
    i + Z.of_nat n <= Z.of_nat (length (palette g)) ->
    i + Z.of_nat n < 256 ->
    exists l',
      deleteRequest_shift n i g = Some (tt, set_palette l' g) /\
      length l' = length (palette g) /\
      forall j, l' !! j = shifted (palette g) (i - 1) (i - 1 + Z.of_nat n) j.
Proof.
  induction n as [|n IH]; intros i g Hi Hlen Hmax.
  - exists (palette g). split; [now rewrite set_palette_id|]. split; [reflexivity|].
    intros j. unfold shifted.
    destruct (Z.leb_spec (i - 1) (Z.of_nat j)), (Z.ltb_spec (Z.of_nat j) (i - 1 + Z.of_nat 0));
      cbn; try reflexivity; lia.
  - assert (Hlt : (Z.to_nat i < length (palette g))%nat) by lia.
    destruct (lookup_lt_is_Some_2 _ _ Hlt) as [c Hc].
    assert (Hprev : wrap8 (i - 1) = i - 1) by (unfold wrap8; apply Z.mod_small; lia).
    assert (Hnext : wrap8 (i + 1) = i + 1) by (unfold wrap8; apply Z.mod_small; lia).
    cbn [deleteRequest_shift]. cbv zeta. rewrite Hprev, Hnext.
    rewrite (deleteRequest_shift_body i (i - 1) c); [|lia|lia|lia|exact Hc|lia].
    set (l1 := <[Z.to_nat (i - 1) := c]> (palette g)).
    destruct (IH (i + 1) (set_palette l1 g)) as (l' & Hrun & Hlen' & Hl');
      [lia|rewrite palette_set_palette; unfold l1; rewrite length_insert; lia|lia|].
    rewrite palette_set_palette in Hlen', Hl'.
    exists l'. split; [now rewrite Hrun, set_palette_twice|].
    split; [rewrite Hlen'; unfold l1; now rewrite length_insert|].
    intros j. rewrite Hl'. unfold shifted, l1.
    replace (i + 1 - 1) with i by lia.
    destruct (Z.leb_spec i (Z.of_nat j)), (Z.ltb_spec (Z.of_nat j) (i + Z.of_nat n)),
             (Z.leb_spec (i - 1) (Z.of_nat j)),
             (Z.ltb_spec (Z.of_nat j) (i - 1 + Z.of_nat (S n)));
      cbn [andb]; try lia;
      try (rewrite list_lookup_insert_ne by lia; reflexivity).
    replace (Z.to_nat (i - 1)) with j by lia.
    rewrite list_lookup_insert_eq by lia.
    now replace (S j) with (Z.to_nat i) by lia.
Qed.

Lemma bind_run {A B} (m : M A) (k : A -> M B) (g g1 : Globals) (a : A) :
  m g = Some (a, g1) -> (do x <- m; k x) g = k a g1.
Proof. intros H. unfold bind. now rewrite H. Qed.

Lemma lift_run {A} (o : option A) (a : A) (g : Globals) :
  o = Some a -> lift o g = Some (a, g).
Proof. now intros ->. Qed.

Lemma saveEEPROM_spec (struct_bytes : npControllerSettingType -> list colorType -> list Z)
    (commit_ok : bool) (g : Globals) :
  saveEEPROM struct_bytes commit_ok g
  = Some (if commit_ok then 1 else 0, committed struct_bytes commit_ok g).
Proof. now destruct commit_ok. Qed.

Lemma palette_committed struct_bytes commit_ok (g : Globals) :
  palette (committed struct_bytes commit_ok g) = palette g.
Proof. now destruct commit_ok. Qed.

Lemma settings_committed struct_bytes commit_ok (g : Globals) :
  settings (committed struct_bytes commit_ok g) = settings g.
Proof. now destruct commit_ok. Qed.

Lemma deleteRequest_found (struct_bytes : npControllerSettingType -> list colorType -> list Z)
    (commit_ok : bool) (rgbHex : string) (brightness : Z) (rgb : Z * Z * Z) (i : Z)
    (g : Globals) :
  wf g ->
  checkValidColor rgbHex brightness = Some 1 ->
  parseHexColor rgbHex = Some rgb ->
  findColor rgb brightness g = Some (i, g) ->
  i <> COLOR_COUNT ->
  exists g',
    deleteRequest struct_bytes commit_ok rgbHex brightness g
      = Some (if commit_ok then 1 else 0, g') /\
    settings g' = mk_setting (colorCount (settings g) - 1) (programState (settings g))
                    (activeColor_after_delete (activeColor (settings g)) i)
                    (activeEffect (settings g)) /\
    length (palette g') = length (palette g) /\
    forall j, palette g' !! j
              = shifted (<[Z.to_nat i := zero_color]> (palette g)) i
                        (colorCount (settings g) - 1) j.
Proof.
  intros Hwf Hvalid Hparse Hfind Hne.
  destruct (findColor_inv _ _ _ _ _ Hwf Hfind) as [_ Hres].
  destruct (find_result_range _ _ _ _ _ (proj1 Hwf) Hres) as [Hi|Heq]; [|contradiction].
  destruct Hwf as (Hcount & Hactive & Hlen). unfold COLOR_COUNT in *.
  assert (Hlt : (Z.to_nat i < length (palette g))%nat) by lia.
  destruct (lookup_lt_is_Some_2 _ _ Hlt) as [c Hc].
  set (l0 := <[Z.to_nat i := zero_color]> (palette g)).
  assert (Hnext : wrap8 (i + 1) = i + 1) by (unfold wrap8; apply Z.mod_small; lia).
  destruct (deleteRequest_shift_spec
              (Z.to_nat (colorCount (settings g) - (i + 1))) (i + 1) (set_palette l0 g))
    as (l' & Hshift & Hlen' & Hl');
    [lia|rewrite palette_set_palette; unfold l0; rewrite length_insert; lia|lia|].
  rewrite palette_set_palette in Hlen', Hl'. rewrite set_palette_twice in Hshift.
  set (active := activeColor_after_delete (activeColor (settings g)) i).
  set (g2 := set_settings (with_activeColor active (settings g)) (set_palette l' g)).
  set (g3 := set_settings (with_colorCount (colorCount (settings g) - 1) (settings g2)) g2).
  exists (committed struct_bytes commit_ok g3). split.
  { unfold deleteRequest.
    rewrite (bind_run _ _ g g 1 (lift_run _ _ _ Hvalid)).
    cbn [Z.eqb negb].
    rewrite (bind_run _ _ g g rgb (lift_run _ _ _ Hparse)).
    rewrite (bind_run _ _ g g i Hfind).
    destruct (Z.eqb_spec i COLOR_COUNT) as [Heq|_]; [contradiction|].
    rewrite (bind_run _ _ g (set_palette l0 g) tt (update_color_at i resetColor g c (proj1 Hi) Hc)).
    rewrite (bind_run setting _ (set_palette l0 g) (set_palette l0 g) (settings g) eq_refl).
    rewrite Hnext.
    rewrite (bind_run _ _ (set_palette l0 g) (set_palette l' g) tt Hshift).
    rewrite (bind_run _ _ (set_palette l' g) g2 tt).
    2:{ unfold g2, active, activeColor_after_delete.
        destruct (activeColor (settings g) =? i); [reflexivity|].
        destruct (Z.ltb_spec i (activeColor (settings g))) as [Hgt|Hle].
        - unfold update_setting. cbn. unfold wrap8.
          rewrite Z.mod_small by (fold (settings g); lia). reflexivity.
        - unfold ret. f_equal. f_equal.
          destruct g as [[crc [cnt st ac ae] cols] af lnr chg dat fl]. reflexivity. }
    rewrite (bind_run _ _ g2 g3 tt).
    2:{ unfold update_setting. cbn. unfold wrap8.
        rewrite Z.mod_small by (fold (settings g); lia). reflexivity. }
    apply saveEEPROM_spec. }
  rewrite settings_committed, palette_committed. cbn.
  split; [reflexivity|]. split; [rewrite Hlen'; unfold l0; now rewrite length_insert|].
  intros j. rewrite Hl'. fold (settings g).
  now replace (i + 1 - 1 + Z.of_nat (Z.to_nat (colorCount (settings g) - (i + 1))))
    with (colorCount (settings g) - 1) by lia;
    replace (i + 1 - 1) with i by lia.
Qed.

(** ** The claims on [deleteRequest] *)

(** C4. After a successful [deleteRequest] of the saved colour at index
    [i]: an active index equal to [i] becomes 0, an active index above
    [i] goes down by one, an active index below [i] stays. *)
Theorem deleteRequest_activeColor
    (struct_bytes : npControllerSettingType -> list colorType -> list Z)
    (rgbHex : string) (brightness : Z) (rgb : Z * Z * Z) (i : Z) (g : Globals) :
  wf g ->
  checkValidColor rgbHex brightness = Some 1 ->
  parseHexColor rgbHex = Some rgb ->
  findColor rgb brightness g = Some (i, g) ->
  i <> COLOR_COUNT ->
  exists g',
    deleteRequest struct_bytes true rgbHex brightness g = Some (1, g') /\
    (activeColor (settings g) = i -> activeColor (settings g') = 0) /\
    (i < activeColor (settings g) ->
     activeColor (settings g') = activeColor (settings g) - 1) /\
    (activeColor (settings g) < i ->
     activeColor (settings g') = activeColor (settings g)).
Proof.
  intros Hwf Hvalid Hparse Hfind Hne.
  destruct (deleteRequest_found struct_bytes true rgbHex brightness rgb i g
              Hwf Hvalid Hparse Hfind Hne) as (g' & Hrun & Hset & _).
  exists g'. split; [exact Hrun|]. rewrite Hset. cbn. unfold activeColor_after_delete.
  destruct (Z.eqb_spec (activeColor (settings g)) i), (Z.ltb_spec i (activeColor (settings g)));
    repeat split; intros; lia.
Qed.

Lemma deleteRequest_activeColor_witness :
  exists g',
    deleteRequest esp8266_struct_bytes true "00ff00" 80 (three_colors 2) = Some (1, g') /\
    (activeColor (settings (three_colors 2)) = 1 -> activeColor (settings g') = 0) /\
    (1 < activeColor (settings (three_colors 2)) ->
     activeColor (settings g') = activeColor (settings (three_colors 2)) - 1) /\
    (activeColor (settings (three_colors 2)) < 1 ->
     activeColor (settings g') = activeColor (settings (three_colors 2))).
Proof.
  apply (deleteRequest_activeColor esp8266_struct_bytes "00ff00" 80 (0, 255, 0) 1
           (three_colors 2)).
  - wf_by_computation.
  - reflexivity.
  - reflexivity.
  - reflexivity.
  - vm_compute. discriminate.
Defined.

(** C5. After a successful [deleteRequest] of the saved colour at index
    [i] (at any saved index, so in particular for [i < colorCount - 1]):
    [colorCount] is one less, the entries below [i] stay where they were,
    each entry at an index [j > i] is now at [j - 1], and the saved
    colours are the former ones without the [i]-th, in the same order. *)
Theorem deleteRequest_shifts_down
    (struct_bytes : npControllerSettingType -> list colorType -> list Z)
    (rgbHex : string) (brightness : Z) (rgb : Z * Z * Z) (i : Z) (g : Globals) :
  wf g ->
  checkValidColor rgbHex brightness = Some 1 ->
  parseHexColor rgbHex = Some rgb ->
  findColor rgb brightness g = Some (i, g) ->
  i <> COLOR_COUNT ->
  exists g',
    deleteRequest struct_bytes true rgbHex brightness g = Some (1, g') /\
    colorCount (settings g') = colorCount (settings g) - 1 /\
    (forall j, 0 <= j < i -> palette g' !! Z.to_nat j = palette g !! Z.to_nat j) /\
    (forall j, i < j < colorCount (settings g) ->
               palette g' !! Z.to_nat (j - 1) = palette g !! Z.to_nat j) /\
    saved g' = delete (Z.to_nat i) (saved g).
Proof.
  intros Hwf Hvalid Hparse Hfind Hne.
  destruct (deleteRequest_found struct_bytes true rgbHex brightness rgb i g
              Hwf Hvalid Hparse Hfind Hne) as (g' & Hrun & Hset & Hlen & Hl).
  destruct (findColor_inv _ _ _ _ _ Hwf Hfind) as [_ Hres].
  destruct (find_result_range _ _ _ _ _ (proj1 Hwf) Hres) as [Hi|Heq]; [|contradiction].
  destruct Hwf as (Hcount & Hactive & Hlen0). unfold COLOR_COUNT in *.
  exists g'. split; [exact Hrun|]. split; [now rewrite Hset|].
  assert (Hbelow : forall j : nat, Z.of_nat j < i -> palette g' !! j = palette g !! j).
  { intros j Hj. rewrite Hl. unfold shifted.
    destruct (Z.leb_spec i (Z.of_nat j)); [lia|]. cbn [andb].
    apply list_lookup_insert_ne. lia. }
  assert (Habove : forall j : nat, i <= Z.of_nat j < colorCount (settings g) - 1 ->
                                   palette g' !! j = palette g !! S j).
  { intros j Hj. rewrite Hl. unfold shifted.
    destruct (Z.leb_spec i (Z.of_nat j)); [|lia].
    destruct (Z.ltb_spec (Z.of_nat j) (colorCount (settings g) - 1)); [|lia]. cbn [andb].
    apply list_lookup_insert_ne. lia. }
  split; [intros j Hj; apply Hbelow; lia|].
  split.
  { intros j Hj. rewrite Habove by lia. f_equal. lia. }
  unfold saved. rewrite Hset. cbn [colorCount].
  apply list_eq. intros k.
  destruct (Z.lt_ge_cases (Z.of_nat k) (colorCount (settings g) - 1)) as [Hk|Hk].
  - rewrite lookup_take_lt by lia.
    destruct (Z.lt_ge_cases (Z.of_nat k) i) as [Hki|Hki].
    + rewrite list_lookup_delete_lt, lookup_take_lt by lia. apply Hbelow. lia.
    + rewrite list_lookup_delete_ge, lookup_take_lt by lia. apply Habove. lia.
  - rewrite lookup_take_ge by lia.
    rewrite list_lookup_delete_ge, lookup_take_ge by lia. reflexivity.
Qed.

Lemma deleteRequest_shifts_down_witness :
  exists g',
    deleteRequest esp8266_struct_bytes true "ff0000" 50 (three_colors 0) = Some (1, g') /\
    colorCount (settings g') = colorCount (settings (three_colors 0)) - 1 /\
    (forall j, 0 <= j < 0 ->
               palette g' !! Z.to_nat j = palette (three_colors 0) !! Z.to_nat j) /\
    (forall j, 0 < j < colorCount (settings (three_colors 0)) ->
               palette g' !! Z.to_nat (j - 1) = palette (three_colors 0) !! Z.to_nat j) /\
    saved g' = delete (Z.to_nat 0) (saved (three_colors 0)).
Proof.
  apply (deleteRequest_shifts_down esp8266_struct_bytes "ff0000" 50 (255, 0, 0) 0
           (three_colors 0)).
  - wf_by_computation.
  - reflexivity.
  - reflexivity.
  - reflexivity.
  - vm_compute. discriminate.
Defined.

(** C9. When the colour shown is the unsaved one ([activeColor =
    COLOR_COUNT]) and a saved colour is deleted, [activeColor] becomes
    [COLOR_COUNT - 1 = 9]: it no longer names the unsaved colour, it is
    not below the new [colorCount], so it names no saved colour either,
    and it equals the new [colorCount] when the palette was full. *)
Theorem deleteRequest_while_unsaved_shown
    (struct_bytes : npControllerSettingType -> list colorType -> list Z)
    (rgbHex : string) (brightness : Z) (rgb : Z * Z * Z) (i : Z) (g : Globals) :
  wf g ->
  activeColor (settings g) = COLOR_COUNT ->
  checkValidColor rgbHex brightness = Some 1 ->
  parseHexColor rgbHex = Some rgb ->
  findColor rgb brightness g = Some (i, g) ->
  i <> COLOR_COUNT ->
  exists g',
    deleteRequest struct_bytes true rgbHex brightness g = Some (1, g') /\
    i < colorCount (settings g) /\
    activeColor (settings g') = COLOR_COUNT - 1 /\
    activeColor (settings g') = 9 /\
    activeColor (settings g') <> COLOR_COUNT /\
    colorCount (settings g') <= activeColor (settings g') /\
    (colorCount (settings g) = COLOR_COUNT ->
     activeColor (settings g') = colorCount (settings g')).
Proof.
  intros Hwf Hshown Hvalid Hparse Hfind Hne.
  destruct (deleteRequest_found struct_bytes true rgbHex brightness rgb i g
              Hwf Hvalid Hparse Hfind Hne) as (g' & Hrun & Hset & _).
  destruct (findColor_inv _ _ _ _ _ Hwf Hfind) as [_ Hres].
  destruct (find_result_range _ _ _ _ _ (proj1 Hwf) Hres) as [Hi|Heq]; [|contradiction].
  destruct Hwf as (Hcount & _ & _). unfold COLOR_COUNT in *.
  exists g'. split; [exact Hrun|]. rewrite Hset. cbn.
  unfold activeColor_after_delete. rewrite Hshown.
  destruct (Z.eqb_spec 10 i); [lia|]. destruct (Z.ltb_spec i 10); [|lia].
  repeat split; lia.
Qed.

Lemma deleteRequest_while_unsaved_shown_witness :
  exists g',
    deleteRequest esp8266_struct_bytes true "0000FF" 10 full_unsaved_shown = Some (1, g') /\
    2 < colorCount (settings full_unsaved_shown) /\
    activeColor (settings g') = COLOR_COUNT - 1 /\
    activeColor (settings g') = 9 /\
    activeColor (settings g') <> COLOR_COUNT /\
    colorCount (settings g') <= activeColor (settings g') /\
    (colorCount (settings full_unsaved_shown) = COLOR_COUNT ->
     activeColor (settings g') = colorCount (settings g')).
Proof.
  apply (deleteRequest_while_unsaved_shown esp8266_struct_bytes "0000FF" 10 (0, 0, 255) 2
           full_unsaved_shown).
  - wf_by_computation.
  - reflexivity.
  - reflexivity.
  - reflexivity.
  - reflexivity.
  - vm_compute. discriminate.
Defined.

(** ** [resetEEPROM] and [setup] *)

Lemma resetEEPROM_from_spec (n : nat) :
  forall (i : Z) (g : Globals),
    0 <= i ->
    i + Z.of_nat n <= Z.of_nat (length (palette g)) ->
    i + Z.of_nat n < 256 ->
    exists l',
      resetEEPROM_from n i g = Some (tt, set_palette l' g) /\
      length l' = length (palette g) /\
      forall j : nat,
        l' !! j = if (i <=? Z.of_nat j) && (Z.of_nat j <? i + Z.of_nat n)
                  then Some zero_color else palette g !! j.
Proof.
  induction n as [|n IH]; intros i g Hi Hlen Hmax.
  - exists (palette g). split; [now rewrite set_palette_id|]. split; [reflexivity|].
    intros j.
    destruct (Z.leb_spec i (Z.of_nat j)), (Z.ltb_spec (Z.of_nat j) (i + Z.of_nat 0));
      cbn; try reflexivity; lia.
  - assert (Hlt : (Z.to_nat i < length (palette g))%nat) by lia.
    destruct (lookup_lt_is_Some_2 _ _ Hlt) as [c Hc].
    assert (Hnext : wrap8 (i + 1) = i + 1) by (unfold wrap8; apply Z.mod_small; lia).
    cbn [resetEEPROM_from]. rewrite Hnext.
    set (l1 := <[Z.to_nat i := zero_color]> (palette g)).
    rewrite (bind_run _ _ g (set_palette l1 g) tt (update_color_at i resetColor g c Hi Hc)).
    destruct (IH (i + 1) (set_palette l1 g)) as (l' & Hrun & Hlen' & Hl');
      [lia|rewrite palette_set_palette; unfold l1; rewrite length_insert; lia|lia|].
    rewrite palette_set_palette in Hlen', Hl'.
    exists l'. split; [now rewrite Hrun, set_palette_twice|].
    split; [rewrite Hlen'; unfold l1; now rewrite length_insert|].
    intros j. rewrite Hl'. unfold l1.
    destruct (Z.leb_spec (i + 1) (Z.of_nat j)), (Z.ltb_spec (Z.of_nat j) (i + 1 + Z.of_nat n)),
             (Z.leb_spec i (Z.of_nat j)), (Z.ltb_spec (Z.of_nat j) (i + Z.of_nat (S n)));
      cbn [andb]; try lia; try reflexivity;
      try (rewrite list_lookup_insert_ne by lia; reflexivity).
    replace (Z.to_nat i) with j by lia. apply list_lookup_insert_eq. lia.
Qed.

Lemma resetEEPROM_spec (struct_bytes : npControllerSettingType -> list colorType -> list Z)
    (commit_ok : bool) (g : Globals) :
  length (palette g) = Z.to_nat (COLOR_COUNT + 1) ->
  exists l',
    resetEEPROM struct_bytes commit_ok g = Some (tt, reset_state struct_bytes commit_ok l' g) /\
    length l' = length (palette g) /\
    (forall j, 0 <= j < COLOR_COUNT -> l' !! Z.to_nat j = Some zero_color) /\
    l' !! Z.to_nat COLOR_COUNT = palette g !! Z.to_nat COLOR_COUNT.
Proof.
  intros Hlen. unfold COLOR_COUNT in *.
  destruct (resetEEPROM_from_spec (Z.to_nat 10) 0 g) as (l' & Hrun & Hlen' & Hl'); [lia..|].
  exists l'. split; [|split; [exact Hlen'|]].
  - unfold resetEEPROM, COLOR_COUNT.
    rewrite (bind_run _ _ g (set_palette l' g) tt Hrun).
    unfold bind, update_setting. rewrite saveEEPROM_spec. reflexivity.
  - split.
    + intros j Hj. rewrite Hl'.
      destruct (Z.leb_spec 0 (Z.of_nat (Z.to_nat j))),
               (Z.ltb_spec (Z.of_nat (Z.to_nat j)) (0 + Z.of_nat (Z.to_nat 10)));
        cbn [andb]; try reflexivity; lia.
    + rewrite Hl'. reflexivity.
Qed.

(** C1, as it holds.  When the record read at boot does not carry its own
    checksum, [setup] sets [colorCount = 0], [NEOPIXEL_OFF],
    [activeColor = 0], [activeEffect = 0] and zeroes the ten saved-colour
    elements [colors[0 .. COLOR_COUNT-1]]; the element at index
    [COLOR_COUNT] keeps what was read.  The record, with its checksum
    computed anew, is handed to the EEPROM library at once and is in the
    flash when the commit succeeds. *)
Theorem setup_checksum_mismatch
    (struct_bytes : npControllerSettingType -> list colorType -> list Z)
    (percentUsed : Z) (commit_ok : bool) (g : Globals) :
  0 <= percentUsed ->
  length (colors (EEPROM_flash g)) = Z.to_nat (COLOR_COUNT + 1) ->
  record_crc struct_bytes (EEPROM_flash g) <> crc32 (EEPROM_flash g) ->
  exists g',
    setup struct_bytes percentUsed commit_ok g = Some (tt, g') /\
    settings g' = mk_setting 0 NEOPIXEL_OFF 0 0 /\
    (forall j, 0 <= j < COLOR_COUNT -> palette g' !! Z.to_nat j = Some zero_color) /\
    palette g' !! Z.to_nat COLOR_COUNT = colors (EEPROM_flash g) !! Z.to_nat COLOR_COUNT /\
    crc32 (npControllerEEPROM g') = record_crc struct_bytes (npControllerEEPROM g') /\
    EEPROM_data g' = npControllerEEPROM g' /\
    EEPROM_flash g' = (if commit_ok then npControllerEEPROM g' else EEPROM_flash g) /\
    wf g'.
Proof.
  intros Hused Hlen Hcrc.
  set (g1 := with_ram (EEPROM_flash g) (with_EEPROM_data (EEPROM_flash g) g)).
  destruct (resetEEPROM_spec struct_bytes commit_ok g1 Hlen)
    as (l' & Hrun & Hlen' & Hzero & Hlast).
  exists (reset_state struct_bytes commit_ok l' g1). split.
  - unfold setup, bind at 1, EEPROM_begin.
    destruct (Z.leb_spec 0 percentUsed); [|lia].
    unfold bind, EEPROM_get. cbn [EEPROM_data with_EEPROM_data npControllerEEPROM with_ram].
    destruct (Z.eqb_spec (record_crc struct_bytes (EEPROM_flash g)) (crc32 (EEPROM_flash g)));
      [contradiction|].
    exact Hrun.
  - unfold reset_state, wf. rewrite settings_committed, palette_committed.
    split; [reflexivity|]. split; [exact Hzero|]. split; [exact Hlast|].
    split; [now destruct commit_ok|]. split; [now destruct commit_ok|].
    split; [now destruct commit_ok|].
    cbn. rewrite Hlen'. unfold COLOR_COUNT. repeat split; try lia. exact Hlen.
Qed.

Lemma setup_checksum_mismatch_witness :
  exists g',
    setup esp8266_struct_bytes 5 true stale_record = Some (tt, g') /\
    settings g' = mk_setting 0 NEOPIXEL_OFF 0 0 /\
    (forall j, 0 <= j < COLOR_COUNT -> palette g' !! Z.to_nat j = Some zero_color) /\
    palette g' !! Z.to_nat COLOR_COUNT
      = colors (EEPROM_flash stale_record) !! Z.to_nat COLOR_COUNT /\
    crc32 (npControllerEEPROM g') = record_crc esp8266_struct_bytes (npControllerEEPROM g') /\
    EEPROM_data g' = npControllerEEPROM g' /\
    EEPROM_flash g' = npControllerEEPROM g' /\
    wf g'.
Proof.
  apply (setup_checksum_mismatch esp8266_struct_bytes 5 true stale_record).
  - lia.
  - reflexivity.
  - vm_compute. discriminate.
Defined.

(** C1 as stated fails for the element at index [COLOR_COUNT]: after a
    boot on a record with a wrong checksum it still holds the colour read
    from the EEPROM, here ABCDEF at brightness 60. *)
Lemma setup_keeps_unsaved_color :
  record_crc esp8266_struct_bytes (EEPROM_flash stale_record)
    <> crc32 (EEPROM_flash stale_record) /\
  exists g',
    setup esp8266_struct_bytes 5 true stale_record = Some (tt, g') /\
    colorCount (settings g') = 0 /\
    programState (settings g') = NEOPIXEL_OFF /\
    palette g' !! Z.to_nat COLOR_COUNT = Some (mk_color 171 205 239 60) /\
    palette g' !! Z.to_nat COLOR_COUNT <> Some zero_color /\
    colors (EEPROM_flash g') !! Z.to_nat COLOR_COUNT = Some (mk_color 171 205 239 60).
Proof.
  split; [vm_compute; discriminate|].
  eexists. split; [vm_compute; reflexivity|].
  repeat split. vm_compute. discriminate.
Qed.

(** ** Every request returns *)

Lemma strlen_nonneg (s : string) : 0 <= strlen s.
Proof.
  induction s as [|c s IH]; cbn [strlen]; [lia|]. destruct (is_nul c); lia.
Qed.

Lemma hex_digit_value_range (c : ascii) :
  isxdigit c = true -> 0 <= hex_digit_value c <= 15.
Proof.
  destruct c as [[] [] [] [] [] [] [] []]; vm_compute; intros H;
    first [discriminate H | split; discriminate].
Qed.

Lemma scan_hex_end (rest : string) (acc : Z) : strlen rest = 0 -> scan_hex rest acc = Some acc.
Proof.
  destruct rest as [|c rest]; [reflexivity|]. cbn [strlen scan_hex].
  pose proof (strlen_nonneg rest). destruct (is_nul c); [reflexivity|lia].
Qed.

Lemma strlen_six (s : string) :
  strlen s = 6 ->
  exists c0 c1 c2 c3 c4 c5 rest,
    s = String c0 (String c1 (String c2 (String c3 (String c4 (String c5 rest))))) /\
    is_nul c0 = false /\ is_nul c1 = false /\ is_nul c2 = false /\
    is_nul c3 = false /\ is_nul c4 = false /\ is_nul c5 = false /\
    strlen rest = 0.
Proof.
  intros H.
  destruct s as [|c0 s]; cbn [strlen] in H; [lia|]. destruct (is_nul c0) eqn:H0; [lia|].
  destruct s as [|c1 s]; cbn [strlen] in H; [lia|]. destruct (is_nul c1) eqn:H1; [lia|].
  destruct s as [|c2 s]; cbn [strlen] in H; [lia|]. destruct (is_nul c2) eqn:H2; [lia|].
  destruct s as [|c3 s]; cbn [strlen] in H; [lia|]. destruct (is_nul c3) eqn:H3; [lia|].
  destruct s as [|c4 s]; cbn [strlen] in H; [lia|]. destruct (is_nul c4) eqn:H4; [lia|].
  destruct s as [|c5 s]; cbn [strlen] in H; [lia|]. destruct (is_nul c5) eqn:H5; [lia|].
  exists c0, c1, c2, c3, c4, c5, s. repeat split; try assumption. lia.
Qed.

Lemma checkValidColor_digits_six (c0 c1 c2 c3 c4 c5 : ascii) (rest : string) :
  checkValidColor_digits 6 0
    (String c0 (String c1 (String c2 (String c3 (String c4 (String c5 rest))))))
  = Some (isxdigit c0 && isxdigit c1 && isxdigit c2 && isxdigit c3 && isxdigit c4
          && isxdigit c5).
Proof.
  cbv -[isxdigit].
  destruct (isxdigit c0), (isxdigit c1), (isxdigit c2), (isxdigit c3), (isxdigit c4),
           (isxdigit c5); reflexivity.
Qed.

(** [checkValidColor] is defined on every text: the C library is only
    asked to read texts of six hexadecimal digits. *)
Lemma checkValidColor_total (rgbHex : string) (brightness : Z) :
  checkValidColor rgbHex brightness = Some 0 \/ checkValidColor rgbHex brightness = Some 1.
Proof.
  unfold checkValidColor.
  destruct (Z.eqb_spec (strlen rgbHex) 6) as [Hlen|_]; [|now left]. cbn [negb].
  destruct (strlen_six rgbHex Hlen)
    as (c0 & c1 & c2 & c3 & c4 & c5 & rest & Hs & H0 & H1 & H2 & H3 & H4 & H5 & Hrest).
  unfold parseHexColor, sscanf_x. rewrite Hlen. cbn [Z.ltb Z.compare].
  rewrite Hs, checkValidColor_digits_six.
  destruct (isxdigit c0) eqn:D0; [|now left].
  destruct (isxdigit c1) eqn:D1; [|now left].
  destruct (isxdigit c2) eqn:D2; [|now left].
  destruct (isxdigit c3) eqn:D3; [|now left].
  destruct (isxdigit c4) eqn:D4; [|now left].
  destruct (isxdigit c5) eqn:D5; [|now left].
  cbn [andb scan_hex]. rewrite H0, H1, H2, H3, H4, H5, D0, D1, D2, D3, D4, D5.
  rewrite (scan_hex_end rest _ Hrest).
  pose proof (hex_digit_value_range c0 D0). pose proof (hex_digit_value_range c1 D1).
  pose proof (hex_digit_value_range c2 D2). pose proof (hex_digit_value_range c3 D3).
  pose proof (hex_digit_value_range c4 D4). pose proof (hex_digit_value_range c5 D5).
  match goal with |- context [?v <? 2 ^ 32] => destruct (Z.ltb_spec v (2 ^ 32)) as [_|Hbig] end;
    [|lia].
  match goal with
  | |- context [if ?t then Some 0 else _] => destruct t
  end; [now left|].
  destruct (100 <? brightness); [now left|now right].
Qed.

(** A text of six hexadecimal digits is parsed. *)
Lemma parseHexColor_six (rgbHex : string) :
  strlen rgbHex = 6 -> checkValidColor_digits 6 0 rgbHex = Some true ->
  exists rgb, parseHexColor rgbHex = Some rgb.
Proof.
  intros Hlen Hdigits.
  pose proof (checkValidColor_total rgbHex 0) as Htotal.
  unfold checkValidColor in Htotal. rewrite Hlen, Hdigits in Htotal. cbn [Z.eqb negb] in Htotal.
  destruct (parseHexColor rgbHex) as [rgb|]; [now exists rgb|].
  destruct Htotal; discriminate.
Qed.

Lemma colorRequest_invalid (rgbHex : string) (brightness : Z) (g : Globals) :
  checkValidColor rgbHex brightness = Some 0 ->
  colorRequest rgbHex brightness g = Some (0, g).
Proof. intros H. unfold colorRequest. now rewrite (bind_run _ _ g g 0 (lift_run _ _ _ H)). Qed.

Lemma wf_committed (struct_bytes : npControllerSettingType -> list colorType -> list Z)
    (commit_ok : bool) (g : Globals) :
  wf g -> wf (committed struct_bytes commit_ok g).
Proof.
  unfold wf. now rewrite settings_committed, palette_committed.
Qed.

(** Under the invariant each request returns, and the invariant holds
    again afterwards. *)
Lemma colorRequest_total (rgbHex : string) (brightness : Z) (g : Globals) :
  wf g -> exists r g', colorRequest rgbHex brightness g = Some (r, g') /\ wf g'.
Proof.
  intros Hwf. destruct (checkValidColor_total rgbHex brightness) as [H|H].
  - exists 0, g. split; [now apply colorRequest_invalid|exact Hwf].
  - destruct (checkValidColor_parse _ _ H) as [rgb Hparse].
    destruct (findColor_spec rgb brightness g Hwf) as (i & Hfind & Hres).
    eexists _, _. split; [now apply (colorRequest_valid rgbHex brightness rgb i)|].
    apply wf_color_shown; [exact Hwf|].
    apply (find_result_uint8 _ _ _ _ _ (proj1 Hwf) Hres).
Qed.

Lemma saveRequest_total (struct_bytes : npControllerSettingType -> list colorType -> list Z)
    (commit_ok : bool) (rgbHex : string) (brightness : Z) (g : Globals) :
  wf g ->
  exists r g', saveRequest struct_bytes commit_ok rgbHex brightness g = Some (r, g') /\ wf g'.
Proof.
  intros Hwf. unfold saveRequest.
  rewrite (bind_run setting _ g g (settings g) eq_refl).
  destruct (Z.eqb_spec (colorCount (settings g)) COLOR_COUNT) as [Hfull|Hroom];
    [now eexists _, _|].
  destruct (checkValidColor_total rgbHex brightness) as [H|H];
    rewrite (bind_run _ _ g g _ (lift_run _ _ _ H)); cbn [Z.eqb negb]; [now eexists _, _|].
  destruct (checkValidColor_parse _ _ H) as [rgb Hparse].
  rewrite (bind_run _ _ g g rgb (lift_run _ _ _ Hparse)).
  destruct (findColor_spec rgb brightness g Hwf) as (i & Hfind & Hres).
  rewrite (bind_run _ _ g g i Hfind).
  destruct (i <? COLOR_COUNT); [now eexists _, _|].
  destruct Hwf as (Hcount & Hactive & Hlen). unfold COLOR_COUNT in *.
  rewrite update_color_fields by lia.
  unfold bind, update_setting. rewrite saveEEPROM_spec.
  eexists _, _. split; [reflexivity|].
  apply wf_committed. unfold wf, COLOR_COUNT; cbn. fold (settings g) (palette g).
  rewrite length_insert. unfold wrap8. rewrite Z.mod_small by lia.
  repeat split; try lia; assumption.
Qed.

Lemma deleteRequest_total (struct_bytes : npControllerSettingType -> list colorType -> list Z)
    (commit_ok : bool) (rgbHex : string) (brightness : Z) (g : Globals) :
  wf g ->
  exists r g', deleteRequest struct_bytes commit_ok rgbHex brightness g = Some (r, g') /\ wf g'.
Proof.
  intros Hwf. destruct (checkValidColor_total rgbHex brightness) as [H|H].
  - unfold deleteRequest. rewrite (bind_run _ _ g g _ (lift_run _ _ _ H)). now eexists _, _.
  - destruct (checkValidColor_parse _ _ H) as [rgb Hparse].
    destruct (findColor_spec rgb brightness g Hwf) as (i & Hfind & Hres).
    destruct (Z.eq_dec i COLOR_COUNT) as [->|Hne].
    + unfold deleteRequest.
      rewrite (bind_run _ _ g g _ (lift_run _ _ _ H)). cbn [Z.eqb negb].
      rewrite (bind_run _ _ g g rgb (lift_run _ _ _ Hparse)).
      rewrite (bind_run _ _ g g _ Hfind). now eexists _, _.
    + destruct (deleteRequest_found struct_bytes commit_ok rgbHex brightness rgb i g
                  Hwf H Hparse Hfind Hne) as (g' & Hrun & Hset & Hlen & _).
      eexists _, _. split; [exact Hrun|].
      destruct (find_result_range _ _ _ _ _ (proj1 Hwf) Hres) as [Hi|Heq]; [|contradiction].
      destruct Hwf as (Hcount & Hactive & Hlen0). unfold wf, COLOR_COUNT in *.
      rewrite Hset, Hlen. cbn. unfold activeColor_after_delete.
      destruct (Z.eqb_spec (activeColor (settings g)) i),
               (Z.ltb_spec i (activeColor (settings g)));
        repeat split; try lia; assumption.
Qed.

Lemma processClick_total (clickType : Z) (g : Globals) :
  wf g -> exists g', processClick clickType g = Some (tt, g') /\ wf g'.
Proof.
  intros (Hcount & Hactive & Hlen).
  destruct g as [[crc [cnt st ac ae] cols] af lnr chg dat fl].
  unfold wf, settings, palette in *; cbn in *.
  pose proof (Z.mod_pos_bound (ac + 1) 256 eq_refl) as Hwrap.
  unfold processClick, bind, set_changeNeopixel, setting, update_setting, ret, wrap8; cbn.
  repeat match goal with
         | |- context [if ?t then _ else _] => destruct t
         end;
    eexists; (split; [reflexivity|]); cbn; repeat split; try lia; assumption.
Qed.

(** ** Letter case in colour texts *)

Ltac by_character c := destruct c as [[] [] [] [] [] [] [] []]; vm_compute; reflexivity.

Lemma is_nul_tolower (c : ascii) : is_nul (tolower c) = is_nul c.
Proof. by_character c. Qed.

Lemma isxdigit_tolower (c : ascii) : isxdigit (tolower c) = isxdigit c.
Proof. by_character c. Qed.

Lemma hex_digit_value_tolower (c : ascii) :
  (if isxdigit c then hex_digit_value (tolower c) else 0)
  = (if isxdigit c then hex_digit_value c else 0).
Proof. by_character c. Qed.

Lemma strlen_lower (s : string) : strlen (lower s) = strlen s.
Proof.
  induction s as [|c s IH]; [reflexivity|].
  cbn [lower strlen]. now rewrite is_nul_tolower, IH.
Qed.

Lemma length_lower (s : string) : String.length (lower s) = String.length s.
Proof. induction s as [|c s IH]; [reflexivity|]. cbn. now rewrite IH. Qed.

Lemma get_lower (s : string) (n : nat) :
  String.get n (lower s) = option_map tolower (String.get n s).
Proof.
  revert n. induction s as [|c s IH]; intros n; [reflexivity|].
  destruct n as [|n]; [reflexivity|]. cbn. apply IH.
Qed.

Lemma char_at_lower (s : string) (i : Z) :
  char_at (lower s) i = option_map tolower (char_at s i).
Proof.
  unfold char_at. destruct (0 <=? i); [|reflexivity].
  rewrite get_lower, length_lower.
  destruct (String.get (Z.to_nat i) s); [reflexivity|].
  cbn [option_map]. now destruct (i =? Z.of_nat (String.length s)).
Qed.

Lemma checkValidColor_digits_lower (n : nat) (s : string) :
  forall i, checkValidColor_digits n i (lower s) = checkValidColor_digits n i s.
Proof.
  induction n as [|n IH]; intros i; [reflexivity|].
  cbn [checkValidColor_digits]. rewrite char_at_lower.
  destruct (char_at s i) as [c|]; [|reflexivity].
  cbn [option_map]. now rewrite isxdigit_tolower, IH.
Qed.

Lemma scan_hex_lower (s : string) :
  forall acc, scan_hex (lower s) acc = scan_hex s acc.
Proof.
  induction s as [|c s IH]; intros acc; [reflexivity|].
  cbn [lower scan_hex]. rewrite is_nul_tolower, isxdigit_tolower.
  destruct (is_nul c); [reflexivity|].
  pose proof (hex_digit_value_tolower c) as Hv.
  destruct (isxdigit c); [|reflexivity]. now rewrite Hv, IH.
Qed.

Lemma parseHexColor_lower (s : string) : parseHexColor (lower s) = parseHexColor s.
Proof. unfold parseHexColor, sscanf_x. now rewrite strlen_lower, scan_hex_lower. Qed.

Lemma checkValidColor_lower (s : string) (brightness : Z) :
  checkValidColor (lower s) brightness = checkValidColor s brightness.
Proof.
  unfold checkValidColor.
  now rewrite strlen_lower, checkValidColor_digits_lower, parseHexColor_lower.
Qed.

(** C10. [checkValidColor] takes hexadecimal digits in either case, and two
    texts that differ only in the case of their letters are validated
    alike and parsed alike, to the same three bytes when they are six
    hexadecimal digits; so [colorRequest], [saveRequest] and
    [deleteRequest] return the same result and leave the same state with
    either of them, and a colour saved under one spelling is found, as a
    duplicate or for deletion, under the other.  [ff00aa] and [FF00AA]
    are both accepted and both are (255, 0, 170). *)
Theorem color_text_case_insensitive
    (struct_bytes : npControllerSettingType -> list colorType -> list Z)
    (commit_ok : bool) (s s' : string) (brightness : Z) (g : Globals) :
  lower s = lower s' ->
  wf g ->
  (exists v, checkValidColor s brightness = Some v /\ checkValidColor s' brightness = Some v) /\
  parseHexColor s = parseHexColor s' /\
  (strlen s = 6 -> checkValidColor_digits 6 0 s = Some true ->
   exists rgb, parseHexColor s = Some rgb /\ parseHexColor s' = Some rgb) /\
  (exists r g', colorRequest s brightness g = Some (r, g') /\
                colorRequest s' brightness g = Some (r, g')) /\
  (exists r g', saveRequest struct_bytes commit_ok s brightness g = Some (r, g') /\
                saveRequest struct_bytes commit_ok s' brightness g = Some (r, g')) /\
  (exists r g', deleteRequest struct_bytes commit_ok s brightness g = Some (r, g') /\
                deleteRequest struct_bytes commit_ok s' brightness g = Some (r, g')) /\
  checkValidColor "ff00aa" 50 = Some 1 /\
  checkValidColor "FF00AA" 50 = Some 1 /\
  parseHexColor "ff00aa" = Some (255, 0, 170) /\
  parseHexColor "FF00AA" = Some (255, 0, 170) /\
  (exists g1 g2,
     saveRequest esp8266_struct_bytes true "FF00AA" 50 (three_colors 0) = Some (1, g1) /\
     saveRequest esp8266_struct_bytes true "ff00aa" 50 g1 = Some (3, g1) /\
     deleteRequest esp8266_struct_bytes true "ff00aa" 50 g1 = Some (1, g2) /\
     saved g2 = saved (three_colors 0)).
Proof.
  intros Hcase Hwf.
  assert (Hvalid : checkValidColor s brightness = checkValidColor s' brightness).
  { now rewrite <- (checkValidColor_lower s), <- (checkValidColor_lower s'), Hcase. }
  assert (Hparse : parseHexColor s = parseHexColor s').
  { now rewrite <- (parseHexColor_lower s), <- (parseHexColor_lower s'), Hcase. }
  split.
  { destruct (checkValidColor_total s brightness) as [H|H]; eexists; (split; [exact H|]);
      now rewrite <- Hvalid. }
  split; [exact Hparse|].
  split.
  { intros Hlen Hdigits. destruct (parseHexColor_six s Hlen Hdigits) as [rgb Hrgb].
    exists rgb. split; [exact Hrgb|]. now rewrite <- Hparse. }
  split.
  { destruct (colorRequest_total s brightness g Hwf) as (r & g' & Hrun & _).
    exists r, g'. split; [exact Hrun|]. rewrite <- Hrun.
    unfold colorRequest. now rewrite Hvalid, Hparse. }
  split.
  { destruct (saveRequest_total struct_bytes commit_ok s brightness g Hwf) as (r & g' & Hrun & _).
    exists r, g'. split; [exact Hrun|]. rewrite <- Hrun.
    unfold saveRequest. now rewrite Hvalid, Hparse. }
  split.
  { destruct (deleteRequest_total struct_bytes commit_ok s brightness g Hwf) as (r & g' & Hrun & _).
    exists r, g'. split; [exact Hrun|]. rewrite <- Hrun.
    unfold deleteRequest. now rewrite Hvalid, Hparse. }
  do 4 (split; [reflexivity|]).
  do 2 eexists. split; [vm_compute; reflexivity|].
  split; [vm_compute; reflexivity|]. split; [vm_compute; reflexivity|]. reflexivity.
Qed.

Lemma color_text_case_insensitive_witness :
  (exists v, checkValidColor "ff00aa" 50 = Some v /\ checkValidColor "FF00AA" 50 = Some v) /\
  parseHexColor "ff00aa" = parseHexColor "FF00AA" /\
  (exists r g', colorRequest "ff00aa" 50 (three_colors 0) = Some (r, g') /\
                colorRequest "FF00AA" 50 (three_colors 0) = Some (r, g')) /\
  (exists r g', saveRequest esp8266_struct_bytes true "ff00aa" 50 (three_colors 0) = Some (r, g') /\
                saveRequest esp8266_struct_bytes true "FF00AA" 50 (three_colors 0) = Some (r, g')) /\
  (exists r g', deleteRequest esp8266_struct_bytes true "ff00aa" 50 (three_colors 0)
                  = Some (r, g') /\
                deleteRequest esp8266_struct_bytes true "FF00AA" 50 (three_colors 0)
                  = Some (r, g')).
Proof.
  destruct (color_text_case_insensitive esp8266_struct_bytes true "ff00aa" "FF00AA" 50
              (three_colors 0)) as (Hv & Hp & _ & Hc & Hs & Hd & _).
  - reflexivity.
  - wf_by_computation.
  - repeat split; assumption.
Defined.

(** ** [effectRequest] *)

Lemma strcmp_zero_trans (a : string) :
  forall b n, strcmp a n = 0 -> strcmp b n = 0 -> strcmp a b = 0.
Proof.
  induction a as [|x a IH]; intros b n; destruct b as [|y b], n as [|z n];
    cbn [strcmp]; unfold is_nul;
    repeat match goal with
           | |- context [?u =? ?v] => destruct (Z.eqb_spec u v)
           end;
    intros; try lia; eauto.
Qed.

Lemma effects_distinct (i j : nat) (e e' : effectType) :
  effects !! i = Some e -> effects !! j = Some e' ->
  strcmp (effectName e) (effectName e') = 0 -> i = j.
Proof.
  intros Hi Hj.
  do 12 (destruct i as [|i];
         [do 12 (destruct j as [|j];
                 [injection Hi as <-; injection Hj as <-;
                  first [reflexivity | vm_compute; discriminate]|]);
          discriminate Hj|]).
  discriminate Hi.
Qed.

Lemma effects_frames (i : nat) (e : effectType) :
  effects !! i = Some e -> 1 < effectFrames e < 2 ^ 15.
Proof.
  intros Hi.
  do 12 (destruct i as [|i]; [injection Hi as <-; vm_compute; split; reflexivity|]).
  discriminate Hi.
Qed.

(** The loop of [checkValidEffect] returns the position of the first
    name equal to [name], or the size of the whole table. *)
Lemma checkValidEffect_from_spec (table : list effectType) (name : string) :
  forall i0 : Z,
    0 <= i0 -> i0 + Z.of_nat (length table) < 256 ->
    (exists (k : nat) e,
        table !! k = Some e /\ strcmp (effectName e) name = 0 /\
        (forall k' e', (k' < k)%nat -> table !! k' = Some e' ->
                       strcmp (effectName e') name <> 0) /\
        checkValidEffect_from table i0 name = i0 + Z.of_nat k)
    \/
    ((forall k e, table !! k = Some e -> strcmp (effectName e) name <> 0) /\
     checkValidEffect_from table i0 name = ARRAY_SIZE effects).
Proof.
  induction table as [|e table IH]; intros i0 Hi0 Hmax.
  - right. split; [intros k e Hk; discriminate Hk|reflexivity].
  - cbn [checkValidEffect_from length] in *.
    destruct (Z.eqb_spec (strcmp (effectName e) name) 0) as [Hmatch|Hno].
    + left. exists 0%nat, e. split; [reflexivity|]. split; [exact Hmatch|].
      split; [intros; lia|lia].
    + assert (Hnext : wrap8 (i0 + 1) = i0 + 1) by (unfold wrap8; apply Z.mod_small; lia).
      rewrite Hnext.
      destruct (IH (i0 + 1)) as [(k & e1 & Hk & Hm & Hfirst & Hr)|(Hnone & Hr)]; [lia..| |].
      * left. exists (S k), e1. split; [exact Hk|]. split; [exact Hm|].
        split; [|rewrite Hr; lia].
        intros k' e' Hlt Hk'. destruct k' as [|k'].
        -- injection Hk' as <-. exact Hno.
        -- apply (Hfirst k' e'); [lia|exact Hk'].
      * right. split; [|exact Hr].
        intros k e' Hk. destruct k as [|k].
        -- injection Hk as <-. exact Hno.
        -- apply (Hnone k e'). exact Hk.
Qed.

Lemma checkValidEffect_match (name : string) (i : nat) (e : effectType) :
  effects !! i = Some e -> strcmp (effectName e) name = 0 ->
  checkValidEffect name = Z.of_nat i.
Proof.
  intros Hi Hmatch. unfold checkValidEffect.
  destruct (checkValidEffect_from_spec effects name 0)
    as [(k & e1 & Hk & Hm & Hfirst & Hr)|(Hnone & _)]; [lia|vm_compute; reflexivity| |].
  - rewrite Hr. f_equal.
    destruct (Nat.lt_trichotomy k i) as [Hlt|[Heq|Hgt]]; [|lia|].
    + pose proof (effects_distinct k i e1 e Hk Hi (strcmp_zero_trans _ _ _ Hm Hmatch)). lia.
    + exfalso. now apply (Hfirst i e Hgt Hi).
  - exfalso. now apply (Hnone i e Hi).
Qed.

Lemma checkValidEffect_no_match (name : string) :
  (forall i e, effects !! i = Some e -> strcmp (effectName e) name <> 0) ->
  checkValidEffect name = ARRAY_SIZE effects.
Proof.
  intros Hno. unfold checkValidEffect.
  destruct (checkValidEffect_from_spec effects name 0)
    as [(k & e1 & Hk & Hm & _)|(_ & Hr)]; [lia|vm_compute; reflexivity| |exact Hr].
  exfalso. now apply (Hno k e1 Hk).
Qed.

(** C7. [effectRequest] with a name that equals ([strcmp]) the name of the
    [i]-th effect returns 1, sets [NEOPIXEL_EFFECT] and [activeEffect = i]
    and raises [changeNeopixel]; the LED part of [loop] that runs next
    then sets the frame counter to 0 before anything is drawn, so the
    effect function is called on frame 0 whatever [actualFrame] was.  With
    a name that equals none of the twelve it returns 0, which
    [effectResponse] reports as a wrong name, and the state is untouched. *)
Theorem effectRequest_spec (name : string) (g : Globals) :
  (forall (i : nat) (e : effectType),
      effects !! i = Some e -> strcmp (effectName e) name = 0 ->
      exists g1,
        effectRequest name g = Some (1, g1) /\
        settings g1 = mk_setting (colorCount (settings g)) NEOPIXEL_EFFECT
                                 (activeColor (settings g)) (Z.of_nat i) /\
        palette g1 = palette g /\
        changeNeopixel g1 = 1 /\
        forall millis_due millis_shown,
          exists g2,
            loop_neopixels millis_due millis_shown g1
              = Some (if 33 <=? millis_due
                      then [SetBrightness EFFECT_BRIGHTNESS;
                            CallEffect (effectFunction e) 0; ShowLeds]
                      else [SetBrightness EFFECT_BRIGHTNESS], g2) /\
            actualFrame g2 = (if 33 <=? millis_due then 1 else 0) /\
            settings g2 = settings g1 /\
            changeNeopixel g2 = 0)
  /\
  ((forall (i : nat) (e : effectType),
       effects !! i = Some e -> strcmp (effectName e) name <> 0) ->
   effectRequest name g = Some (0, g) /\
   effectResponse_rsE 0 = "Wrong name of effect."%string).
Proof.
  split.
  - intros i e Hi Hmatch.
    pose proof (lookup_lt_Some _ _ _ Hi) as Hlt.
    pose proof (effects_frames i e Hi) as Hframes.
    assert (Hsize : ARRAY_SIZE effects = 12) by reflexivity.
    change (length effects) with 12%nat in Hlt.
    destruct g as [[crc [cnt st ac ae] cols] af lnr chg dat fl].
    unfold effectRequest. rewrite (checkValidEffect_match name i e Hi Hmatch), Hsize.
    destruct (Z.ltb_spec (Z.of_nat i) 12) as [_|Hge]; [|lia].
    eexists. split; [reflexivity|]. cbn.
    split; [reflexivity|]. split; [reflexivity|]. split; [reflexivity|].
    intros millis_due millis_shown.
    unfold loop_neopixels, bind, setting, get_changeNeopixel, lift; cbn.
    destruct (Z.leb_spec 0 (Z.of_nat i)) as [_|Hneg]; [|lia].
    rewrite Nat2Z.id, Hi. cbn.
    change (wrap32 (0 + Z.quot 1000 EFFECT_FRAMES_PER_SECOND)) with 33.
    destruct (33 <=? millis_due); cbn.
    + change (wrap16s (0 + 1)) with 1.
      destruct (Z.leb_spec (effectFrames e) 1) as [Hle|_]; [lia|].
      eexists. split; [reflexivity|]. repeat split.
    + eexists. split; [reflexivity|]. repeat split.
  - intros Hno. split; [|reflexivity].
    unfold effectRequest. rewrite (checkValidEffect_no_match name Hno).
    now rewrite Z.ltb_irrefl.
Qed.

Lemma effectRequest_spec_witness :
  (exists g1,
      effectRequest "cylon" (three_colors 0) = Some (1, g1) /\
      programState (settings g1) = NEOPIXEL_EFFECT /\
      activeEffect (settings g1) = 7 /\
      exists g2,
        loop_neopixels 1000 1002 g1
          = Some ([SetBrightness EFFECT_BRIGHTNESS; CallEffect cylon 0; ShowLeds], g2) /\
        actualFrame g2 = 1)
  /\ effectRequest "blink" (three_colors 0) = Some (0, three_colors 0).
Proof.
  destruct (effectRequest_spec "cylon" (three_colors 0)) as [Hfound _].
  destruct (effectRequest_spec "blink" (three_colors 0)) as [_ Hunknown].
  split.
  - destruct (Hfound 7%nat (mk_effect "cylon" cylon (EFFECT_FRAMES_PER_SECOND * 4))
                eq_refl eq_refl) as (g1 & Hrun & Hset & _ & _ & Hloop).
    exists g1. split; [exact Hrun|]. rewrite Hset.
    split; [reflexivity|]. split; [reflexivity|].
    destruct (Hloop 1000 1002) as (g2 & Hdraw & Hframe & _).
    exists g2. split; [exact Hdraw|exact Hframe].
  - apply Hunknown. intros i e Hi.
    do 12 (destruct i as [|i]; [injection Hi as <-; vm_compute; discriminate|]).
    discriminate Hi.
Defined.

(** * Further properties of the code *)

(** ** [findColor] and the saved colours *)

Lemma same_color_eq (c : colorType) (rgb : Z * Z * Z) (brightness : Z) :
  same_color c rgb brightness <-> c = color_of rgb brightness.
Proof.
  unfold same_color, color_of. destruct c as [r0 r1 r2 br]; cbn. split.
  - intros (-> & -> & -> & ->). reflexivity.
  - intros [= -> -> -> ->]. repeat split.
Qed.

Lemma saved_lookup (g : Globals) (j : Z) :
  0 <= j < colorCount (settings g) -> saved g !! Z.to_nat j = palette g !! Z.to_nat j.
Proof. intros Hj. unfold saved. apply lookup_take_lt. lia. Qed.

Lemma saved_length (g : Globals) :
  wf g -> length (saved g) = Z.to_nat (colorCount (settings g)).
Proof.
  intros (Hcount & _ & Hlen). unfold saved, COLOR_COUNT in *.
  rewrite length_take. lia.
Qed.

(** [findColor] returns [COLOR_COUNT] exactly for a colour that is not
    among the saved ones, and otherwise the first index that holds it. *)
Lemma findColor_saved (rgb : Z * Z * Z) (brightness i : Z) (g : Globals) :
  wf g -> findColor rgb brightness g = Some (i, g) ->
  (i = COLOR_COUNT /\ color_of rgb brightness ∉ saved g) \/
  (0 <= i < colorCount (settings g) /\
   saved g !! Z.to_nat i = Some (color_of rgb brightness)).
Proof.
  intros Hwf Hfind. destruct (findColor_inv _ _ _ _ _ Hwf Hfind) as [_ Hres].
  destruct Hres as [(Hi & (c & Hc & Hs) & _)|(-> & Hnone)].
  - right. split; [exact Hi|]. rewrite saved_lookup by exact Hi.
    apply same_color_eq in Hs. now subst.
  - left. split; [reflexivity|]. intros Hin.
    apply elem_of_take in Hin as (j & Hj & Hlt).
    apply (Hnone (Z.of_nat j) (color_of rgb brightness)); [lia|now rewrite Nat2Z.id|].
    now apply same_color_eq.
Qed.

(** ** [saveRequest] *)

Lemma parseHexColor_range (rgbHex : string) (rgb : Z * Z * Z) :
  parseHexColor rgbHex = Some rgb ->
  0 <= rgb.1.1 < 256 /\ 0 <= rgb.1.2 < 256 /\ 0 <= rgb.2 < 256.
Proof.
  unfold parseHexColor. destruct (sscanf_x rgbHex) as [v|]; [|discriminate].
  intros [= <-]. cbn [fst snd]. unfold wrap8.
  repeat split; apply Z.mod_pos_bound; lia.
Qed.

Lemma checkValidColor_valid_color (rgbHex : string) (brightness : Z) (rgb : Z * Z * Z) :
  0 <= brightness ->
  checkValidColor rgbHex brightness = Some 1 ->
  parseHexColor rgbHex = Some rgb ->
  valid_color (color_of rgb brightness).
Proof.
  intros Hb Hvalid Hparse.
  apply checkValidColor_accepts in Hvalid as (_ & _ & (rgb' & Hparse' & Hne) & Hmax).
  rewrite Hparse in Hparse'. injection Hparse' as <-.
  destruct (parseHexColor_range _ _ Hparse) as (H0 & H1 & H2).
  destruct rgb as [[r gr] b]. unfold valid_color, color_of; cbn in *.
  repeat split; try lia. intros (-> & -> & ->). now apply Hne.
Qed.

(** The run of [saveRequest] on a colour that is accepted and not saved,
    with room left. *)
Lemma saveRequest_new (struct_bytes : npControllerSettingType -> list colorType -> list Z)
    (commit_ok : bool) (rgbHex : string) (brightness : Z) (rgb : Z * Z * Z) (g : Globals) :
  wf g ->
  colorCount (settings g) <> COLOR_COUNT ->
  checkValidColor rgbHex brightness = Some 1 ->
  parseHexColor rgbHex = Some rgb ->
  findColor rgb brightness g = Some (COLOR_COUNT, g) ->
  saveRequest struct_bytes commit_ok rgbHex brightness g
  = Some (if commit_ok then 1 else 0,
          committed struct_bytes commit_ok (appended (color_of rgb brightness) g)).
Proof.
  intros Hwf Hroom Hvalid Hparse Hfind. unfold saveRequest.
  rewrite (bind_run setting _ g g (settings g) eq_refl).
  destruct (Z.eqb_spec (colorCount (settings g)) COLOR_COUNT) as [|_]; [contradiction|].
  rewrite (bind_run _ _ g g 1 (lift_run _ _ _ Hvalid)). cbn [Z.eqb negb].
  rewrite (bind_run _ _ g g rgb (lift_run _ _ _ Hparse)).
  rewrite (bind_run _ _ g g _ Hfind). rewrite Z.ltb_irrefl.
  destruct Hwf as (Hcount & Hactive & Hlen). unfold COLOR_COUNT in *.
  rewrite update_color_fields by lia.
  unfold bind, update_setting. rewrite saveEEPROM_spec.
  unfold appended, color_of, wrap8; cbn. fold (settings g) (palette g).
  rewrite Z.mod_small by lia. reflexivity.
Qed.

Lemma saved_appended (c : colorType) (g : Globals) :
  wf g -> colorCount (settings g) <> COLOR_COUNT ->
  saved (appended c g) = saved g ++ [c].
Proof.
  intros (Hcount & _ & Hlen) Hroom. unfold COLOR_COUNT in *.
  unfold saved, appended; cbn. fold (settings g) (palette g).
  replace (Z.to_nat (colorCount (settings g) + 1)) with (S (Z.to_nat (colorCount (settings g))))
    by lia.
  rewrite (take_S_r _ _ c) by (apply list_lookup_insert_eq; lia).
  rewrite take_insert_ge by lia. reflexivity.
Qed.

Lemma wf_appended (c : colorType) (g : Globals) :
  wf g -> colorCount (settings g) <> COLOR_COUNT -> wf (appended c g).
Proof.
  intros (Hcount & Hactive & Hlen) Hroom. unfold wf, COLOR_COUNT in *.
  unfold appended; cbn. fold (settings g) (palette g). rewrite length_insert.
  repeat split; try lia; assumption.
Qed.

Lemma findColor_unsaved (rgb : Z * Z * Z) (brightness : Z) (g : Globals) :
  wf g -> color_of rgb brightness ∉ saved g ->
  findColor rgb brightness g = Some (COLOR_COUNT, g).
Proof.
  intros Hwf Hnew. destruct (findColor_spec rgb brightness g Hwf) as (i & Hfind & _).
  destruct (findColor_saved _ _ _ _ Hwf Hfind) as [(-> & _)|(_ & Hi)]; [exact Hfind|].
  exfalso. apply Hnew. now apply list_elem_of_lookup_2 in Hi.
Qed.

Lemma findColor_member (rgb : Z * Z * Z) (brightness : Z) (g : Globals) :
  wf g -> color_of rgb brightness ∈ saved g ->
  exists i, findColor rgb brightness g = Some (i, g) /\
            0 <= i < colorCount (settings g) /\
            saved g !! Z.to_nat i = Some (color_of rgb brightness).
Proof.
  intros Hwf Hin. destruct (findColor_spec rgb brightness g Hwf) as (i & Hfind & _).
  destruct (findColor_saved _ _ _ _ Hwf Hfind) as [(_ & Hout)|Hi]; [contradiction|].
  now exists i.
Qed.

(** The saved colours and the settings after a [deleteRequest] that finds
    its colour at index [i], whatever the commit answers. *)
Lemma deleteRequest_saved (struct_bytes : npControllerSettingType -> list colorType -> list Z)
    (commit_ok : bool) (rgbHex : string) (brightness : Z) (rgb : Z * Z * Z) (i : Z)
    (g : Globals) :
  wf g ->
  checkValidColor rgbHex brightness = Some 1 ->
  parseHexColor rgbHex = Some rgb ->
  findColor rgb brightness g = Some (i, g) ->
  i <> COLOR_COUNT ->
  exists g',
    deleteRequest struct_bytes commit_ok rgbHex brightness g
      = Some (if commit_ok then 1 else 0, g') /\
    settings g' = mk_setting (colorCount (settings g) - 1) (programState (settings g))
                    (activeColor_after_delete (activeColor (settings g)) i)
                    (activeEffect (settings g)) /\
    length (palette g') = length (palette g) /\
    saved g' = delete (Z.to_nat i) (saved g).
Proof.
  intros Hwf Hvalid Hparse Hfind Hne.
  destruct (deleteRequest_found struct_bytes commit_ok rgbHex brightness rgb i g
              Hwf Hvalid Hparse Hfind Hne) as (g' & Hrun & Hset & Hlen & Hl).
  destruct (findColor_inv _ _ _ _ _ Hwf Hfind) as [_ Hres].
  destruct (find_result_range _ _ _ _ _ (proj1 Hwf) Hres) as [Hi|Heq]; [|contradiction].
  destruct Hwf as (Hcount & Hactive & Hlen0). unfold COLOR_COUNT in *.
  exists g'. split; [exact Hrun|]. split; [exact Hset|]. split; [exact Hlen|].
  unfold saved. rewrite Hset. cbn [colorCount].
  apply list_eq. intros k.
  destruct (Z.lt_ge_cases (Z.of_nat k) (colorCount (settings g) - 1)) as [Hk|Hk].
  - rewrite lookup_take_lt by lia. rewrite Hl. unfold shifted.
    destruct (Z.lt_ge_cases (Z.of_nat k) i) as [Hki|Hki].
    + destruct (Z.leb_spec i (Z.of_nat k)); [lia|]. cbn [andb].
      rewrite list_lookup_delete_lt, lookup_take_lt by lia.
      apply list_lookup_insert_ne. lia.
    + destruct (Z.leb_spec i (Z.of_nat k)); [|lia].
      destruct (Z.ltb_spec (Z.of_nat k) (colorCount (settings g) - 1)); [|lia]. cbn [andb].
      rewrite list_lookup_delete_ge, lookup_take_lt by lia.
      apply list_lookup_insert_ne. lia.
  - rewrite lookup_take_ge by lia.
    rewrite list_lookup_delete_ge, lookup_take_ge by lia. reflexivity.
Qed.

Lemma saved_committed (struct_bytes : npControllerSettingType -> list colorType -> list Z)
    (commit_ok : bool) (g : Globals) :
  saved (committed struct_bytes commit_ok g) = saved g.
Proof. unfold saved. now rewrite settings_committed, palette_committed. Qed.

Lemma committed_flash (struct_bytes : npControllerSettingType -> list colorType -> list Z)
    (g : Globals) :
  EEPROM_flash (committed struct_bytes true g) = npControllerEEPROM (committed struct_bytes true g)
  /\ crc32 (npControllerEEPROM (committed struct_bytes true g))
     = record_crc struct_bytes (npControllerEEPROM (committed struct_bytes true g)).
Proof. split; reflexivity. Qed.

Lemma uncommitted_flash (struct_bytes : npControllerSettingType -> list colorType -> list Z)
    (g : Globals) :
  EEPROM_flash (committed struct_bytes false g) = EEPROM_flash g /\
  EEPROM_data (committed struct_bytes false g)
  = npControllerEEPROM (committed struct_bytes false g).
Proof. split; reflexivity. Qed.

(** X1. [saveRequest] of an accepted colour that is not yet saved, with
    room left and a commit that succeeds, returns 1, puts the colour
    behind the saved ones, raises [colorCount] by one, leaves the program
    state and the active indices alone, and the flash then holds the
    record in RAM with its checksum. *)
Theorem saveRequest_appends
    (struct_bytes : npControllerSettingType -> list colorType -> list Z)
    (rgbHex : string) (brightness : Z) (rgb : Z * Z * Z) (g : Globals) :
  wf g ->
  colorCount (settings g) <> COLOR_COUNT ->
  checkValidColor rgbHex brightness = Some 1 ->
  parseHexColor rgbHex = Some rgb ->
  color_of rgb brightness ∉ saved g ->
  exists g',
    saveRequest struct_bytes true rgbHex brightness g = Some (1, g') /\
    saved g' = saved g ++ [color_of rgb brightness] /\
    colorCount (settings g') = colorCount (settings g) + 1 /\
    programState (settings g') = programState (settings g) /\
    activeColor (settings g') = activeColor (settings g) /\
    activeEffect (settings g') = activeEffect (settings g) /\
    EEPROM_flash g' = npControllerEEPROM g' /\
    crc32 (npControllerEEPROM g') = record_crc struct_bytes (npControllerEEPROM g').
Proof.
  intros Hwf Hroom Hvalid Hparse Hnew.
  pose proof (findColor_unsaved rgb brightness g Hwf Hnew) as Hfind.
  eexists. split; [now apply (saveRequest_new struct_bytes true rgbHex brightness rgb g)|].
  rewrite saved_committed, settings_committed.
  split; [now apply saved_appended|]. repeat split.
Qed.

Lemma saveRequest_appends_witness :
  exists g',
    saveRequest esp8266_struct_bytes true "ff00aa" 50 (three_colors 0) = Some (1, g') /\
    saved g' = saved (three_colors 0) ++ [color_of (255, 0, 170) 50] /\
    colorCount (settings g') = colorCount (settings (three_colors 0)) + 1 /\
    programState (settings g') = programState (settings (three_colors 0)) /\
    activeColor (settings g') = activeColor (settings (three_colors 0)) /\
    activeEffect (settings g') = activeEffect (settings (three_colors 0)) /\
    EEPROM_flash g' = npControllerEEPROM g' /\
    crc32 (npControllerEEPROM g') = record_crc esp8266_struct_bytes (npControllerEEPROM g').
Proof.
  apply (saveRequest_appends esp8266_struct_bytes "ff00aa" 50 (255, 0, 170) (three_colors 0)).
  - wf_by_computation.
  - vm_compute. discriminate.
  - reflexivity.
  - reflexivity.
  - vm_compute. intros Hin. repeat (apply elem_of_cons in Hin as [Heq|Hin]; [discriminate Heq|]).
    now apply elem_of_nil in Hin.
Defined.

Lemma saveRequest_duplicate (struct_bytes : npControllerSettingType -> list colorType -> list Z)
    (commit_ok : bool) (rgbHex : string) (brightness : Z) (rgb : Z * Z * Z) (g : Globals) :
  wf g ->
  colorCount (settings g) <> COLOR_COUNT ->
  checkValidColor rgbHex brightness = Some 1 ->
  parseHexColor rgbHex = Some rgb ->
  color_of rgb brightness ∈ saved g ->
  saveRequest struct_bytes commit_ok rgbHex brightness g = Some (3, g).
Proof.
  intros Hwf Hroom Hvalid Hparse Hin. unfold saveRequest.
  destruct (findColor_member rgb brightness g Hwf Hin) as (i & Hfind & Hi & _).
  rewrite (bind_run setting _ g g (settings g) eq_refl).
  destruct (Z.eqb_spec (colorCount (settings g)) COLOR_COUNT) as [|_]; [contradiction|].
  rewrite (bind_run _ _ g g 1 (lift_run _ _ _ Hvalid)). cbn [Z.eqb negb].
  rewrite (bind_run _ _ g g rgb (lift_run _ _ _ Hparse)).
  rewrite (bind_run _ _ g g _ Hfind).
  destruct Hwf as (Hcount & _). destruct (Z.ltb_spec i COLOR_COUNT); [reflexivity|lia].
Qed.

Lemma saveRequest_no_room (struct_bytes : npControllerSettingType -> list colorType -> list Z)
    (commit_ok : bool) (rgbHex : string) (brightness : Z) (g : Globals) :
  colorCount (settings g) = COLOR_COUNT ->
  saveRequest struct_bytes commit_ok rgbHex brightness g = Some (4, g).
Proof.
  intros Hfull. unfold saveRequest.
  rewrite (bind_run setting _ g g (settings g) eq_refl). now rewrite Hfull.
Qed.

(** X2. After [saveRequest] has stored a new colour, whatever its commit
    answered, the same request again changes nothing and returns 3
    (already saved), or 4 when the first call filled the last free place:
    the test for a full palette comes first. *)
Theorem saveRequest_twice
    (struct_bytes : npControllerSettingType -> list colorType -> list Z)
    (ok1 ok2 : bool) (rgbHex : string) (brightness : Z) (rgb : Z * Z * Z) (g : Globals) :
  wf g ->
  colorCount (settings g) <> COLOR_COUNT ->
  checkValidColor rgbHex brightness = Some 1 ->
  parseHexColor rgbHex = Some rgb ->
  color_of rgb brightness ∉ saved g ->
  exists g',
    saveRequest struct_bytes ok1 rgbHex brightness g = Some (if ok1 then 1 else 0, g') /\
    colorCount (settings g') = colorCount (settings g) + 1 /\
    saveRequest struct_bytes ok2 rgbHex brightness g'
    = Some (if colorCount (settings g) + 1 =? COLOR_COUNT then 4 else 3, g').
Proof.
  intros Hwf Hroom Hvalid Hparse Hnew.
  pose proof (findColor_unsaved rgb brightness g Hwf Hnew) as Hfind.
  set (g1 := appended (color_of rgb brightness) g).
  exists (committed struct_bytes ok1 g1).
  split; [now apply (saveRequest_new struct_bytes ok1 rgbHex brightness rgb g)|].
  rewrite settings_committed. split; [reflexivity|].
  change (colorCount (settings g) + 1) with (colorCount (settings g1)).
  rewrite <- (settings_committed struct_bytes ok1 g1).
  destruct (Z.eqb_spec (colorCount (settings (committed struct_bytes ok1 g1))) COLOR_COUNT)
    as [Hfull|Hroom'].
  - now apply saveRequest_no_room.
  - apply (saveRequest_duplicate struct_bytes ok2 rgbHex brightness rgb);
      [apply wf_committed; now apply wf_appended|exact Hroom'|exact Hvalid|exact Hparse|].
    rewrite saved_committed. unfold g1. rewrite saved_appended by assumption.
    apply elem_of_app. right. apply list_elem_of_singleton. reflexivity.
Qed.

Lemma saveRequest_twice_witness :
  exists g',
    saveRequest esp8266_struct_bytes true "ff00aa" 50 (three_colors 0) = Some (1, g') /\
    colorCount (settings g') = colorCount (settings (three_colors 0)) + 1 /\
    saveRequest esp8266_struct_bytes false "ff00aa" 50 g'
    = Some (if colorCount (settings (three_colors 0)) + 1 =? COLOR_COUNT then 4 else 3, g').
Proof.
  apply (saveRequest_twice esp8266_struct_bytes true false "ff00aa" 50 (255, 0, 170)
           (three_colors 0)).
  - wf_by_computation.
  - vm_compute. discriminate.
  - reflexivity.
  - reflexivity.
  - vm_compute. intros Hin. repeat (apply elem_of_cons in Hin as [Heq|Hin]; [discriminate Heq|]).
    now apply elem_of_nil in Hin.
Defined.

(** X3. When the commit fails, [saveRequest] returns 0 although the colour
    is by then stored in RAM: it is among the saved colours and
    [colorCount] has gone up, the library's buffer holds the new record,
    and the flash is as it was. *)
Theorem saveRequest_commit_failed
    (struct_bytes : npControllerSettingType -> list colorType -> list Z)
    (rgbHex : string) (brightness : Z) (rgb : Z * Z * Z) (g : Globals) :
  wf g ->
  colorCount (settings g) <> COLOR_COUNT ->
  checkValidColor rgbHex brightness = Some 1 ->
  parseHexColor rgbHex = Some rgb ->
  color_of rgb brightness ∉ saved g ->
  exists g',
    saveRequest struct_bytes false rgbHex brightness g = Some (0, g') /\
    saved g' = saved g ++ [color_of rgb brightness] /\
    colorCount (settings g') = colorCount (settings g) + 1 /\
    EEPROM_data g' = npControllerEEPROM g' /\
    EEPROM_flash g' = EEPROM_flash g.
Proof.
  intros Hwf Hroom Hvalid Hparse Hnew.
  pose proof (findColor_unsaved rgb brightness g Hwf Hnew) as Hfind.
  eexists. split; [now apply (saveRequest_new struct_bytes false rgbHex brightness rgb g)|].
  rewrite saved_committed, settings_committed.
  split; [now apply saved_appended|]. repeat split.
Qed.

Lemma saveRequest_commit_failed_witness :
  exists g',
    saveRequest esp8266_struct_bytes false "ff00aa" 50 (three_colors 0) = Some (0, g') /\
    saved g' = saved (three_colors 0) ++ [color_of (255, 0, 170) 50] /\
    colorCount (settings g') = colorCount (settings (three_colors 0)) + 1 /\
    EEPROM_data g' = npControllerEEPROM g' /\
    EEPROM_flash g' = EEPROM_flash (three_colors 0).
Proof.
  apply (saveRequest_commit_failed esp8266_struct_bytes "ff00aa" 50 (255, 0, 170)
           (three_colors 0)).
  - wf_by_computation.
  - vm_compute. discriminate.
  - reflexivity.
  - reflexivity.
  - vm_compute. intros Hin. repeat (apply elem_of_cons in Hin as [Heq|Hin]; [discriminate Heq|]).
    now apply elem_of_nil in Hin.
Defined.

(** ** Rejected requests *)

Lemma checkValidColor_digits_all (n : nat) (rgbHex : string) :
  forall i, 0 <= i -> i + Z.of_nat n < 256 ->
    checkValidColor_digits n i rgbHex = Some true ->
    forall j c, i <= j < i + Z.of_nat n -> char_at rgbHex j = Some c -> isxdigit c = true.
Proof.
  induction n as [|n IH]; intros i Hi Hmax Hrun j c Hj Hc; [lia|].
  cbn [checkValidColor_digits] in Hrun.
  destruct (char_at rgbHex i) as [ci|] eqn:Hci; [|discriminate].
  destruct (isxdigit ci) eqn:Hdigit; [|discriminate]. cbn [negb] in Hrun.
  destruct (Z.eq_dec j i) as [->|Hne].
  - rewrite Hci in Hc. now injection Hc as <-.
  - replace (wrap8 (i + 1)) with (i + 1) in Hrun
      by (unfold wrap8; symmetry; apply Z.mod_small; lia).
    apply (IH (i + 1)) with (j := j); [lia|lia|exact Hrun|lia|exact Hc].
Qed.

Lemma checkValidColor_rejects (rgbHex : string) (brightness : Z) :
  rejected_color rgbHex brightness -> checkValidColor rgbHex brightness = Some 0.
Proof.
  intros Hbad. destruct (checkValidColor_total rgbHex brightness) as [H|H]; [exact H|].
  exfalso. apply checkValidColor_accepts in H as (Hlen & Hdigits & (rgb & Hparse & Hne) & Hb).
  destruct Hbad as [Hbad|[Hbad|[(i & c & Hi & Hc & Hx)|Hbad]]]; [lia|lia| |congruence].
  pose proof (checkValidColor_digits_all 6 rgbHex 0 ltac:(lia) ltac:(lia) Hdigits i c
                ltac:(lia) Hc).
  congruence.
Qed.

(** X4. A colour text whose length is not six, that has a character other
    than a hexadecimal digit among its six, or that is black, and any
    brightness above 100, is turned down by all three requests:
    [colorRequest] returns 0, [saveRequest] (with room left) and
    [deleteRequest] return 2, and nothing of the state changes. *)
Theorem rejected_color_changes_nothing
    (struct_bytes : npControllerSettingType -> list colorType -> list Z)
    (commit_ok : bool) (rgbHex : string) (brightness : Z) (g : Globals) :
  rejected_color rgbHex brightness ->
  colorRequest rgbHex brightness g = Some (0, g) /\
  (colorCount (settings g) <> COLOR_COUNT ->
   saveRequest struct_bytes commit_ok rgbHex brightness g = Some (2, g)) /\
  deleteRequest struct_bytes commit_ok rgbHex brightness g = Some (2, g).
Proof.
  intros Hbad. pose proof (checkValidColor_rejects _ _ Hbad) as H.
  split; [now apply colorRequest_invalid|]. split.
  - intros Hroom. unfold saveRequest.
    rewrite (bind_run setting _ g g (settings g) eq_refl).
    destruct (Z.eqb_spec (colorCount (settings g)) COLOR_COUNT) as [|_]; [contradiction|].
    now rewrite (bind_run _ _ g g 0 (lift_run _ _ _ H)).
  - unfold deleteRequest. now rewrite (bind_run _ _ g g 0 (lift_run _ _ _ H)).
Qed.

Lemma rejected_color_changes_nothing_witness :
  (colorRequest "ff00aa" 101 (three_colors 0) = Some (0, three_colors 0) /\
   (colorCount (settings (three_colors 0)) <> COLOR_COUNT ->
    saveRequest esp8266_struct_bytes true "ff00aa" 101 (three_colors 0)
    = Some (2, three_colors 0)) /\
   deleteRequest esp8266_struct_bytes true "ff00aa" 101 (three_colors 0)
   = Some (2, three_colors 0)) /\
  (colorRequest "ff00ag" 50 (three_colors 0) = Some (0, three_colors 0) /\
   (colorCount (settings (three_colors 0)) <> COLOR_COUNT ->
    saveRequest esp8266_struct_bytes true "ff00ag" 50 (three_colors 0)
    = Some (2, three_colors 0)) /\
   deleteRequest esp8266_struct_bytes true "ff00ag" 50 (three_colors 0)
   = Some (2, three_colors 0)).
Proof.
  split.
  - apply (rejected_color_changes_nothing esp8266_struct_bytes true "ff00aa" 101).
    right. left. lia.
  - apply (rejected_color_changes_nothing esp8266_struct_bytes true "ff00ag" 50).
    right. right. left. exists 5, "g"%char. split; [lia|]. split; reflexivity.
Defined.

Lemma deleteRequest_absent
    (struct_bytes : npControllerSettingType -> list colorType -> list Z)
    (commit_ok : bool) (rgbHex : string) (brightness : Z) (rgb : Z * Z * Z) (g : Globals) :
  wf g ->
  checkValidColor rgbHex brightness = Some 1 ->
  parseHexColor rgbHex = Some rgb ->
  color_of rgb brightness ∉ saved g ->
  deleteRequest struct_bytes commit_ok rgbHex brightness g = Some (3, g).
Proof.
  intros Hwf Hvalid Hparse Hnew.
  pose proof (findColor_unsaved rgb brightness g Hwf Hnew) as Hfind.
  unfold deleteRequest.
  rewrite (bind_run _ _ g g 1 (lift_run _ _ _ Hvalid)). cbn [Z.eqb negb].
  rewrite (bind_run _ _ g g rgb (lift_run _ _ _ Hparse)).
  rewrite (bind_run _ _ g g _ Hfind). now rewrite Z.eqb_refl.
Qed.

(** X5. [deleteRequest] of an accepted colour that is not among the saved
    ones returns 3 and changes nothing: no entry moves, nothing is handed
    to the EEPROM library and nothing is committed. *)
Theorem deleteRequest_not_found
    (struct_bytes : npControllerSettingType -> list colorType -> list Z)
    (commit_ok : bool) (rgbHex : string) (brightness : Z) (rgb : Z * Z * Z) (g : Globals) :
  wf g ->
  checkValidColor rgbHex brightness = Some 1 ->
  parseHexColor rgbHex = Some rgb ->
  color_of rgb brightness ∉ saved g ->
  deleteRequest struct_bytes commit_ok rgbHex brightness g = Some (3, g) /\
  deleteResponse_rsE 3 = "Color not found."%string.
Proof.
  intros Hwf Hvalid Hparse Hnew.
  split; [now apply (deleteRequest_absent struct_bytes commit_ok rgbHex brightness rgb)|reflexivity].
Qed.

Lemma deleteRequest_not_found_witness :
  deleteRequest esp8266_struct_bytes true "123456" 10 (three_colors 0)
  = Some (3, three_colors 0) /\
  deleteResponse_rsE 3 = "Color not found."%string.
Proof.
  apply (deleteRequest_not_found esp8266_struct_bytes true "123456" 10 (18, 52, 86)).
  - wf_by_computation.
  - reflexivity.
  - reflexivity.
  - vm_compute. intros Hin. repeat (apply elem_of_cons in Hin as [Heq|Hin]; [discriminate Heq|]).
    now apply elem_of_nil in Hin.
Defined.

(** ** Round trips *)

(** X6. Saving a new colour and then deleting it, whatever the two commits
    answer, gives back the saved colours and the [colorCount] there were,
    and the active index when it named a saved colour. *)
Theorem save_then_delete
    (struct_bytes : npControllerSettingType -> list colorType -> list Z)
    (ok1 ok2 : bool) (rgbHex : string) (brightness : Z) (rgb : Z * Z * Z) (g : Globals) :
  wf g ->
  colorCount (settings g) <> COLOR_COUNT ->
  checkValidColor rgbHex brightness = Some 1 ->
  parseHexColor rgbHex = Some rgb ->
  color_of rgb brightness ∉ saved g ->
  exists g1 g2,
    saveRequest struct_bytes ok1 rgbHex brightness g = Some (if ok1 then 1 else 0, g1) /\
    deleteRequest struct_bytes ok2 rgbHex brightness g1 = Some (if ok2 then 1 else 0, g2) /\
    saved g2 = saved g /\
    colorCount (settings g2) = colorCount (settings g) /\
    programState (settings g2) = programState (settings g) /\
    activeEffect (settings g2) = activeEffect (settings g) /\
    (activeColor (settings g) < colorCount (settings g) ->
     activeColor (settings g2) = activeColor (settings g)).
Proof.
  intros Hwf Hroom Hvalid Hparse Hnew.
  pose proof (findColor_unsaved rgb brightness g Hwf Hnew) as Hfind.
  set (c := color_of rgb brightness) in *.
  set (g1 := committed struct_bytes ok1 (appended c g)).
  assert (Hwf1 : wf g1) by (apply wf_committed; now apply wf_appended).
  assert (Hsaved1 : saved g1 = saved g ++ [c]).
  { unfold g1. rewrite saved_committed. now apply saved_appended. }
  assert (Hin : c ∈ saved g1).
  { rewrite Hsaved1. apply elem_of_app. right. now apply list_elem_of_singleton. }
  destruct (findColor_member rgb brightness g1 Hwf1 Hin) as (i & Hfind1 & Hi & Hat).
  assert (Hcount1 : colorCount (settings g1) = colorCount (settings g) + 1).
  { unfold g1. now rewrite settings_committed. }
  pose proof (saved_length g Hwf) as Hlen.
  assert (Hi' : i = colorCount (settings g)).
  { destruct (Z.lt_ge_cases i (colorCount (settings g))) as [Hlt|Hge]; [|lia].
    exfalso. apply Hnew. rewrite Hsaved1, lookup_app_l in Hat by lia.
    now apply list_elem_of_lookup_2 in Hat. }
  subst i.
  destruct (deleteRequest_saved struct_bytes ok2 rgbHex brightness rgb (colorCount (settings g))
              g1 Hwf1 Hvalid Hparse Hfind1 Hroom) as (g2 & Hrun & Hset & _ & Hsaved2).
  exists g1, g2.
  split; [now apply (saveRequest_new struct_bytes ok1 rgbHex brightness rgb g)|].
  split; [exact Hrun|].
  split.
  { rewrite Hsaved2, Hsaved1, <- Hlen. replace (saved g ++ [c]) with (saved g ++ c :: [])
      by reflexivity. rewrite delete_middle. apply app_nil_r. }
  rewrite Hset, Hcount1. cbn.
  split; [lia|]. unfold g1. rewrite settings_committed. cbn.
  split; [reflexivity|]. split; [reflexivity|].
  intros Hactive. fold (settings g). unfold activeColor_after_delete.
  destruct (Z.eqb_spec (activeColor (settings g)) (colorCount (settings g))); [lia|].
  destruct (Z.ltb_spec (colorCount (settings g)) (activeColor (settings g))); [lia|reflexivity].
Qed.

Lemma save_then_delete_witness :
  exists g1 g2,
    saveRequest esp8266_struct_bytes true "ff00aa" 50 (three_colors 1) = Some (1, g1) /\
    deleteRequest esp8266_struct_bytes true "ff00aa" 50 g1 = Some (1, g2) /\
    saved g2 = saved (three_colors 1) /\
    colorCount (settings g2) = colorCount (settings (three_colors 1)) /\
    programState (settings g2) = programState (settings (three_colors 1)) /\
    activeEffect (settings g2) = activeEffect (settings (three_colors 1)) /\
    (activeColor (settings (three_colors 1)) < colorCount (settings (three_colors 1)) ->
     activeColor (settings g2) = activeColor (settings (three_colors 1))).
Proof.
  apply (save_then_delete esp8266_struct_bytes true true "ff00aa" 50 (255, 0, 170)
           (three_colors 1)).
  - wf_by_computation.
  - vm_compute. discriminate.
  - reflexivity.
  - reflexivity.
  - vm_compute. intros Hin. repeat (apply elem_of_cons in Hin as [Heq|Hin]; [discriminate Heq|]).
    now apply elem_of_nil in Hin.
Defined.

(** [setup] on a record that carries its own checksum: the record is
    loaded as it is, nothing is reset and nothing is written. *)
Lemma setup_checksum_match
    (struct_bytes : npControllerSettingType -> list colorType -> list Z)
    (percentUsed : Z) (commit_ok : bool) (g : Globals) :
  0 <= percentUsed ->
  record_crc struct_bytes (EEPROM_flash g) = crc32 (EEPROM_flash g) ->
  setup struct_bytes percentUsed commit_ok g
  = Some (tt, with_ram (EEPROM_flash g) (with_EEPROM_data (EEPROM_flash g) g)).
Proof.
  intros Hused Hcrc. unfold setup, bind at 1, EEPROM_begin.
  destruct (Z.leb_spec 0 percentUsed); [|lia].
  unfold bind, EEPROM_get. cbn [EEPROM_data with_EEPROM_data npControllerEEPROM with_ram].
  rewrite Hcrc. now rewrite Z.eqb_refl.
Qed.

(** X7. What [saveEEPROM] commits, [setup] reads back: after a successful
    commit, a boot from that flash (whatever is in RAM by then, whatever
    the library reports as used, as long as it is not negative) finds the
    checksum right and restores the settings and all eleven colours, and
    writes nothing. *)
Theorem saveEEPROM_setup_round_trip
    (struct_bytes : npControllerSettingType -> list colorType -> list Z)
    (g : Globals) :
  exists g1,
    saveEEPROM struct_bytes true g = Some (1, g1) /\
    settings g1 = settings g /\ palette g1 = palette g /\
    forall (g2 : Globals) (percentUsed : Z) (commit_ok : bool),
      EEPROM_flash g2 = EEPROM_flash g1 ->
      0 <= percentUsed ->
      exists g3,
        setup struct_bytes percentUsed commit_ok g2 = Some (tt, g3) /\
        settings g3 = settings g /\
        palette g3 = palette g /\
        EEPROM_flash g3 = EEPROM_flash g1.
Proof.
  exists (committed struct_bytes true g).
  split; [apply saveEEPROM_spec|]. split; [reflexivity|]. split; [reflexivity|].
  intros g2 percentUsed commit_ok Hflash Hused.
  eexists. split.
  - apply setup_checksum_match; [exact Hused|]. rewrite Hflash. reflexivity.
  - unfold settings, palette. cbn. rewrite Hflash. repeat split.
Qed.

Lemma saveEEPROM_setup_round_trip_witness :
  exists g1,
    saveEEPROM esp8266_struct_bytes true (three_colors 1) = Some (1, g1) /\
    exists g3,
      setup esp8266_struct_bytes 7 true (with_ram (example_record (mk_setting 0 NEOPIXEL_OFF 0 0)
                                                     [] zero_color) g1) = Some (tt, g3) /\
      settings g3 = settings (three_colors 1) /\
      palette g3 = palette (three_colors 1).
Proof.
  destruct (saveEEPROM_setup_round_trip esp8266_struct_bytes (three_colors 1))
    as (g1 & Hsave & _ & _ & Hboot).
  exists g1. split; [exact Hsave|].
  destruct (Hboot (with_ram (example_record (mk_setting 0 NEOPIXEL_OFF 0 0) [] zero_color) g1)
              7 true eq_refl ltac:(lia)) as (g3 & Hsetup & Hs & Hp & _).
  exists g3. repeat split; assumption.
Defined.

(** ** The invariant of the device state *)

Lemma checkValidEffect_range (name : string) :
  0 <= checkValidEffect name <= ARRAY_SIZE effects.
Proof.
  unfold checkValidEffect.
  destruct (checkValidEffect_from_spec effects name 0)
    as [(k & e & Hk & _ & _ & ->)|(_ & ->)]; [lia|vm_compute; reflexivity| |].
  - apply lookup_lt_Some in Hk. unfold ARRAY_SIZE. lia.
  - unfold ARRAY_SIZE. lia.
Qed.

Lemma palette_ok_colorRequest (rgbHex : string) (brightness : Z) (g : Globals) :
  palette_ok g ->
  exists r g', colorRequest rgbHex brightness g = Some (r, g') /\ palette_ok g' /\
               saved g' = saved g /\ EEPROM_flash g' = EEPROM_flash g /\
               EEPROM_data g' = EEPROM_data g.
Proof.
  intros Hok. pose proof Hok as (Hwf & Hactive & Heffect & Hnodup & Hvalid).
  destruct (checkValidColor_total rgbHex brightness) as [H|H].
  - exists 0, g. split; [now apply colorRequest_invalid|]. split; [exact Hok|]. now repeat split.
  - destruct (checkValidColor_parse _ _ H) as [rgb Hparse].
    destruct (findColor_spec rgb brightness g Hwf) as (i & Hfind & Hres).
    set (c := mk_color rgb.1.1 rgb.1.2 rgb.2 brightness).
    assert (Hsaved : saved (color_shown i c g) = saved g).
    { destruct (find_result_range _ _ _ _ _ (proj1 Hwf) Hres) as [Hin| ->].
      - unfold saved, color_shown; cbn. fold (palette g) (settings g). unfold c.
        rewrite (find_result_insert_id (palette g) (colorCount (settings g)));
          [reflexivity|apply Hwf|destruct Hwf as (Hc & _); lia|exact Hres].
      - apply saved_color_shown; destruct Hwf as (Hc & _); lia. }
    exists 1, (color_shown i c g).
    split; [now apply (colorRequest_valid rgbHex brightness rgb i)|].
    split; [|split; [exact Hsaved|split; reflexivity]].
    split; [apply wf_color_shown; [exact Hwf|];
            apply (find_result_uint8 _ _ _ _ _ (proj1 Hwf) Hres)|].
    rewrite Hsaved. split; [|split; [exact Heffect|split; assumption]].
    cbn. destruct (find_result_range _ _ _ _ _ (proj1 Hwf) Hres) as [Hin|Heq];
      destruct Hwf as (Hc & _); unfold COLOR_COUNT in *; lia.
Qed.

Lemma palette_ok_offRequest (g : Globals) :
  palette_ok g ->
  exists g', offRequest g = Some (1, g') /\ palette_ok g' /\
             saved g' = saved g /\ EEPROM_flash g' = EEPROM_flash g.
Proof.
  intros Hok. destruct g as [[crc [cnt st ac ae] cols] af lnr chg dat fl].
  eexists. split; [reflexivity|]. split; [exact Hok|]. split; reflexivity.
Qed.

Lemma palette_ok_effectRequest (name : string) (g : Globals) :
  palette_ok g ->
  exists r g', effectRequest name g = Some (r, g') /\ palette_ok g' /\
               saved g' = saved g /\ EEPROM_flash g' = EEPROM_flash g.
Proof.
  intros Hok. pose proof (checkValidEffect_range name) as Hrange.
  destruct g as [[crc [cnt st ac ae] cols] af lnr chg dat fl].
  unfold effectRequest.
  destruct (Z.ltb_spec (checkValidEffect name) (ARRAY_SIZE effects)) as [H|H].
  - eexists _, _. split; [reflexivity|]. split; [|split; reflexivity].
    destruct Hok as (Hwf & Hactive & _ & Hnodup & Hvalid).
    split; [exact Hwf|]. split; [exact Hactive|].
    split; [exact (conj (proj1 Hrange) H)|]. now split.
  - eexists _, _. split; [reflexivity|]. split; [exact Hok|]. split; reflexivity.
Qed.

Lemma palette_ok_saveRequest
    (struct_bytes : npControllerSettingType -> list colorType -> list Z)
    (commit_ok : bool) (rgbHex : string) (brightness : Z) (g : Globals) :
  palette_ok g -> 0 <= brightness ->
  exists r g', saveRequest struct_bytes commit_ok rgbHex brightness g = Some (r, g') /\
               palette_ok g'.
Proof.
  intros Hok Hb. pose proof Hok as (Hwf & Hactive & Heffect & Hnodup & Hvalid).
  destruct (Z.eq_dec (colorCount (settings g)) COLOR_COUNT) as [Hfull|Hroom].
  { exists 4, g. split; [now apply saveRequest_no_room|exact Hok]. }
  destruct (checkValidColor_total rgbHex brightness) as [H|H].
  { exists 2, g. split; [|exact Hok]. unfold saveRequest.
    rewrite (bind_run setting _ g g (settings g) eq_refl).
    destruct (Z.eqb_spec (colorCount (settings g)) COLOR_COUNT) as [|_]; [contradiction|].
    now rewrite (bind_run _ _ g g 0 (lift_run _ _ _ H)). }
  destruct (checkValidColor_parse _ _ H) as [rgb Hparse].
  destruct (decide (color_of rgb brightness ∈ saved g)) as [Hin|Hnew].
  { exists 3, g. split; [|exact Hok].
    now apply (saveRequest_duplicate struct_bytes commit_ok rgbHex brightness rgb). }
  pose proof (findColor_unsaved rgb brightness g Hwf Hnew) as Hfind.
  eexists _, _.
  split; [now apply (saveRequest_new struct_bytes commit_ok rgbHex brightness rgb g)|].
  unfold palette_ok. rewrite saved_committed, settings_committed.
  split; [apply wf_committed; now apply wf_appended|].
  rewrite saved_appended by assumption.
  split; [exact Hactive|]. split; [exact Heffect|]. split.
  - apply NoDup_app. split; [exact Hnodup|]. split; [|apply NoDup_singleton].
    intros x Hx Hx'. apply list_elem_of_singleton in Hx'. now subst.
  - apply Forall_app. split; [exact Hvalid|].
    apply Forall_singleton. now apply (checkValidColor_valid_color rgbHex).
Qed.

Lemma palette_ok_deleteRequest
    (struct_bytes : npControllerSettingType -> list colorType -> list Z)
    (commit_ok : bool) (rgbHex : string) (brightness : Z) (g : Globals) :
  palette_ok g ->
  exists r g', deleteRequest struct_bytes commit_ok rgbHex brightness g = Some (r, g') /\
               palette_ok g'.
Proof.
  intros Hok. pose proof Hok as (Hwf & Hactive & Heffect & Hnodup & Hvalid).
  destruct (checkValidColor_total rgbHex brightness) as [H|H].
  { exists 2, g. split; [|exact Hok]. unfold deleteRequest.
    now rewrite (bind_run _ _ g g 0 (lift_run _ _ _ H)). }
  destruct (checkValidColor_parse _ _ H) as [rgb Hparse].
  destruct (decide (color_of rgb brightness ∈ saved g)) as [Hin|Hnew].
  2:{ exists 3, g. split; [|exact Hok].
      now apply (deleteRequest_absent struct_bytes commit_ok rgbHex brightness rgb). }
  destruct (findColor_member rgb brightness g Hwf Hin) as (i & Hfind & Hi & _).
  assert (Hne : i <> COLOR_COUNT) by (destruct Hwf as (Hc & _); lia).
  destruct (deleteRequest_saved struct_bytes commit_ok rgbHex brightness rgb i g
              Hwf H Hparse Hfind Hne) as (g' & Hrun & Hset & Hlen & Hsaved).
  exists (if commit_ok then 1 else 0), g'. split; [exact Hrun|].
  unfold palette_ok, wf. rewrite Hsaved, Hset, Hlen. cbn.
  destruct Hwf as (Hcount & Hact & Hlen0). unfold COLOR_COUNT in *.
  unfold activeColor_after_delete.
  split; [|split; [|split; [exact Heffect|split]]].
  - destruct (Z.eqb_spec (activeColor (settings g)) i),
             (Z.ltb_spec i (activeColor (settings g))); repeat split; try lia; assumption.
  - destruct (Z.eqb_spec (activeColor (settings g)) i),
             (Z.ltb_spec i (activeColor (settings g))); lia.
  - eapply sublist_NoDup; [exact Hnodup|apply sublist_delete].
  - now apply Forall_delete.
Qed.

Lemma processClick_frame (clickType : Z) (g : Globals) :
  palette_ok g ->
  exists g', processClick clickType g = Some (tt, g') /\ palette_ok g' /\
             palette g' = palette g /\
             colorCount (settings g') = colorCount (settings g) /\
             changeNeopixel g' = 1 /\
             EEPROM_flash g' = EEPROM_flash g /\ EEPROM_data g' = EEPROM_data g.
Proof.
  intros ((Hcount & Hact & Hlen) & Hactive & Heffect & Hnodup & Hvalid).
  destruct g as [[crc [cnt st ac ae] cols] af lnr chg dat fl].
  unfold palette_ok, wf, saved, settings, palette in *; cbn in *.
  change (ARRAY_SIZE effects) with 12 in *. unfold COLOR_COUNT in *.
  unfold processClick, bind, set_changeNeopixel, setting, update_setting, ret, wrap8; cbn.
  change (ARRAY_SIZE effects) with 12. unfold COLOR_COUNT.
  destruct (clickType =? BUTTON_LONG_CLICK);
    [eexists; split; [reflexivity|]; cbn; repeat split; try lia; assumption|].
  destruct (clickType =? BUTTON_SINGLE_CLICK).
  - destruct (Z.eqb_spec cnt 0);
      [eexists; split; [reflexivity|]; cbn; repeat split; try lia; assumption|].
    destruct (Z.eqb_spec ac 10);
      [eexists; split; [reflexivity|]; cbn; repeat split; try lia; assumption|].
    destruct st; cbn;
      try (eexists; split; [reflexivity|]; cbn; repeat split; try lia; assumption).
    destruct (Z.eqb_spec ac (cnt - 1));
      eexists; (split; [reflexivity|]); cbn; rewrite ?Z.mod_small by lia;
      repeat split; try lia; assumption.
  - destruct (clickType =? BUTTON_DOUBLE_CLICK);
      [|eexists; split; [reflexivity|]; cbn; repeat split; try lia; assumption].
    destruct st; cbn;
      try (eexists; split; [reflexivity|]; cbn; repeat split; try lia; assumption).
    destruct (Z.eqb_spec ae (12 - 1));
      eexists; (split; [reflexivity|]); cbn; rewrite ?Z.mod_small by lia;
      repeat split; try lia; assumption.
Qed.

Lemma palette_ok_run_command
    (struct_bytes : npControllerSettingType -> list colorType -> list Z)
    (cmd : Command) (g : Globals) :
  palette_ok g -> command_uint8 cmd ->
  exists r g', run_command struct_bytes cmd g = Some (r, g') /\ palette_ok g'.
Proof.
  intros Hok Hcmd. destruct cmd as [s b| |name|ok s b|ok s b|t]; cbn [run_command].
  - destruct (palette_ok_colorRequest s b g Hok) as (r & g' & Hrun & Hok' & _). eauto.
  - destruct (palette_ok_offRequest g Hok) as (g' & Hrun & Hok' & _). eauto.
  - destruct (palette_ok_effectRequest name g Hok) as (r & g' & Hrun & Hok' & _). eauto.
  - apply palette_ok_saveRequest; [exact Hok|]. cbn in Hcmd. lia.
  - now apply palette_ok_deleteRequest.
  - destruct (processClick_frame t g Hok) as (g' & Hrun & Hok' & _).
    exists 0, g'. split; [|exact Hok']. now rewrite (bind_run _ _ g g' tt Hrun).
Qed.

(** X8. The invariant of the device state is kept by every command and so
    by every sequence of commands, whatever the commits answer: each
    handler returns (no array is indexed outside its bounds), at most
    [COLOR_COUNT] colours are saved, they are pairwise different and each
    is a colour [checkValidColor] accepts, and the active colour and
    effect indices stay within their arrays. *)
Theorem run_commands_keep_invariant
    (struct_bytes : npControllerSettingType -> list colorType -> list Z)
    (cmds : list Command) (g : Globals) :
  palette_ok g ->
  Forall command_uint8 cmds ->
  exists g', run_commands struct_bytes cmds g = Some (tt, g') /\ palette_ok g'.
Proof.
  revert g. induction cmds as [|cmd cmds IH]; intros g Hok Hcmds.
  - exists g. split; [reflexivity|exact Hok].
  - apply Forall_cons in Hcmds as [Hcmd Hcmds].
    destruct (palette_ok_run_command struct_bytes cmd g Hok Hcmd) as (r & g1 & Hrun & Hok1).
    destruct (IH g1 Hok1 Hcmds) as (g' & Hrest & Hok').
    exists g'. split; [|exact Hok'].
    cbn [run_commands]. now rewrite (bind_run _ _ g g1 r Hrun).
Qed.

Lemma palette_ok_example (active : Z) :
  0 <= active <= 10 -> palette_ok (three_colors active).
Proof.
  intros Hactive. split; [|split; [exact (proj2 Hactive)|split; [|split]]].
  - split; [vm_compute; split; discriminate|]. split; [cbn; lia|reflexivity].
  - vm_compute. split; [discriminate|reflexivity].
  - apply (bool_decide_unpack (NoDup _)). vm_compute. exact I.
  - change (Forall valid_color [red; green; blue]).
    repeat (constructor;
            [unfold valid_color; cbn; repeat split; try lia; intros (H & _); discriminate H|]).
    constructor.
Qed.

Lemma run_commands_keep_invariant_witness :
  exists g',
    run_commands esp8266_struct_bytes
      [CmdSave true "ff00aa" 50; CmdClick BUTTON_SINGLE_CLICK; CmdDelete false "ff0000" 50;
       CmdColor "123456" 7; CmdEffect "meteor"; CmdClick BUTTON_DOUBLE_CLICK; CmdOff]
      (three_colors 0) = Some (tt, g') /\
    palette_ok g'.
Proof.
  apply run_commands_keep_invariant.
  - apply palette_ok_example. lia.
  - repeat constructor; cbn; lia.
Defined.

(** ** Clicks in a row *)

Lemma clicks_last (clickType : Z) (n : nat) (g : Globals) :
  clicks clickType (S n) g = (do _ <- clicks clickType n; processClick clickType) g.
Proof.
  revert g. induction n as [|n IH]; intros g.
  - cbv [clicks bind ret]. destruct (processClick clickType g) as [[[] g']|]; reflexivity.
  - assert (Hstep : forall m g0, clicks clickType (S m) g0
                     = match processClick clickType g0 with
                       | Some (_, g1) => clicks clickType m g1
                       | None => None
                       end) by reflexivity.
    rewrite (Hstep (S n)). unfold bind. rewrite (Hstep n).
    destruct (processClick clickType g) as [[[] g1]|]; [|reflexivity].
    rewrite IH. reflexivity.
Qed.

Lemma single_click_resume (k : Z) (g : Globals) :
  colorCount (settings g) <> 0 ->
  programState (settings g) <> NEOPIXEL_COLOR ->
  activeColor (settings g) = k -> k <> COLOR_COUNT ->
  processClick BUTTON_SINGLE_CLICK g = Some (tt, color_clicked NEOPIXEL_COLOR k g).
Proof.
  destruct g as [[crc [cnt st ac ae] cols] af lnr chg dat fl].
  unfold settings; cbn. intros Hcnt Hst <- Hk.
  unfold processClick, bind, set_changeNeopixel, setting, update_setting, ret; cbn.
  destruct (Z.eqb_spec cnt 0); [contradiction|].
  destruct (Z.eqb_spec ac COLOR_COUNT); [contradiction|].
  destruct st; try contradiction; reflexivity.
Qed.

Lemma single_click_next (k : Z) (g : Globals) :
  colorCount (settings g) <> 0 ->
  programState (settings g) = NEOPIXEL_COLOR ->
  activeColor (settings g) = k -> k <> COLOR_COUNT -> 0 <= k < 255 ->
  processClick BUTTON_SINGLE_CLICK g
  = Some (tt, if k =? colorCount (settings g) - 1
              then color_clicked NEOPIXEL_OFF 0 g
              else color_clicked NEOPIXEL_COLOR (k + 1) g).
Proof.
  destruct g as [[crc [cnt st ac ae] cols] af lnr chg dat fl].
  unfold settings; cbn. intros Hcnt -> <- Hk Hrange.
  unfold processClick, bind, set_changeNeopixel, setting, update_setting, ret.
  remember wrap8 as w eqn:Hw. cbn.
  destruct (Z.eqb_spec cnt 0); [contradiction|].
  destruct (Z.eqb_spec ac COLOR_COUNT); [contradiction|].
  destruct (ac =? cnt - 1); [reflexivity|].
  change (bool_decide (NEOPIXEL_COLOR = NEOPIXEL_OFF)
          || bool_decide (NEOPIXEL_COLOR = NEOPIXEL_EFFECT)) with false.
  cbn. subst w. unfold wrap8. now rewrite Z.mod_small by lia.
Qed.

(** X9. With [n >= 1] saved colours, the program off and the active colour
    at index 0, single clicks walk through all saved colours in order and
    then switch off: after [k+1] clicks ([k < n]) the program shows the
    colour at index [k], after [n+1] clicks it is off with index 0 again,
    so the cycle has [n+1] steps.  Only the program state, the active
    index and [changeNeopixel] change. *)
Theorem single_clicks_cycle (g : Globals) (k : nat) :
  1 <= colorCount (settings g) <= COLOR_COUNT ->
  programState (settings g) = NEOPIXEL_OFF ->
  activeColor (settings g) = 0 ->
  (Z.of_nat k < colorCount (settings g) ->
   clicks BUTTON_SINGLE_CLICK (S k) g
   = Some (tt, color_clicked NEOPIXEL_COLOR (Z.of_nat k) g)) /\
  (Z.of_nat k = colorCount (settings g) ->
   clicks BUTTON_SINGLE_CLICK (S k) g = Some (tt, color_clicked NEOPIXEL_OFF 0 g)).
Proof.
  intros Hcount Hoff Hzero. unfold COLOR_COUNT in *.
  assert (Hwalk : forall j : nat, Z.of_nat j < colorCount (settings g) ->
            clicks BUTTON_SINGLE_CLICK (S j) g
            = Some (tt, color_clicked NEOPIXEL_COLOR (Z.of_nat j) g)).
  { induction j as [|j IH]; intros Hj.
    - cbn [clicks]. rewrite (bind_run _ _ g (color_clicked NEOPIXEL_COLOR 0 g) tt);
        [reflexivity|].
      apply single_click_resume; [lia|congruence|exact Hzero|unfold COLOR_COUNT; lia].
    - rewrite clicks_last. rewrite (bind_run _ _ g _ tt (IH ltac:(lia))).
      rewrite (single_click_next (Z.of_nat j));
        [|cbn; fold (settings g); lia|reflexivity|reflexivity|unfold COLOR_COUNT; lia|lia].
      cbn [settings color_clicked colorCount npControllerSetting npControllerEEPROM
           with_changeNeopixel set_settings with_ram with_setting]. fold (settings g).
      destruct (Z.eqb_spec (Z.of_nat j) (colorCount (settings g) - 1)); [lia|].
      replace (Z.of_nat (S j)) with (Z.of_nat j + 1) by lia.
      destruct g as [[crc [cnt st ac ae] cols] af lnr chg dat fl]. reflexivity. }
  split; [exact (Hwalk k)|].
  intros Hk. destruct k as [|k]; [lia|].
  rewrite clicks_last. rewrite (bind_run _ _ g _ tt (Hwalk k ltac:(lia))).
  rewrite (single_click_next (Z.of_nat k));
    [|cbn; fold (settings g); lia|reflexivity|reflexivity|unfold COLOR_COUNT; lia|lia].
  cbn [settings color_clicked colorCount npControllerSetting npControllerEEPROM
       with_changeNeopixel set_settings with_ram with_setting]. fold (settings g).
  destruct (Z.eqb_spec (Z.of_nat k) (colorCount (settings g) - 1)); [|lia].
  destruct g as [[crc [cnt st ac ae] cols] af lnr chg dat fl]. reflexivity.
Qed.

Lemma single_clicks_cycle_witness :
  clicks BUTTON_SINGLE_CLICK 3
    (example_state (mk_setting 3 NEOPIXEL_OFF 0 0) [red; green; blue] zero_color)
  = Some (tt, color_clicked NEOPIXEL_COLOR 2
                (example_state (mk_setting 3 NEOPIXEL_OFF 0 0) [red; green; blue] zero_color))
  /\
  clicks BUTTON_SINGLE_CLICK 4
    (example_state (mk_setting 3 NEOPIXEL_OFF 0 0) [red; green; blue] zero_color)
  = Some (tt, color_clicked NEOPIXEL_OFF 0
                (example_state (mk_setting 3 NEOPIXEL_OFF 0 0) [red; green; blue] zero_color)).
Proof.
  split.
  - apply (single_clicks_cycle
             (example_state (mk_setting 3 NEOPIXEL_OFF 0 0) [red; green; blue] zero_color) 2);
      [vm_compute; split; discriminate|reflexivity|reflexivity|reflexivity].
  - apply (single_clicks_cycle
             (example_state (mk_setting 3 NEOPIXEL_OFF 0 0) [red; green; blue] zero_color) 3);
      [vm_compute; split; discriminate|reflexivity|reflexivity|reflexivity].
Defined.

Lemma double_click_resume (k : Z) (g : Globals) :
  programState (settings g) <> NEOPIXEL_EFFECT ->
  activeEffect (settings g) = k ->
  processClick BUTTON_DOUBLE_CLICK g = Some (tt, effect_clicked NEOPIXEL_EFFECT k g).
Proof.
  destruct g as [[crc [cnt st ac ae] cols] af lnr chg dat fl].
  unfold settings; cbn. intros Hst <-.
  destruct st; try contradiction; reflexivity.
Qed.

Lemma double_click_next (k : Z) (g : Globals) :
  programState (settings g) = NEOPIXEL_EFFECT ->
  activeEffect (settings g) = k -> 0 <= k < 255 ->
  processClick BUTTON_DOUBLE_CLICK g
  = Some (tt, if k =? ARRAY_SIZE effects - 1
              then effect_clicked NEOPIXEL_OFF 0 g
              else effect_clicked NEOPIXEL_EFFECT (k + 1) g).
Proof.
  destruct g as [[crc [cnt st ac ae] cols] af lnr chg dat fl].
  unfold settings; cbn. intros -> <- Hrange.
  unfold processClick, bind, set_changeNeopixel, setting, update_setting, ret.
  remember wrap8 as w eqn:Hw. cbn.
  change (bool_decide (NEOPIXEL_EFFECT = NEOPIXEL_OFF)
          || bool_decide (NEOPIXEL_EFFECT = NEOPIXEL_COLOR)) with false.
  cbn. destruct (ae =? ARRAY_SIZE effects - 1); [reflexivity|].
  subst w. unfold wrap8. cbn -[Z.modulo Z.add]. now rewrite Z.mod_small by lia.
Qed.

(** X10. With the program off and the active effect at index 0, double
    clicks walk through the twelve effects in the order of the table and
    then switch off: after [k+1] double clicks ([k < 12]) effect [k] runs,
    after 13 the program is off with index 0 again.  The palette and the
    active colour are not touched. *)
Theorem double_clicks_cycle (g : Globals) (k : nat) :
  programState (settings g) = NEOPIXEL_OFF ->
  activeEffect (settings g) = 0 ->
  (Z.of_nat k < ARRAY_SIZE effects ->
   clicks BUTTON_DOUBLE_CLICK (S k) g
   = Some (tt, effect_clicked NEOPIXEL_EFFECT (Z.of_nat k) g)) /\
  (Z.of_nat k = ARRAY_SIZE effects ->
   clicks BUTTON_DOUBLE_CLICK (S k) g = Some (tt, effect_clicked NEOPIXEL_OFF 0 g)).
Proof.
  intros Hoff Hzero. change (ARRAY_SIZE effects) with 12.
  assert (Hwalk : forall j : nat, Z.of_nat j < 12 ->
            clicks BUTTON_DOUBLE_CLICK (S j) g
            = Some (tt, effect_clicked NEOPIXEL_EFFECT (Z.of_nat j) g)).
  { induction j as [|j IH]; intros Hj.
    - cbn [clicks]. rewrite (bind_run _ _ g (effect_clicked NEOPIXEL_EFFECT 0 g) tt);
        [reflexivity|].
      apply double_click_resume; [congruence|exact Hzero].
    - rewrite clicks_last. rewrite (bind_run _ _ g _ tt (IH ltac:(lia))).
      rewrite (double_click_next (Z.of_nat j)); [|reflexivity|reflexivity|lia].
      change (ARRAY_SIZE effects) with 12.
      destruct (Z.eqb_spec (Z.of_nat j) (12 - 1)); [lia|].
      replace (Z.of_nat (S j)) with (Z.of_nat j + 1) by lia.
      destruct g as [[crc [cnt st ac ae] cols] af lnr chg dat fl]. reflexivity. }
  split; [exact (Hwalk k)|].
  intros Hk. destruct k as [|k]; [lia|].
  rewrite clicks_last. rewrite (bind_run _ _ g _ tt (Hwalk k ltac:(lia))).
  rewrite (double_click_next (Z.of_nat k)); [|reflexivity|reflexivity|lia].
  change (ARRAY_SIZE effects) with 12.
  destruct (Z.eqb_spec (Z.of_nat k) (12 - 1)); [|lia].
  destruct g as [[crc [cnt st ac ae] cols] af lnr chg dat fl]. reflexivity.
Qed.

Lemma double_clicks_cycle_witness :
  clicks BUTTON_DOUBLE_CLICK 12
    (example_state (mk_setting 3 NEOPIXEL_OFF 0 0) [red; green; blue] zero_color)
  = Some (tt, effect_clicked NEOPIXEL_EFFECT 11
                (example_state (mk_setting 3 NEOPIXEL_OFF 0 0) [red; green; blue] zero_color))
  /\
  clicks BUTTON_DOUBLE_CLICK 13
    (example_state (mk_setting 3 NEOPIXEL_OFF 0 0) [red; green; blue] zero_color)
  = Some (tt, effect_clicked NEOPIXEL_OFF 0
                (example_state (mk_setting 3 NEOPIXEL_OFF 0 0) [red; green; blue] zero_color)).
Proof.
  split.
  - apply (double_clicks_cycle
             (example_state (mk_setting 3 NEOPIXEL_OFF 0 0) [red; green; blue] zero_color) 11);
      reflexivity.
  - apply (double_clicks_cycle
             (example_state (mk_setting 3 NEOPIXEL_OFF 0 0) [red; green; blue] zero_color) 12);
      reflexivity.
Defined.

(** ** The LED part of [loop] *)




Lemma map_range_brightness (b : Z) :
  0 <= b <= 100 ->
  map_range b 0 100 0 255 = b * 255 / 100 /\ 0 <= b * 255 / 100 <= 255.
Proof.
  intros Hb. unfold map_range.
  replace ((b - 0) * (255 - 0)) with (b * 255) by lia.
  replace (100 - 0) with 100 by lia. rewrite Z.add_0_r.
  rewrite Z.quot_div_nonneg by lia. split; [reflexivity|].
  split; [apply Z.div_pos; lia|]. apply Z.div_le_upper_bound; lia.
Qed.

(** X12. When a change is pending in colour mode, the pass of [loop] shows
    the active colour (a saved one or the unsaved one at index
    [COLOR_COUNT]) once, with its brightness 0..100 mapped to the range
    0..255 of the LED library: the mapped value needs no [uint8_t]
    truncation, is 0 for 0 and 255 for 100.  The pass clears
    [changeNeopixel] and changes nothing else. *)
Theorem loop_color_shows (millis_due millis_shown : Z) (c : colorType) (g : Globals) :
  programState (settings g) = NEOPIXEL_COLOR ->
  changeNeopixel g <> 0 ->
  0 <= activeColor (settings g) ->
  palette g !! Z.to_nat (activeColor (settings g)) = Some c ->
  0 <= brtns c <= 100 ->
  loop_neopixels millis_due millis_shown g
  = Some ([ShowColor (rgb_0 c) (rgb_1 c) (rgb_2 c) (map_range (brtns c) 0 100 0 255)],
          with_changeNeopixel 0 g) /\
  0 <= map_range (brtns c) 0 100 0 255 <= 255 /\
  (brtns c = 0 -> map_range (brtns c) 0 100 0 255 = 0) /\
  (brtns c = 100 -> map_range (brtns c) 0 100 0 255 = 255).
Proof.
  intros Hstate Hchange Hactive Hc Hb.
  destruct (map_range_brightness (brtns c) Hb) as [Hmap Hrange].
  split; [|split; [rewrite Hmap; exact Hrange|split; intros ->; reflexivity]].
  unfold loop_neopixels.
  rewrite (bind_run setting _ g g (settings g) eq_refl).
  rewrite (bind_run get_changeNeopixel _ g g (changeNeopixel g) eq_refl).
  rewrite Hstate. destruct (Z.eqb_spec (changeNeopixel g) 0) as [|_]; [contradiction|].
  cbn [negb]. unfold bind at 1.
  rewrite (bind_run _ _ g g c (color_at_lookup _ g c Hactive Hc)).
  unfold wrap8. rewrite Z.mod_small by (rewrite Hmap; lia). reflexivity.
Qed.

Lemma loop_color_shows_witness :
  loop_neopixels 5 6
    (with_changeNeopixel 1
       (example_state (mk_setting 1 NEOPIXEL_COLOR 0 0) [red] zero_color))
  = Some ([ShowColor 255 0 0 (map_range 50 0 100 0 255)],
          with_changeNeopixel 0
            (with_changeNeopixel 1
               (example_state (mk_setting 1 NEOPIXEL_COLOR 0 0) [red] zero_color))) /\
  0 <= map_range 50 0 100 0 255 <= 255 /\
  (50 = 0 -> map_range 50 0 100 0 255 = 0) /\
  (50 = 100 -> map_range 50 0 100 0 255 = 255).
Proof.
  apply (loop_color_shows 5 6 red
           (with_changeNeopixel 1
              (example_state (mk_setting 1 NEOPIXEL_COLOR 0 0) [red] zero_color)));
    try reflexivity.
  - discriminate.
  - vm_compute. split; discriminate.
Defined.



(** ** The checksum *)

Lemma land_pow2_test (x k : Z) :
  0 <= k -> negb (Z.land x (2 ^ k) =? 0) = Z.testbit x k.
Proof.
  intros Hk. destruct (Z.testbit x k) eqn:Hbit.
  - destruct (Z.eqb_spec (Z.land x (2 ^ k)) 0) as [Hzero|]; [|reflexivity].
    assert (Hk' : Z.testbit (Z.land x (2 ^ k)) k = true).
    { rewrite Z.land_spec, Hbit, Z.pow2_bits_eqb, Z.eqb_refl by lia. reflexivity. }
    rewrite Hzero, Z.bits_0 in Hk'. discriminate.
  - destruct (Z.eqb_spec (Z.land x (2 ^ k)) 0) as [|Hnonzero]; [reflexivity|].
    exfalso. apply Hnonzero. apply Z.bits_inj'. intros j Hj.
    rewrite Z.land_spec, Z.bits_0, Z.pow2_bits_eqb by lia.
    destruct (Z.eqb_spec k j) as [<-|]; [now rewrite Hbit|apply andb_false_r].
Qed.

Lemma calculateCRC32_bits_step (n : nat) (i c crc : Z) :
  0 < i ->
  calculateCRC32_bits (S n) i c crc
  = calculateCRC32_bits n (Z.shiftr i 1) c (crc_step (negb (Z.land c i =? 0)) crc).
Proof.
  intros Hi. cbn [calculateCRC32_bits].
  destruct (Z.ltb_spec 0 i) as [_|]; [|lia]. reflexivity.
Qed.

(** The bits of the register after one turn. *)
Lemma crc_step_bits (b : bool) (crc j : Z) :
  0 <= j ->
  Z.testbit (crc_step b crc) j
  = if j <? 32
    then xorb (Z.testbit crc (j - 1))
              (xorb (Z.testbit crc 31) b && Z.testbit 0x04c11db7 j)
    else false.
Proof.
  intros Hj. unfold crc_step.
  change 0x80000000 with (2 ^ 31). rewrite land_pow2_test by lia.
  assert (Hshift : Z.testbit (wrap32 (Z.shiftl crc 1)) j
                   = if j <? 32 then Z.testbit crc (j - 1) else false).
  { unfold wrap32. destruct (Z.ltb_spec j 32).
    - rewrite Z.mod_pow2_bits_low, Z.shiftl_spec by lia. reflexivity.
    - apply Z.mod_pow2_bits_high. lia. }
  assert (Hpoly : 32 <= j -> Z.testbit 0x04c11db7 j = false).
  { intros Hhigh. change 0x04c11db7 with (0x04c11db7 mod 2 ^ 32).
    apply Z.mod_pow2_bits_high. lia. }
  assert (Hfeed : (if b then negb (Z.testbit crc 31) else Z.testbit crc 31)
                  = xorb (Z.testbit crc 31) b) by (now destruct b, (Z.testbit crc 31)).
  rewrite Hfeed. destruct (xorb (Z.testbit crc 31) b).
  - rewrite Z.lxor_spec, Hshift. destruct (Z.ltb_spec j 32); [reflexivity|].
    now rewrite Hpoly.
  - rewrite Hshift, xorb_false_r. reflexivity.
Qed.

Lemma uint32_high_bits (x j : Z) : 0 <= x < 2 ^ 32 -> 32 <= j -> Z.testbit x j = false.
Proof.
  intros Hx Hj. rewrite <- (Z.mod_small x (2 ^ 32)) by lia.
  apply Z.mod_pow2_bits_high. lia.
Qed.

Lemma crc_step_range (b : bool) (crc : Z) : 0 <= crc_step b crc < 2 ^ 32.
Proof.
  assert (Hmod : crc_step b crc = crc_step b crc mod 2 ^ 32).
  { apply Z.bits_inj'. intros j Hj. destruct (Z.ltb_spec j 32).
    - now rewrite Z.mod_pow2_bits_low by lia.
    - rewrite Z.mod_pow2_bits_high by lia. rewrite crc_step_bits by lia.
      destruct (Z.ltb_spec j 32); [lia|reflexivity]. }
  rewrite Hmod. apply Z.mod_pos_bound. lia.
Qed.

(** The turn is one-to-one on the register, whatever the two data bits,
    as far as the low bits go: registers that agree below bit [k + 1]
    afterwards agreed below bit [k] before, and were fed the same bit. *)
Lemma crc_step_low_bits (b b' : bool) (s s' k : Z) :
  0 <= k < 32 ->
  (forall j, 0 <= j < k + 1 ->
     Z.testbit (crc_step b s) j = Z.testbit (crc_step b' s') j) ->
  xorb (Z.testbit s 31) b = xorb (Z.testbit s' 31) b' /\
  (forall j, 0 <= j < k -> Z.testbit s j = Z.testbit s' j).
Proof.
  intros Hk Hagree.
  assert (Hfeed : xorb (Z.testbit s 31) b = xorb (Z.testbit s' 31) b').
  { specialize (Hagree 0 ltac:(lia)). rewrite !crc_step_bits in Hagree by lia.
    cbn in Hagree. rewrite !andb_true_r in Hagree. exact Hagree. }
  split; [exact Hfeed|]. intros j Hj.
  specialize (Hagree (j + 1) ltac:(lia)). rewrite !crc_step_bits in Hagree by lia.
  destruct (Z.ltb_spec (j + 1) 32); [|lia].
  replace (j + 1 - 1) with j in Hagree by lia. rewrite Hfeed in Hagree.
  now apply xorb_move_l_r_2 in Hagree; rewrite xorb_assoc, xorb_nilpotent, xorb_false_r in Hagree.
Qed.

Lemma crc_step_inj (b : bool) (s s' : Z) :
  0 <= s < 2 ^ 32 -> 0 <= s' < 2 ^ 32 -> crc_step b s = crc_step b s' -> s = s'.
Proof.
  intros Hs Hs' Heq.
  destruct (crc_step_low_bits b b s s' 31) as [Hfeed Hlow]; [lia|now rewrite Heq|].
  apply Z.bits_inj'. intros j Hj.
  destruct (Z.ltb_spec j 31); [apply Hlow; lia|].
  destruct (Z.eqb_spec j 31) as [->|].
  - now destruct b, (Z.testbit s 31), (Z.testbit s' 31).
  - rewrite !uint32_high_bits by lia. reflexivity.
Qed.

Lemma calculateCRC32_bits_range (n : nat) (i c crc : Z) :
  0 <= crc < 2 ^ 32 -> 0 <= calculateCRC32_bits n i c crc < 2 ^ 32.
Proof.
  revert i crc. induction n as [|n IH]; intros i crc Hcrc; [exact Hcrc|].
  destruct (Z.ltb_spec 0 i) as [Hi|Hi].
  - rewrite calculateCRC32_bits_step by exact Hi. apply IH, crc_step_range.
  - cbn [calculateCRC32_bits]. destruct (Z.ltb_spec 0 i); [lia|exact Hcrc].
Qed.

Lemma calculateCRC32_bits_inj (n : nat) (i c s s' : Z) :
  0 <= s < 2 ^ 32 -> 0 <= s' < 2 ^ 32 ->
  calculateCRC32_bits n i c s = calculateCRC32_bits n i c s' -> s = s'.
Proof.
  revert i s s'. induction n as [|n IH]; intros i s s' Hs Hs' Heq; [exact Heq|].
  destruct (Z.ltb_spec 0 i) as [Hi|Hi].
  - rewrite !calculateCRC32_bits_step in Heq by exact Hi.
    apply IH in Heq; [|apply crc_step_range..].
    now apply crc_step_inj in Heq.
  - cbn [calculateCRC32_bits] in Heq. destruct (Z.ltb_spec 0 i); [lia|exact Heq].
Qed.

Lemma calculateCRC32_from_range (data : list Z) (crc : Z) :
  0 <= crc < 2 ^ 32 -> 0 <= calculateCRC32_from crc data < 2 ^ 32.
Proof.
  revert crc. induction data as [|c data IH]; intros crc Hcrc; [exact Hcrc|].
  cbn [calculateCRC32_from]. now apply IH, calculateCRC32_bits_range.
Qed.

Lemma calculateCRC32_from_inj (data : list Z) (s s' : Z) :
  0 <= s < 2 ^ 32 -> 0 <= s' < 2 ^ 32 ->
  calculateCRC32_from s data = calculateCRC32_from s' data -> s = s'.
Proof.
  revert s s'. induction data as [|c data IH]; intros s s' Hs Hs' Heq; [exact Heq|].
  cbn [calculateCRC32_from] in Heq.
  apply IH in Heq; [|now apply calculateCRC32_bits_range..].
  now apply calculateCRC32_bits_inj in Heq.
Qed.

Lemma calculateCRC32_from_app (pre post : list Z) (crc : Z) :
  calculateCRC32_from crc (pre ++ post)
  = calculateCRC32_from (calculateCRC32_from crc pre) post.
Proof.
  revert crc. induction pre as [|c pre IH]; intros crc; [reflexivity|].
  cbn [app calculateCRC32_from]. apply IH.
Qed.

(** Registers that agree below bit [k + n] after [n] turns agreed below
    bit [k] before them. *)
Lemma calculateCRC32_bits_low_bits (n : nat) (i c c' s s' k : Z) :
  0 <= k -> k + Z.of_nat n <= 32 ->
  (forall j, 0 <= j < k + Z.of_nat n ->
     Z.testbit (calculateCRC32_bits n i c s) j
     = Z.testbit (calculateCRC32_bits n i c' s') j) ->
  forall j, 0 <= j < k -> Z.testbit s j = Z.testbit s' j.
Proof.
  revert i s s' k. induction n as [|n IH]; intros i s s' k Hk Hn Hagree j Hj.
  - apply Hagree. lia.
  - destruct (Z.ltb_spec 0 i) as [Hi|Hi].
    + rewrite !calculateCRC32_bits_step in Hagree by exact Hi.
      apply (crc_step_low_bits (negb (Z.land c i =? 0)) (negb (Z.land c' i =? 0)) s s' k);
        [lia| |exact Hj].
      apply (IH (Z.shiftr i 1)); [lia|lia|].
      intros j' Hj'. apply Hagree. lia.
    + cbn [calculateCRC32_bits] in Hagree. destruct (Z.ltb_spec 0 i); [lia|].
      apply Hagree. lia.
Qed.

(** From one register, the low [n] bits of two bytes that give the same
    register after the [n] turns for them are the same. *)
Lemma calculateCRC32_bits_byte (n : nat) (c c' s : Z) :
  Z.of_nat n <= 32 ->
  calculateCRC32_bits n (2 ^ (Z.of_nat n - 1)) c s
  = calculateCRC32_bits n (2 ^ (Z.of_nat n - 1)) c' s ->
  forall j, 0 <= j < Z.of_nat n -> Z.testbit c j = Z.testbit c' j.
Proof.
  revert s. induction n as [|n IH]; intros s Hn Heq j Hj; [lia|].
  replace (Z.of_nat (S n) - 1) with (Z.of_nat n) in Heq by lia.
  assert (Hi : 0 < 2 ^ Z.of_nat n) by (apply Z.pow_pos_nonneg; lia).
  assert (Hnext : Z.shiftr (2 ^ Z.of_nat n) 1 = 2 ^ (Z.of_nat n - 1)).
  { rewrite Z.shiftr_div_pow2 by lia. change (2 ^ 1) with 2.
    destruct n as [|n]; [reflexivity|].
    replace (Z.of_nat (S n)) with (Z.of_nat n + 1) by lia.
    rewrite Z.pow_add_r, Z.add_simpl_r by lia. change (2 ^ 1) with 2.
    now rewrite Z.div_mul by lia. }
  rewrite !calculateCRC32_bits_step, Hnext, !land_pow2_test in Heq by lia.
  assert (Hbit : Z.testbit c (Z.of_nat n) = Z.testbit c' (Z.of_nat n)).
  { destruct (crc_step_low_bits (Z.testbit c (Z.of_nat n)) (Z.testbit c' (Z.of_nat n)) s s 0)
      as [Hfeed _]; [lia| |].
    - apply (calculateCRC32_bits_low_bits n (2 ^ (Z.of_nat n - 1)) c c'); [lia|lia|].
      intros j' _. now rewrite Heq.
    - now destruct (Z.testbit c (Z.of_nat n)), (Z.testbit c' (Z.of_nat n)), (Z.testbit s 31). }
  destruct (Z.eqb_spec j (Z.of_nat n)) as [->|Hlower]; [exact Hbit|].
  rewrite Hbit in Heq. apply (IH _ ltac:(lia) Heq). lia.
Qed.

Lemma calculateCRC32_byte_inj (pre post : list Z) (c c' : Z) :
  0 <= c < 256 -> 0 <= c' < 256 ->
  calculateCRC32 (pre ++ c :: post) = calculateCRC32 (pre ++ c' :: post) -> c = c'.
Proof.
  intros Hc Hc' Heq. unfold calculateCRC32 in Heq.
  rewrite !calculateCRC32_from_app in Heq. cbn [calculateCRC32_from] in Heq.
  assert (Hstart : 0 <= calculateCRC32_from 0xffffffff pre < 2 ^ 32)
    by (apply calculateCRC32_from_range; lia).
  apply calculateCRC32_from_inj in Heq; [|now apply calculateCRC32_bits_range..].
  pose proof (calculateCRC32_bits_byte 8 c c' _ ltac:(lia) Heq) as Hbits.
  apply Z.bits_inj'. intros j Hj. destruct (Z.ltb_spec j 8); [apply Hbits; lia|].
  rewrite <- (Z.mod_small c (2 ^ 8)), <- (Z.mod_small c' (2 ^ 8)) by lia.
  rewrite !Z.mod_pow2_bits_high by lia. reflexivity.
Qed.

(** X14. [calculateCRC32] returns a 32-bit value and tells apart any two
    byte sequences that differ in exactly one byte: whatever stands
    before and after it, a changed byte changes the checksum. *)
Theorem calculateCRC32_detects_byte (pre post : list Z) (c c' : Z) :
  0 <= c < 256 -> 0 <= c' < 256 -> c <> c' ->
  calculateCRC32 (pre ++ c :: post) <> calculateCRC32 (pre ++ c' :: post) /\
  0 <= calculateCRC32 (pre ++ c :: post) < 2 ^ 32.
Proof.
  intros Hc Hc' Hdiff. split.
  - intros Heq. apply Hdiff. exact (calculateCRC32_byte_inj pre post c c' Hc Hc' Heq).
  - apply calculateCRC32_from_range. lia.
Qed.

Lemma calculateCRC32_detects_byte_witness :
  calculateCRC32 ([3; 1] ++ 0 :: [2; 0]) <> calculateCRC32 ([3; 1] ++ 128 :: [2; 0]) /\
  0 <= calculateCRC32 ([3; 1] ++ 0 :: [2; 0]) < 2 ^ 32.
Proof.
  apply (calculateCRC32_detects_byte [3; 1] [2; 0] 0 128); [lia|lia|discriminate].
Defined.

(** ** [setup] when the EEPROM library reports a changed size *)

(** X15. When [EEPROM.percentUsed()] is negative, [setup] does not look
    at what the flash holds, not even at a record with the right checksum:
    it resets the record in RAM (no saved colours, [NEOPIXEL_OFF], both
    indices 0, [colors[0 .. COLOR_COUNT-1]] zeroed, [colors[COLOR_COUNT]]
    as it was in RAM), gives it its checksum and hands it to the EEPROM
    library; the flash takes it when the commit succeeds.  The state that
    results satisfies the invariant. *)
Theorem setup_size_changed
    (struct_bytes : npControllerSettingType -> list colorType -> list Z)
    (percentUsed : Z) (commit_ok : bool) (g : Globals) :
  percentUsed < 0 ->
  length (palette g) = Z.to_nat (COLOR_COUNT + 1) ->
  exists g',
    setup struct_bytes percentUsed commit_ok g = Some (tt, g') /\
    settings g' = mk_setting 0 NEOPIXEL_OFF 0 0 /\
    (forall j, 0 <= j < COLOR_COUNT -> palette g' !! Z.to_nat j = Some zero_color) /\
    palette g' !! Z.to_nat COLOR_COUNT = palette g !! Z.to_nat COLOR_COUNT /\
    crc32 (npControllerEEPROM g') = record_crc struct_bytes (npControllerEEPROM g') /\
    EEPROM_data g' = npControllerEEPROM g' /\
    EEPROM_flash g' = (if commit_ok then npControllerEEPROM g' else EEPROM_flash g) /\
    palette_ok g'.
Proof.
  intros Hused Hlen.
  set (g1 := with_EEPROM_data (EEPROM_flash g) g).
  destruct (resetEEPROM_spec struct_bytes commit_ok g1 Hlen)
    as (l' & Hrun & Hlen' & Hzero & Hlast).
  exists (reset_state struct_bytes commit_ok l' g1). split.
  - unfold setup, bind at 1, EEPROM_begin.
    destruct (Z.leb_spec 0 percentUsed); [lia|]. exact Hrun.
  - unfold reset_state.
    rewrite settings_committed, palette_committed.
    split; [reflexivity|]. split; [exact Hzero|]. split; [exact Hlast|].
    split; [now destruct commit_ok|]. split; [now destruct commit_ok|].
    split; [now destruct commit_ok|].
    unfold palette_ok, wf, saved.
    rewrite settings_committed, palette_committed. cbn.
    repeat split; try (unfold COLOR_COUNT; lia); try (vm_compute; congruence).
    + rewrite Hlen'. exact Hlen.
    + constructor.
    + constructor.
Qed.

Lemma setup_size_changed_witness :
  exists g',
    setup esp8266_struct_bytes (-1) true stale_record = Some (tt, g') /\
    settings g' = mk_setting 0 NEOPIXEL_OFF 0 0 /\
    (forall j, 0 <= j < COLOR_COUNT -> palette g' !! Z.to_nat j = Some zero_color) /\
    palette g' !! Z.to_nat COLOR_COUNT = palette stale_record !! Z.to_nat COLOR_COUNT /\
    crc32 (npControllerEEPROM g') = record_crc esp8266_struct_bytes (npControllerEEPROM g') /\
    EEPROM_data g' = npControllerEEPROM g' /\
    EEPROM_flash g' = (if true then npControllerEEPROM g' else EEPROM_flash stale_record) /\
    palette_ok g'.
Proof.
  apply (setup_size_changed esp8266_struct_bytes (-1) true stale_record); [lia|reflexivity].
Defined.

(** ** The colour texts of the responses *)

Lemma hex_digit_spec (d : Z) :
  0 <= d < 16 ->
  is_nul (hex_digit d) = false /\ isxdigit (hex_digit d) = true /\
  hex_digit_value (hex_digit d) = d.
Proof.
  intros Hd.
  assert (Hcases : d = 0 \/ d = 1 \/ d = 2 \/ d = 3 \/ d = 4 \/ d = 5 \/ d = 6 \/ d = 7 \/
                   d = 8 \/ d = 9 \/ d = 10 \/ d = 11 \/ d = 12 \/ d = 13 \/ d = 14 \/ d = 15)
    by lia.
  repeat (destruct Hcases as [->|Hcases]; [now vm_compute|]). subst d. now vm_compute.
Qed.

Lemma hex_digit_toupper (c : ascii) :
  isxdigit c = true -> hex_digit (hex_digit_value c) = toupper c.
Proof.
  destruct c as [[] [] [] [] [] [] [] []]; vm_compute; intros H;
    first [discriminate H | reflexivity].
Qed.

(** The three bytes in a 24-bit value. *)
Lemma rgb_bytes (r gr b : Z) :
  0 <= r < 256 -> 0 <= gr < 256 -> 0 <= b < 256 ->
  let v := 65536 * r + 256 * gr + b in
  wrap8 (Z.shiftr (Z.land v 0x00ff0000) 16) = r /\
  wrap8 (Z.shiftr (Z.land v 0x0000ff00) 8) = gr /\
  wrap8 (Z.land v 0x000000ff) = b.
Proof.
  intros Hr Hg Hb v.
  assert (H16 : Z.shiftr (Z.land v 0x00ff0000) 16 = (v / 2 ^ 16) mod 2 ^ 8).
  { rewrite Z.shiftr_land. change (Z.shiftr 0x00ff0000 16) with (Z.ones 8).
    now rewrite Z.land_ones, Z.shiftr_div_pow2 by lia. }
  assert (H8 : Z.shiftr (Z.land v 0x0000ff00) 8 = (v / 2 ^ 8) mod 2 ^ 8).
  { rewrite Z.shiftr_land. change (Z.shiftr 0x0000ff00 8) with (Z.ones 8).
    now rewrite Z.land_ones, Z.shiftr_div_pow2 by lia. }
  assert (H0 : Z.land v 0x000000ff = v mod 2 ^ 8).
  { change 0x000000ff with (Z.ones 8). now rewrite Z.land_ones by lia. }
  rewrite H16, H8, H0. unfold wrap8, v.
  change (2 ^ 16) with 65536. change (2 ^ 8) with 256.
  repeat split; Z.to_euclidean_division_equations; lia.
Qed.

(** What [sscanf] and the shifts of [parseHexColor] make of six
    hexadecimal digits. *)
Lemma parseHexColor_digits (c0 c1 c2 c3 c4 c5 : ascii) (rest : string) :
  is_nul c0 = false -> is_nul c1 = false -> is_nul c2 = false ->
  is_nul c3 = false -> is_nul c4 = false -> is_nul c5 = false ->
  isxdigit c0 = true -> isxdigit c1 = true -> isxdigit c2 = true ->
  isxdigit c3 = true -> isxdigit c4 = true -> isxdigit c5 = true ->
  strlen rest = 0 ->
  parseHexColor (String c0 (String c1 (String c2 (String c3 (String c4 (String c5 rest))))))
  = Some (16 * hex_digit_value c0 + hex_digit_value c1,
          16 * hex_digit_value c2 + hex_digit_value c3,
          16 * hex_digit_value c4 + hex_digit_value c5).
Proof.
  intros N0 N1 N2 N3 N4 N5 D0 D1 D2 D3 D4 D5 Hrest.
  pose proof (hex_digit_value_range c0 D0). pose proof (hex_digit_value_range c1 D1).
  pose proof (hex_digit_value_range c2 D2). pose proof (hex_digit_value_range c3 D3).
  pose proof (hex_digit_value_range c4 D4). pose proof (hex_digit_value_range c5 D5).
  unfold parseHexColor, sscanf_x. cbn [strlen scan_hex].
  rewrite N0, N1, N2, N3, N4, N5, D0, D1, D2, D3, D4, D5, Hrest.
  change (0 <? 1 + (1 + (1 + (1 + (1 + (1 + 0)))))) with true. cbn match.
  rewrite (scan_hex_end rest _ Hrest).
  match goal with |- context [?v <? 2 ^ 32] => destruct (Z.ltb_spec v (2 ^ 32)) as [_|Hbig] end;
    [|lia].
  match goal with
  | |- context [Z.land ?v 255] =>
      replace v with (65536 * (16 * hex_digit_value c0 + hex_digit_value c1)
                      + 256 * (16 * hex_digit_value c2 + hex_digit_value c3)
                      + (16 * hex_digit_value c4 + hex_digit_value c5)) by lia
  end.
  destruct (rgb_bytes (16 * hex_digit_value c0 + hex_digit_value c1)
                      (16 * hex_digit_value c2 + hex_digit_value c3)
                      (16 * hex_digit_value c4 + hex_digit_value c5))
    as (-> & -> & ->); [lia..|reflexivity].
Qed.

Lemma sprintf_02X_digits (v : Z) :
  0 <= v < 256 -> 0 <= v / 16 < 16 /\ 0 <= v mod 16 < 16 /\ 16 * (v / 16) + v mod 16 = v.
Proof. intros Hv. Z.to_euclidean_division_equations. lia. Qed.

Lemma rgbStr_parse (c : colorType) :
  0 <= rgb_0 c < 256 -> 0 <= rgb_1 c < 256 -> 0 <= rgb_2 c < 256 ->
  strlen (rgbStr c) = 6 /\
  checkValidColor_digits 6 0 (rgbStr c) = Some true /\
  parseHexColor (rgbStr c) = Some (rgb_0 c, rgb_1 c, rgb_2 c).
Proof.
  intros H0 H1 H2.
  destruct (sprintf_02X_digits _ H0) as (Ha & Hb & Hab).
  destruct (sprintf_02X_digits _ H1) as (Hc & Hd & Hcd).
  destruct (sprintf_02X_digits _ H2) as (He & Hf & Hef).
  destruct (hex_digit_spec _ Ha) as (Na & Da & Va), (hex_digit_spec _ Hb) as (Nb & Db & Vb),
           (hex_digit_spec _ Hc) as (Nc & Dc & Vc), (hex_digit_spec _ Hd) as (Nd & Dd & Vd),
           (hex_digit_spec _ He) as (Ne & De & Ve), (hex_digit_spec _ Hf) as (Nf & Df & Vf).
  unfold rgbStr, sprintf_02X. cbn [String.append].
  split; [|split].
  - cbn [strlen]. now rewrite Na, Nb, Nc, Nd, Ne, Nf.
  - rewrite checkValidColor_digits_six. now rewrite Da, Db, Dc, Dd, De, Df.
  - rewrite parseHexColor_digits by (assumption || reflexivity).
    now rewrite Va, Vb, Vc, Vd, Ve, Vf, Hab, Hcd, Hef.
Qed.

Lemma rgbStr_accepted (c : colorType) :
  valid_color c ->
  checkValidColor (rgbStr c) (brtns c) = Some 1 /\
  parseHexColor (rgbStr c) = Some (rgb_0 c, rgb_1 c, rgb_2 c) /\
  color_of (rgb_0 c, rgb_1 c, rgb_2 c) (brtns c) = c.
Proof.
  intros Hvalid. pose proof Hvalid as (H0 & H1 & H2 & Hnonzero & Hb).
  destruct (rgbStr_parse c H0 H1 H2) as (Hlen & Hdigits & Hparse).
  split; [|split; [exact Hparse|now destruct c]].
  apply checkValidColor_accepts. split; [exact Hlen|]. split; [exact Hdigits|].
  split; [|lia]. eexists. split; [exact Hparse|].
  intros [= Hr Hg Hbl]. now apply Hnonzero.
Qed.

(** X16. The colour texts the responses print are read back by the
    requests: for a colour with [uint8_t] components that are not all
    zero and a brightness of at most 100, the six characters that
    [sprintf] writes for it pass [checkValidColor] with its brightness and
    [parseHexColor] gives its three components again. *)
Theorem rgbStr_round_trip (c : colorType) :
  valid_color c ->
  checkValidColor (rgbStr c) (brtns c) = Some 1 /\
  parseHexColor (rgbStr c) = Some (rgb_0 c, rgb_1 c, rgb_2 c).
Proof.
  intros Hvalid. destruct (rgbStr_accepted c Hvalid) as (Hcheck & Hparse & _).
  now split.
Qed.

Lemma rgbStr_round_trip_witness :
  checkValidColor (rgbStr (mk_color 171 205 9 60)) (brtns (mk_color 171 205 9 60)) = Some 1 /\
  parseHexColor (rgbStr (mk_color 171 205 9 60))
  = Some (rgb_0 (mk_color 171 205 9 60), rgb_1 (mk_color 171 205 9 60),
          rgb_2 (mk_color 171 205 9 60)).
Proof.
  apply (rgbStr_round_trip (mk_color 171 205 9 60)).
  vm_compute. intuition congruence.
Defined.

(** ** The list of saved colours *)

Lemma allResponse_from_spec (g : Globals) (n : nat) :
  forall i : Z,
    0 <= i -> i + Z.of_nat n < 256 ->
    (Z.to_nat i + n <= length (palette g))%nat ->
    allResponse_from n i g
    = Some (List.map color_entry (take n (drop (Z.to_nat i) (palette g))), g).
Proof.
  induction n as [|n IH]; intros i Hi Hmax Hlen; [reflexivity|].
  destruct (lookup_lt_is_Some_2 (palette g) (Z.to_nat i)) as [c Hc]; [lia|].
  cbn [allResponse_from].
  rewrite (bind_run _ _ g g c (color_at_lookup i g c Hi Hc)).
  assert (Hnext : wrap8 (i + 1) = i + 1) by (unfold wrap8; rewrite Z.mod_small; lia).
  rewrite Hnext.
  rewrite (bind_run _ _ g g _ (IH (i + 1) ltac:(lia) ltac:(lia) ltac:(lia))).
  unfold ret. rewrite (drop_S _ _ _ Hc). cbn [take List.map].
  replace (Z.to_nat (i + 1)) with (S (Z.to_nat i)) by lia. reflexivity.
Qed.

Lemma allResponse_spec (g : Globals) :
  wf g ->
  allResponse g
  = Some (mk_response "all" "" (Some (JColors (List.map color_entry (saved g)))), g).
Proof.
  intros (Hcount & _ & Hlen). unfold allResponse.
  rewrite (bind_run setting _ g g (settings g) eq_refl).
  rewrite (bind_run _ _ g g _
             (allResponse_from_spec g (Z.to_nat (colorCount (settings g))) 0
                ltac:(lia) ltac:(unfold COLOR_COUNT in *; lia)
                ltac:(unfold COLOR_COUNT in *; lia))).
  reflexivity.
Qed.

(** The colour request for a saved colour, spelt as the responses spell
    it: its index becomes the active one and the array stays as it is. *)
Lemma colorRequest_saved_entry (g : Globals) (i : nat) (c : colorType) :
  palette_ok g -> saved g !! i = Some c ->
  checkValidColor (rgbStr c) (brtns c) = Some 1 /\
  parseHexColor (rgbStr c) = Some (rgb_0 c, rgb_1 c, rgb_2 c) /\
  findColor (rgb_0 c, rgb_1 c, rgb_2 c) (brtns c) g = Some (Z.of_nat i, g) /\
  Z.of_nat i < colorCount (settings g).
Proof.
  intros (Hwf & _ & _ & Hnodup & Hvalid) Hc.
  assert (Hvc : valid_color c).
  { rewrite Forall_forall in Hvalid. apply Hvalid. eapply list_elem_of_lookup_2, Hc. }
  destruct (rgbStr_accepted c Hvc) as (Hcheck & Hparse & Hsame).
  split; [exact Hcheck|]. split; [exact Hparse|].
  assert (Hin : color_of (rgb_0 c, rgb_1 c, rgb_2 c) (brtns c) ∈ saved g).
  { rewrite Hsame. eapply list_elem_of_lookup_2, Hc. }
  destruct (findColor_member _ _ g Hwf Hin) as (i' & Hfind & Hi' & Hat).
  rewrite Hsame in Hat.
  assert (Heq : Z.to_nat i' = i) by exact (NoDup_lookup _ _ _ _ Hnodup Hat Hc).
  replace (Z.of_nat i) with i' by lia. split; [exact Hfind|lia].
Qed.

(** X17. Under the invariant, [allResponse] lists the saved colours in
    the order of the array, one text and one brightness each, and changes
    nothing; and each listed element, sent back as it is in a colour
    request, is accepted and selects that saved colour: the program state
    becomes [NEOPIXEL_COLOR], [activeColor] the position of the element in
    the list, a change is pending and the array of colours is as
    before. *)
Theorem allResponse_entries_select (g : Globals) :
  palette_ok g ->
  allResponse g
  = Some (mk_response "all" "" (Some (JColors (List.map color_entry (saved g)))), g) /\
  forall (i : nat) (rgb : string) (brightness : Z),
    List.map color_entry (saved g) !! i = Some (rgb, brightness) ->
    exists g',
      colorRequest rgb brightness g = Some (1, g') /\
      settings g' = mk_setting (colorCount (settings g)) NEOPIXEL_COLOR (Z.of_nat i)
                      (activeEffect (settings g)) /\
      palette g' = palette g /\
      changeNeopixel g' = 1.
Proof.
  intros Hok. pose proof Hok as (Hwf & _).
  split; [exact (allResponse_spec g Hwf)|].
  intros i rgb brightness Hentry.
  rewrite list_lookup_fmap in Hentry.
  destruct (saved g !! i) as [c|] eqn:Hc; [|discriminate].
  injection Hentry as <- <-.
  destruct (colorRequest_saved_entry g i c Hok Hc) as (Hcheck & Hparse & Hfind & Hi).
  eexists. split; [exact (colorRequest_valid _ _ _ _ g Hwf Hcheck Hparse Hfind)|].
  assert (Hat : palette g !! i = Some c).
  { rewrite <- Hc, <- (Nat2Z.id i). symmetry. apply saved_lookup. lia. }
  cbn [fst snd]. destruct g as [[crc [cnt st ac ae] cols] af lnr chg dat fl].
  unfold color_shown, settings, palette, set_palette, set_settings in *; cbn in *.
  rewrite Nat2Z.id. repeat split. apply list_insert_id.
  replace (mk_color (rgb_0 c) (rgb_1 c) (rgb_2 c) (brtns c)) with c by now destruct c.
  exact Hat.
Qed.

Lemma allResponse_entries_select_witness :
  allResponse (three_colors 0)
  = Some (mk_response "all" ""
            (Some (JColors (List.map color_entry (saved (three_colors 0))))),
          three_colors 0) /\
  forall (i : nat) (rgb : string) (brightness : Z),
    List.map color_entry (saved (three_colors 0)) !! i = Some (rgb, brightness) ->
    exists g',
      colorRequest rgb brightness (three_colors 0) = Some (1, g') /\
      settings g' = mk_setting (colorCount (settings (three_colors 0))) NEOPIXEL_COLOR
                      (Z.of_nat i) (activeEffect (settings (three_colors 0))) /\
      palette g' = palette (three_colors 0) /\
      changeNeopixel g' = 1.
Proof.
  apply (allResponse_entries_select (three_colors 0)).
  repeat split; try (vm_compute; congruence).
  - apply (bool_decide_unpack (NoDup _)). vm_compute. exact I.
  - change (Forall valid_color [red; green; blue]).
    repeat (constructor; [vm_compute; intuition congruence|]). constructor.
Defined.

(** X18. Each element that [allResponse] lists can be handed to
    [deleteRequest] as it is: the request is accepted, finds the colour
    and, the commit succeeding, answers 1; the saved colours are then the
    former ones without that element, and that is what [allResponse]
    lists afterwards. *)
Theorem allResponse_entries_delete
    (struct_bytes : npControllerSettingType -> list colorType -> list Z)
    (g : Globals) (i : nat) (rgb : string) (brightness : Z) :
  palette_ok g ->
  List.map color_entry (saved g) !! i = Some (rgb, brightness) ->
  exists g',
    deleteRequest struct_bytes true rgb brightness g = Some (1, g') /\
    saved g' = delete i (saved g) /\
    allResponse g'
    = Some (mk_response "all" ""
              (Some (JColors (delete i (List.map color_entry (saved g))))), g').
Proof.
  intros Hok Hentry. pose proof Hok as (Hwf & _).
  rewrite list_lookup_fmap in Hentry.
  destruct (saved g !! i) as [c|] eqn:Hc; [|discriminate].
  injection Hentry as <- <-.
  destruct (colorRequest_saved_entry g i c Hok Hc) as (Hcheck & Hparse & Hfind & Hi).
  assert (Hcount : Z.of_nat i <> COLOR_COUNT) by (destruct Hwf as (? & _); lia).
  destruct (deleteRequest_saved struct_bytes true _ _ _ _ g Hwf Hcheck Hparse Hfind Hcount)
    as (g' & Hrun & _ & _ & Hsaved).
  rewrite Nat2Z.id in Hsaved.
  destruct (deleteRequest_total struct_bytes true (rgbStr c) (brtns c) g Hwf)
    as (r & g'' & Hrun' & Hwf').
  rewrite Hrun in Hrun'. injection Hrun' as <- <-.
  exists g'. split; [exact Hrun|]. split; [exact Hsaved|].
  rewrite (allResponse_spec g' Hwf'), Hsaved.
  now rewrite list_fmap_delete.
Qed.

Lemma allResponse_entries_delete_witness :
  exists g',
    deleteRequest esp8266_struct_bytes true "00FF00" 80 (three_colors 0) = Some (1, g') /\
    saved g' = delete 1%nat (saved (three_colors 0)) /\
    allResponse g'
    = Some (mk_response "all" ""
              (Some (JColors (delete 1%nat (List.map color_entry (saved (three_colors 0)))))),
            g').
Proof.
  apply (allResponse_entries_delete esp8266_struct_bytes (three_colors 0) 1 "00FF00" 80).
  - repeat split; try (vm_compute; congruence).
    + apply (bool_decide_unpack (NoDup _)). vm_compute. exact I.
    + change (Forall valid_color [red; green; blue]).
      repeat (constructor; [vm_compute; intuition congruence|]). constructor.
  - reflexivity.
Defined.

(** ** The handlers of the REST API *)

Lemma strlen_strncpy_text (n : nat) (s : string) :
  0 <= strlen (strncpy_text n s) <= Z.of_nat n.
Proof.
  revert s. induction n as [|n IH]; intros s; [cbn; lia|].
  destruct s as [|c s]; cbn [strncpy_text strlen]; [lia|].
  destruct (is_nul c) eqn:Hc; cbn [strlen]; [lia|]. rewrite Hc. specialize (IH s). lia.
Qed.

(** A copy that has all its [n] characters is these characters and
    nothing more. *)
Lemma strncpy_text_full (n : nat) (s : string) :
  strlen (strncpy_text n s) = Z.of_nat n ->
  String.length (strncpy_text n s) = n /\
  forall i c, String.get i (strncpy_text n s) = Some c -> is_nul c = false.
Proof.
  revert s. induction n as [|n IH]; intros s Hlen.
  - split; [reflexivity|]. intros i c Hget. destruct s; discriminate Hget.
  - destruct s as [|c0 s]; cbn [strncpy_text strlen] in *; [lia|].
    destruct (is_nul c0) eqn:Hc; cbn [strlen] in *; [lia|]. rewrite Hc in Hlen.
    destruct (IH s ltac:(lia)) as (Hn & Hall).
    split; [cbn [String.length]; now rewrite Hn|].
    intros [|i] c Hget; cbn [String.get] in Hget.
    + now injection Hget as <-.
    + exact (Hall i c Hget).
Qed.

Lemma strncpy_text_six (s : string) :
  strlen (strncpy_text 6 s) = 6 ->
  exists c0 c1 c2 c3 c4 c5,
    strncpy_text 6 s
    = String c0 (String c1 (String c2 (String c3 (String c4 (String c5 EmptyString))))) /\
    is_nul c0 = false /\ is_nul c1 = false /\ is_nul c2 = false /\
    is_nul c3 = false /\ is_nul c4 = false /\ is_nul c5 = false.
Proof.
  intros Hlen. destruct (strncpy_text_full 6 s Hlen) as (Hn & Hall).
  destruct (strncpy_text 6 s) as [|c0 [|c1 [|c2 [|c3 [|c4 [|c5 [|c6 t]]]]]]];
    try discriminate Hn.
  exists c0, c1, c2, c3, c4, c5. split; [reflexivity|].
  repeat split;
    [apply (Hall 0%nat)|apply (Hall 1%nat)|apply (Hall 2%nat)
    |apply (Hall 3%nat)|apply (Hall 4%nat)|apply (Hall 5%nat)]; reflexivity.
Qed.

(** For a text of exactly six hexadecimal digits, what [sprintf] prints
    for the parsed colour is the text in upper case. *)
Lemma rgbStr_upper (s : string) (brightness : Z) (rgb : Z * Z * Z) :
  String.length s = 6%nat ->
  checkValidColor s brightness = Some 1 ->
  parseHexColor s = Some rgb ->
  rgbStr (color_of rgb brightness) = upper s.
Proof.
  intros Hn Hcheck Hparse.
  apply checkValidColor_accepts in Hcheck as (Hlen & Hdigits & _ & _).
  destruct (strlen_six s Hlen)
    as (c0 & c1 & c2 & c3 & c4 & c5 & rest & -> & N0 & N1 & N2 & N3 & N4 & N5 & Hrest).
  destruct rest as [|c6 rest]; [|discriminate Hn].
  rewrite checkValidColor_digits_six in Hdigits. injection Hdigits as Hdigits.
  repeat (apply andb_prop in Hdigits as [Hdigits ?]).
  rewrite parseHexColor_digits in Hparse by (assumption || reflexivity).
  injection Hparse as <-.
  pose proof (hex_digit_value_range c0 ltac:(assumption)).
  pose proof (hex_digit_value_range c1 ltac:(assumption)).
  pose proof (hex_digit_value_range c2 ltac:(assumption)).
  pose proof (hex_digit_value_range c3 ltac:(assumption)).
  pose proof (hex_digit_value_range c4 ltac:(assumption)).
  pose proof (hex_digit_value_range c5 ltac:(assumption)).
  unfold rgbStr, sprintf_02X, color_of. cbn [rgb_0 rgb_1 rgb_2 fst snd String.append upper].
  assert (Hdiv : forall a b, 0 <= a <= 15 -> 0 <= b <= 15 ->
                   (16 * a + b) / 16 = a /\ (16 * a + b) mod 16 = b).
  { intros a b Ha Hb. Z.to_euclidean_division_equations. lia. }
  destruct (Hdiv (hex_digit_value c0) (hex_digit_value c1)) as [-> ->]; [lia..|].
  destruct (Hdiv (hex_digit_value c2) (hex_digit_value c3)) as [-> ->]; [lia..|].
  destruct (Hdiv (hex_digit_value c4) (hex_digit_value c5)) as [-> ->]; [lia..|].
  now rewrite !hex_digit_toupper by assumption.
Qed.

Lemma colorResponse_shown (i : Z) (c : colorType) (g : Globals) :
  0 <= i -> (Z.to_nat i < length (palette g))%nat ->
  colorResponse 1 (color_shown i c g)
  = Some (mk_response "color" "" (Some (JColor (rgbStr c) (brtns c))), color_shown i c g).
Proof.
  intros Hi Hlen. unfold colorResponse. cbn [Z.eqb Pos.eqb negb].
  rewrite (bind_run setting _ (color_shown i c g) (color_shown i c g)
             (settings (color_shown i c g)) eq_refl).
  assert (Hat : palette (color_shown i c g) !! Z.to_nat i = Some c).
  { destruct g as [[crc [cnt st ac ae] cols] af lnr chg dat fl].
    unfold color_shown, palette, set_palette, set_settings, settings in *; cbn in *.
    now apply list_lookup_insert_eq. }
  assert (Hactive : activeColor (settings (color_shown i c g)) = i).
  { now destruct g as [[crc [cnt st ac ae] cols] af lnr chg dat fl]. }
  rewrite Hactive.
  now rewrite (bind_run _ _ _ _ c (color_at_lookup i _ c Hi Hat)).
Qed.

(** X19. The colour branch of the GET handler looks at the first six
    characters of the colour argument only and takes the brightness
    modulo 256.  When [colorRequest] accepts these, the answer names the
    colour that is now the active one: the six characters in upper case
    and the brightness as it was taken.  Otherwise the answer carries the
    error text and no value, and the state is as before. *)
Theorem api_color_answer (color : string) (brightness_toInt : Z) (g : Globals) :
  wf g ->
  exists r g',
    colorRequest (strncpy_text 6 color) (brightness_toInt mod 256) g = Some (r, g') /\
    api_color color brightness_toInt g
    = Some (if r =? 1
            then mk_response "color" ""
                   (Some (JColor (upper (strncpy_text 6 color)) (brightness_toInt mod 256)))
            else mk_response "color" "Wrong format of color/brightness." None,
            g') /\
    (r <> 1 -> g' = g).
Proof.
  intros Hwf. unfold api_color, wrap8.
  set (rgbHex := strncpy_text 6 color). set (brightness := brightness_toInt mod 256).
  destruct (checkValidColor_total rgbHex brightness) as [Hbad|Hgood].
  - pose proof (colorRequest_invalid _ _ g Hbad) as Hrun.
    exists 0, g. split; [exact Hrun|]. split; [|reflexivity].
    now rewrite (bind_run _ _ g g 0 Hrun).
  - destruct (checkValidColor_parse _ _ Hgood) as [rgb Hparse].
    destruct (findColor_spec rgb brightness g Hwf) as (i & Hfind & Hres).
    pose proof (colorRequest_valid _ _ _ _ g Hwf Hgood Hparse Hfind) as Hrun.
    eexists 1, _. split; [exact Hrun|]. split; [|congruence].
    rewrite (bind_run _ _ _ _ _ Hrun).
    assert (Hi : 0 <= i /\ (Z.to_nat i < length (palette g))%nat).
    { destruct Hwf as (Hcount & _ & Hlen). rewrite Hlen. unfold COLOR_COUNT in *.
      destruct Hres as [(? & _)|(-> & _)]; unfold COLOR_COUNT; lia. }
    rewrite colorResponse_shown by tauto. cbn [Z.eqb Pos.eqb].
    change (mk_color rgb.1.1 rgb.1.2 rgb.2 brightness) with (color_of rgb brightness).
    rewrite (rgbStr_upper rgbHex brightness rgb); [reflexivity| |exact Hgood|exact Hparse].
    apply checkValidColor_accepts in Hgood as (Hlen & _).
    now destruct (strncpy_text_full 6 color Hlen).
Qed.

Lemma api_color_answer_witness :
  exists r g',
    colorRequest (strncpy_text 6 "ff00aazz") (356 mod 256) (three_colors 0) = Some (r, g') /\
    api_color "ff00aazz" 356 (three_colors 0)
    = Some (if r =? 1
            then mk_response "color" ""
                   (Some (JColor (upper (strncpy_text 6 "ff00aazz")) (356 mod 256)))
            else mk_response "color" "Wrong format of color/brightness." None,
            g') /\
    (r <> 1 -> g' = three_colors 0).
Proof.
  apply (api_color_answer "ff00aazz" 356 (three_colors 0)).
  repeat split; vm_compute; congruence.
Defined.

Lemma saveRequest_invalid (struct_bytes : npControllerSettingType -> list colorType -> list Z)
    (commit_ok : bool) (rgbHex : string) (brightness : Z) (g : Globals) :
  colorCount (settings g) <> COLOR_COUNT ->
  checkValidColor rgbHex brightness = Some 0 ->
  saveRequest struct_bytes commit_ok rgbHex brightness g = Some (2, g).
Proof.
  intros Hroom H. unfold saveRequest.
  rewrite (bind_run setting _ g g (settings g) eq_refl).
  destruct (Z.eqb_spec (colorCount (settings g)) COLOR_COUNT) as [|_]; [contradiction|].
  now rewrite (bind_run _ _ g g 0 (lift_run _ _ _ H)).
Qed.

Lemma saveResponse_appended
    (struct_bytes : npControllerSettingType -> list colorType -> list Z)
    (commit_ok : bool) (c : colorType) (g : Globals) :
  wf g -> colorCount (settings g) <> COLOR_COUNT ->
  saveResponse 1 (committed struct_bytes commit_ok (appended c g))
  = Some (mk_response "save" "" (Some (JColor (rgbStr c) (brtns c))),
          committed struct_bytes commit_ok (appended c g)).
Proof.
  intros (Hcount & _ & Hlen) Hroom. unfold COLOR_COUNT in *.
  set (g1 := committed struct_bytes commit_ok (appended c g)).
  assert (Hsettings : settings g1
                      = with_colorCount (colorCount (settings g) + 1) (settings g)).
  { unfold g1. rewrite settings_committed.
    now destruct g as [[crc [cnt st ac ae] cols] af lnr chg dat fl]. }
  assert (Hat : palette g1 !! Z.to_nat (colorCount (settings g)) = Some c).
  { unfold g1. rewrite palette_committed.
    destruct g as [[crc [cnt st ac ae] cols] af lnr chg dat fl].
    unfold appended, palette, settings, set_palette, set_settings in *; cbn in *.
    apply list_lookup_insert_eq. lia. }
  unfold saveResponse. cbn [Z.eqb Pos.eqb negb].
  rewrite (bind_run setting _ g1 g1 (settings g1) eq_refl), Hsettings.
  cbn [colorCount with_colorCount].
  replace (wrap8 (colorCount (settings g) + 1 - 1)) with (colorCount (settings g))
    by (unfold wrap8; rewrite Z.mod_small; lia).
  now rewrite (bind_run _ _ g1 g1 c
                 (color_at_lookup (colorCount (settings g)) g1 c (proj1 Hcount) Hat)).
Qed.

(** X20. The save branch of the POST handler, too, takes the first six
    characters of the colour header and the brightness modulo 256.  An
    answer without error is given exactly when [saveRequest] returns 1,
    and it then names the colour that was appended, the six characters
    in upper case with the brightness as taken; every other result is
    answered with its error text and no value. *)
Theorem api_save_answer
    (struct_bytes : npControllerSettingType -> list colorType -> list Z)
    (commit_ok : bool) (color : string) (brightness_toInt : Z) (g : Globals) :
  wf g ->
  exists r g',
    saveRequest struct_bytes commit_ok (strncpy_text 6 color) (brightness_toInt mod 256) g
    = Some (r, g') /\
    api_save struct_bytes commit_ok color brightness_toInt g
    = Some (if r =? 1
            then mk_response "save" ""
                   (Some (JColor (upper (strncpy_text 6 color)) (brightness_toInt mod 256)))
            else mk_response "save" (saveResponse_rsE r) None,
            g').
Proof.
  intros Hwf. unfold api_save, wrap8.
  set (rgbHex := strncpy_text 6 color). set (brightness := brightness_toInt mod 256).
  destruct (Z.eq_dec (colorCount (settings g)) COLOR_COUNT) as [Hfull|Hroom].
  { pose proof (saveRequest_no_room struct_bytes commit_ok rgbHex brightness g Hfull) as Hrun.
    exists 4, g. split; [exact Hrun|]. now rewrite (bind_run _ _ g g 4 Hrun). }
  destruct (checkValidColor_total rgbHex brightness) as [Hbad|Hgood].
  { pose proof (saveRequest_invalid struct_bytes commit_ok _ _ g Hroom Hbad) as Hrun.
    exists 2, g. split; [exact Hrun|]. now rewrite (bind_run _ _ g g 2 Hrun). }
  destruct (checkValidColor_parse _ _ Hgood) as [rgb Hparse].
  destruct (findColor_spec rgb brightness g Hwf) as (i & Hfind & _).
  destruct (findColor_saved _ _ _ g Hwf Hfind) as [(-> & Hnew)|(Hi & Hat)].
  - pose proof (saveRequest_new struct_bytes commit_ok _ _ _ g Hwf Hroom Hgood Hparse Hfind)
      as Hrun.
    eexists _, _. split; [exact Hrun|]. rewrite (bind_run _ _ _ _ _ Hrun).
    destruct commit_ok; [|reflexivity].
    rewrite saveResponse_appended by assumption. cbn [Z.eqb Pos.eqb].
    rewrite (rgbStr_upper rgbHex brightness rgb); [reflexivity| |exact Hgood|exact Hparse].
    apply checkValidColor_accepts in Hgood as (Hlen & _).
    now destruct (strncpy_text_full 6 color Hlen).
  - pose proof (saveRequest_duplicate struct_bytes commit_ok _ _ _ g Hwf Hroom Hgood Hparse
                  (list_elem_of_lookup_2 _ _ _ Hat)) as Hrun.
    exists 3, g. split; [exact Hrun|]. now rewrite (bind_run _ _ g g 3 Hrun).
Qed.

Lemma api_save_answer_witness :
  exists r g',
    saveRequest esp8266_struct_bytes true (strncpy_text 6 "c0ffee!") (300 mod 256)
      (three_colors 0)
    = Some (r, g') /\
    api_save esp8266_struct_bytes true "c0ffee!" 300 (three_colors 0)
    = Some (if r =? 1
            then mk_response "save" ""
                   (Some (JColor (upper (strncpy_text 6 "c0ffee!")) (300 mod 256)))
            else mk_response "save" (saveResponse_rsE r) None,
            g').
Proof.
  apply (api_save_answer esp8266_struct_bytes true "c0ffee!" 300 (three_colors 0)).
  repeat split; vm_compute; congruence.
Defined.

Lemma strcmp_refl (a : string) : strcmp a a = 0.
Proof.
  induction a as [|x a IH]; cbn [strcmp]; [reflexivity|].
  rewrite Z.eqb_refl. now destruct (is_nul x).
Qed.

(** On texts without a zero character inside, [strcmp] gives 0 for equal
    texts only. *)
Lemma strcmp_zero_eq (a : string) :
  forall b,
    strlen a = Z.of_nat (String.length a) -> strlen b = Z.of_nat (String.length b) ->
    strcmp a b = 0 -> a = b.
Proof.
  induction a as [|x a IH]; intros [|y b] Ha Hb Hcmp; cbn [strcmp strlen String.length] in *.
  - reflexivity.
  - destruct (is_nul y) eqn:Hy; [lia|]. unfold is_nul in Hy. lia.
  - destruct (is_nul x) eqn:Hx; [lia|]. unfold is_nul in Hx. lia.
  - destruct (is_nul x) eqn:Hx; [lia|]. destruct (is_nul y) eqn:Hy; [lia|].
    destruct (Z.eqb_spec (char_code x) (char_code y)) as [Hxy|]; [|lia].
    assert (x = y) as ->.
    { unfold char_code in Hxy. apply N2Z.inj in Hxy.
      rewrite <- (ascii_N_embedding x), <- (ascii_N_embedding y). now rewrite Hxy. }
    f_equal. apply IH; [lia|lia|exact Hcmp].
Qed.

Lemma strncpy_text_no_nul (n : nat) (s : string) :
  strlen (strncpy_text n s) = Z.of_nat (String.length (strncpy_text n s)).
Proof.
  revert s. induction n as [|n IH]; intros s; [reflexivity|].
  destruct s as [|c s]; cbn [strncpy_text]; [reflexivity|].
  destruct (is_nul c) eqn:Hc; [reflexivity|].
  cbn [strlen String.length]. rewrite Hc, IH. lia.
Qed.

Lemma effects_no_nul (i : nat) (e : effectType) :
  effects !! i = Some e -> strlen (effectName e) = Z.of_nat (String.length (effectName e)).
Proof.
  intros Hi.
  do 12 (destruct i as [|i]; [injection Hi as <-; reflexivity|]).
  discriminate Hi.
Qed.

(** X21. The effect branch of the GET handler compares the first nine
    characters of the argument with the names of the table, so a longer
    text that begins with a nine-character name selects that effect.
    When these characters are the name of the [i]-th effect, the program
    state becomes [NEOPIXEL_EFFECT] with [activeEffect = i], a change is
    pending and the answer carries that name; when they are no name of
    the table, the answer is the error text and nothing changes. *)
Theorem api_effect_answer (effect : string) (g : Globals) :
  (forall (i : nat) (e : effectType),
      effects !! i = Some e -> strncpy_text 9 effect = effectName e ->
      api_effect effect g
      = Some (mk_response "effect" "" (Some (JText (effectName e))),
              effect_clicked NEOPIXEL_EFFECT (Z.of_nat i) g)) /\
  ((forall (i : nat) (e : effectType),
       effects !! i = Some e -> strncpy_text 9 effect <> effectName e) ->
   api_effect effect g = Some (mk_response "effect" "Wrong name of effect." None, g)).
Proof.
  split.
  - intros i e Hi Hname.
    pose proof (lookup_lt_Some _ _ _ Hi) as Hlt. change (length effects) with 12%nat in Hlt.
    assert (Hindex : checkValidEffect (strncpy_text 9 effect) = Z.of_nat i).
    { apply (checkValidEffect_match _ i e Hi). rewrite Hname. apply strcmp_refl. }
    unfold api_effect, effectRequest. rewrite Hindex.
    change (ARRAY_SIZE effects) with 12.
    destruct (Z.ltb_spec (Z.of_nat i) 12) as [_|]; [|lia].
    destruct g as [[crc [cnt st ac ae] cols] af lnr chg dat fl].
    unfold bind, update_setting, set_changeNeopixel, ret, effectResponse, setting, lift; cbn.
    destruct (Z.leb_spec 0 (Z.of_nat i)) as [_|]; [|lia].
    rewrite Nat2Z.id, Hi. reflexivity.
  - intros Hnone.
    assert (Hindex : checkValidEffect (strncpy_text 9 effect) = ARRAY_SIZE effects).
    { apply checkValidEffect_no_match. intros i e Hi Hcmp. apply (Hnone i e Hi).
      symmetry. apply strcmp_zero_eq; [now apply (effects_no_nul i)| |exact Hcmp].
      apply strncpy_text_no_nul. }
    unfold api_effect, effectRequest. rewrite Hindex, Z.ltb_irrefl. reflexivity.
Qed.

Lemma api_effect_answer_witness :
  api_effect "snowsparkle" (three_colors 0)
  = Some (mk_response "effect" "" (Some (JText "snowspark")),
          effect_clicked NEOPIXEL_EFFECT (Z.of_nat 9) (three_colors 0)) /\
  api_effect "glitter" (three_colors 0)
  = Some (mk_response "effect" "Wrong name of effect." None, three_colors 0).
Proof.
  split.
  - apply (proj1 (api_effect_answer "snowsparkle" (three_colors 0)) 9%nat
             (mk_effect "snowspark" snowsparkle EFFECT_FRAMES_PER_SECOND));
      reflexivity.
  - apply (proj2 (api_effect_answer "glitter" (three_colors 0))).
    intros i e Hi.
    do 12 (destruct i as [|i]; [injection Hi as <-; discriminate|]).
    discriminate Hi.
Defined.

(** ** MQTT *)

Lemma char_at_get (s : string) (i : nat) (c : ascii) :
  String.get i s = Some c -> char_at s (Z.of_nat i) = Some c.
Proof.
  intros Hget. unfold char_at.
  destruct (Z.leb_spec 0 (Z.of_nat i)); [|lia]. now rewrite Nat2Z.id, Hget.
Qed.

Lemma get_beyond (s : string) (i : nat) :
  (String.length s <= i)%nat -> String.get i s = None.
Proof.
  revert i. induction s as [|c s IH]; intros i Hi; [now destruct i|].
  destruct i as [|i]; cbn in *; [lia|]. apply IH. lia.
Qed.

Lemma get_within (s : string) (i : nat) :
  (i < String.length s)%nat -> exists c, String.get i s = Some c.
Proof.
  revert i. induction s as [|c s IH]; intros i Hi; cbn in *; [lia|].
  destruct i as [|i]; [now exists c|]. apply IH. lia.
Qed.

Lemma char_at_beyond (s : string) (i : Z) :
  Z.of_nat (String.length s) < i -> char_at s i = None.
Proof.
  intros Hi. unfold char_at. destruct (Z.leb_spec 0 i); [|reflexivity].
  rewrite get_beyond by lia. destruct (Z.eqb_spec i (Z.of_nat (String.length s))); [lia|].
  reflexivity.
Qed.

Lemma findLastIndex_from_sound (n : nat) (str : string) (x : ascii) :
  forall i r, findLastIndex_from n str x i = Some r -> char_at str r = Some x.
Proof.
  induction n as [|n IH]; intros i r Hrun; [discriminate|].
  cbn [findLastIndex_from] in Hrun.
  destruct (char_at str i) as [c|] eqn:Hc; [|discriminate].
  destruct (Ascii.eqb_spec c x) as [->|_].
  - now injection Hrun as <-.
  - exact (IH _ _ Hrun).
Qed.

(** From an index with nothing but other characters at and below it, the
    search runs down to 0, goes on at 255 and leaves the text there. *)
Lemma findLastIndex_from_absent (str : string) (x : ascii) (n : nat) :
  (String.length str < 255)%nat ->
  (forall i c, char_at str i = Some c -> c <> x) ->
  forall i, 0 <= i < 256 -> findLastIndex_from n str x i = None.
Proof.
  intros Hshort Habsent.
  induction n as [|n IH]; intros i Hi; [reflexivity|].
  cbn [findLastIndex_from].
  destruct (char_at str i) as [c|] eqn:Hc; [|reflexivity].
  destruct (Ascii.eqb_spec c x) as [->|_]; [now apply Habsent in Hc|].
  apply IH. unfold wrap8. apply Z.mod_pos_bound. lia.
Qed.

Lemma string_length_append (a b : string) :
  String.length (a ++ b) = (String.length a + String.length b)%nat.
Proof. induction a as [|c a IH]; cbn; [reflexivity|now rewrite IH]. Qed.

Lemma strlen_le_length (s : string) : strlen s <= Z.of_nat (String.length s).
Proof.
  induction s as [|c s IH]; cbn [strlen String.length]; [lia|].
  destruct (is_nul c); lia.
Qed.

(** From the [k]-th character behind the last [x], the search comes down
    to that [x]. *)
Lemma findLastIndex_from_last (pre post : string) (x : ascii) (m : nat) :
  (String.length (pre ++ String x post) <= 255)%nat ->
  absent x post ->
  forall k : nat,
    (k <= String.length post)%nat ->
    findLastIndex_from (S k + m) (pre ++ String x post) x
      (Z.of_nat (String.length pre) + Z.of_nat k)
    = Some (Z.of_nat (String.length pre)).
Proof.
  intros Hshort Habsent.
  assert (Hx : String.get (String.length pre) (pre ++ String x post) = Some x).
  { rewrite <- (Nat.add_0_l (String.length pre)). now rewrite <- append_correct2. }
  induction k as [|k IH]; intros Hk.
  - rewrite Z.add_0_r. cbn [findLastIndex_from Nat.add].
    rewrite (char_at_get _ _ _ Hx). now rewrite Ascii.eqb_refl.
  - destruct (get_within post k Hk) as [c Hc].
    assert (Hget : String.get (S k + String.length pre) (pre ++ String x post) = Some c)
      by (now rewrite <- append_correct2).
    cbn [findLastIndex_from Nat.add].
    replace (Z.of_nat (String.length pre) + Z.of_nat (S k))
      with (Z.of_nat (S k + String.length pre)) by lia.
    rewrite (char_at_get _ _ _ Hget).
    destruct (Ascii.eqb_spec c x) as [->|_]; [now apply Habsent in Hc|].
    rewrite string_length_append in Hshort. cbn [String.length] in Hshort.
    replace (wrap8 (Z.of_nat (S k + String.length pre) - 1))
      with (Z.of_nat (String.length pre) + Z.of_nat k)
      by (unfold wrap8; rewrite Z.mod_small; lia).
    apply IH. lia.
Qed.

Lemma findLastIndex_last (pre post : string) (x : ascii) :
  strlen (pre ++ String x post) = Z.of_nat (String.length (pre ++ String x post)) ->
  (String.length (pre ++ String x post) <= 255)%nat ->
  absent x post ->
  findLastIndex (pre ++ String x post) x = Some (Z.of_nat (String.length pre)).
Proof.
  intros Hnul Hshort Habsent. unfold findLastIndex. rewrite Hnul.
  pose proof Hshort as Hlen. rewrite string_length_append in Hlen |- *.
  cbn [String.length] in Hlen |- *.
  replace (wrap8 (Z.of_nat (String.length pre + S (String.length post))))
    with (Z.of_nat (String.length pre + S (String.length post)))
    by (unfold wrap8; rewrite Z.mod_small; lia).
  replace (wrap8 (Z.of_nat (String.length pre + S (String.length post)) - 1))
    with (Z.of_nat (String.length pre) + Z.of_nat (String.length post))
    by (unfold wrap8; rewrite Z.mod_small; lia).
  replace 256%nat with (S (String.length post) + (255 - String.length post))%nat by lia.
  apply findLastIndex_from_last; [exact Hshort|exact Habsent|lia].
Qed.

Lemma findLastIndex_from_range (n : nat) (str : string) (x : ascii) :
  forall i r, 0 <= i < 256 -> findLastIndex_from n str x i = Some r -> 0 <= r < 256.
Proof.
  induction n as [|n IH]; intros i r Hi Hrun; [discriminate|].
  cbn [findLastIndex_from] in Hrun.
  destruct (char_at str i) as [c|]; [|discriminate].
  destruct (Ascii.eqb c x).
  - injection Hrun as <-. exact Hi.
  - apply (IH (wrap8 (i - 1))); [unfold wrap8; apply Z.mod_pos_bound; lia|exact Hrun].
Qed.

(** X22. [findLastIndex] has no way to report that the character is not
    there.  Whenever it returns, the index it returns is a [uint8_t] at
    which the text has the character.  In a text of at most 255
    characters it returns the position of the last occurrence.  When a
    text shorter than 255 characters does not hold the character, the
    search does not end inside the text: it goes below index 0 to index
    255 and reads outside the text. *)
Theorem findLastIndex_spec (str : string) (x : ascii) :
  (forall r, findLastIndex str x = Some r -> 0 <= r < 256 /\ char_at str r = Some x) /\
  (forall pre post,
      str = (pre ++ String x post)%string ->
      strlen str = Z.of_nat (String.length str) ->
      (String.length str <= 255)%nat ->
      absent x post ->
      findLastIndex str x = Some (Z.of_nat (String.length pre))) /\
  (absent x str -> x <> zero -> (String.length str < 255)%nat ->
   findLastIndex str x = None).
Proof.
  split; [|split].
  - intros r Hrun. split.
    + apply (findLastIndex_from_range _ _ _ _ r) in Hrun; [exact Hrun|].
      unfold wrap8. apply Z.mod_pos_bound. lia.
    + exact (findLastIndex_from_sound _ _ _ _ _ Hrun).
  - intros pre post -> Hnul Hshort Habsent. now apply findLastIndex_last.
  - intros Habsent Hx Hshort. apply findLastIndex_from_absent; [exact Hshort| |].
    + intros i c Hc. unfold char_at in Hc.
      destruct (0 <=? i); [|discriminate].
      destruct (String.get (Z.to_nat i) str) as [c'|] eqn:Hget.
      * injection Hc as <-. exact (Habsent _ _ Hget).
      * destruct (i =? Z.of_nat (String.length str)); [|discriminate].
        injection Hc as <-. congruence.
    + unfold wrap8. apply Z.mod_pos_bound. lia.
Qed.

Lemma findLastIndex_spec_witness :
  findLastIndex "NPCTRL001/cmd/off" "/" = Some (Z.of_nat (String.length "NPCTRL001/cmd")) /\
  findLastIndex "off" "/" = None.
Proof.
  split.
  - apply (proj1 (proj2 (findLastIndex_spec "NPCTRL001/cmd/off" "/"))
             "NPCTRL001/cmd"%string "off"%string);
      [reflexivity|reflexivity|vm_compute; lia|].
    intros i c Hget. do 3 (destruct i as [|i]; [injection Hget as <-; discriminate|]).
    discriminate Hget.
  - apply (proj2 (proj2 (findLastIndex_spec "off" "/"))); [|discriminate|vm_compute; lia].
    intros i c Hget. do 3 (destruct i as [|i]; [injection Hget as <-; discriminate|]).
    discriminate Hget.
Defined.

Lemma strlen_append_no_nul (a b : string) :
  strlen (a ++ b) = Z.of_nat (String.length (a ++ b)) ->
  strlen b = Z.of_nat (String.length b).
Proof.
  induction a as [|c a IH]; cbn [String.append strlen String.length]; [tauto|].
  pose proof (strlen_le_length (a ++ b)).
  destruct (is_nul c); [lia|]. intros Hlen. apply IH. lia.
Qed.

Lemma string_drop_append (pre post : string) (x : ascii) :
  string_drop (String.length pre + 1) (pre ++ String x post) = post.
Proof.
  induction pre as [|c pre IH]; [reflexivity|]. exact IH.
Qed.

Lemma colorResponse_total (colorResult : Z) (g : Globals) :
  palette_ok g -> exists r, colorResponse colorResult g = Some (r, g).
Proof.
  intros ((_ & Hactive & Hlen) & Hmax & _). unfold colorResponse.
  destruct (negb (colorResult =? 1)); [now eexists|].
  destruct (lookup_lt_is_Some_2 (palette g) (Z.to_nat (activeColor (settings g)))) as [c Hc];
    [rewrite Hlen; unfold COLOR_COUNT in *; lia|].
  rewrite (bind_run setting _ g g (settings g) eq_refl).
  rewrite (bind_run _ _ g g c (color_at_lookup _ g c (proj1 Hactive) Hc)).
  now eexists.
Qed.

Lemma effectResponse_total (effectResult : Z) (g : Globals) :
  palette_ok g -> exists r, effectResponse effectResult g = Some (r, g).
Proof.
  intros (_ & _ & Heffect & _). unfold effectResponse.
  destruct (negb (effectResult =? 1)); [now eexists|].
  destruct (lookup_lt_is_Some_2 effects (Z.to_nat (activeEffect (settings g)))) as [e He];
    [change (length effects) with 12%nat; change (ARRAY_SIZE effects) with 12 in Heffect; lia|].
  rewrite (bind_run setting _ g g (settings g) eq_refl).
  destruct (Z.leb_spec 0 (activeEffect (settings g))) as [_|]; [|lia].
  rewrite (bind_run _ _ g g e (lift_run _ _ _ He)).
  now eexists.
Qed.

(** X23. On a message whose topic ends in [/cmd], with [cmd] free of
    [/], [mqttCallback] returns when the state satisfies the invariant
    (for the command [color], when the payload has the seven bytes behind
    which the brightness is read), and whatever the command and the
    payload are, the saved colours and the flash are as before and the
    invariant holds again: nothing can be saved or deleted this way.  A
    command of more than six characters is dropped without an answer,
    any other command than [all], [color], [off] and [effect] is answered
    as unknown, and for both the state stays as it is. *)
Theorem mqttCallback_keeps_saved (atoi : string -> Z) (prefix cmd payload : string)
    (g : Globals) :
  palette_ok g ->
  strlen (prefix ++ String "/" cmd) = Z.of_nat (String.length (prefix ++ String "/" cmd)) ->
  (String.length (prefix ++ String "/" cmd) <= 255)%nat ->
  absent "/" cmd ->
  (cmd = "color"%string -> (7 <= String.length payload)%nat) ->
  exists out g',
    mqttCallback atoi (prefix ++ String "/" cmd) payload g = Some (out, g') /\
    palette_ok g' /\
    saved g' = saved g /\
    EEPROM_flash g' = EEPROM_flash g /\
    ((6 < String.length cmd)%nat -> out = PublishNothing /\ g' = g) /\
    ((String.length cmd <= 6)%nat ->
     cmd <> "all"%string -> cmd <> "color"%string -> cmd <> "off"%string ->
     cmd <> "effect"%string ->
     out = PublishUnknown /\ g' = g).
Proof.
  intros Hok Hnul Hshort Habsent Hpayload.
  pose proof (strlen_append_no_nul prefix (String "/" cmd) Hnul) as Hnul'.
  pose proof (strlen_append_no_nul (String "/" EmptyString) cmd Hnul') as Hcmd.
  pose proof (findLastIndex_last prefix cmd "/" Hnul Hshort Habsent) as Hlast.
  pose proof Hshort as Hlen. rewrite string_length_append in Hlen.
  cbn [String.length] in Hlen.
  unfold mqttCallback.
  rewrite (bind_run _ _ g g _ (lift_run _ _ _ Hlast)).
  rewrite Hnul, string_length_append. cbn [String.length].
  destruct (Z.eqb_spec (Z.of_nat (String.length prefix)) (-1)) as [|_]; [lia|].
  cbn [orb].
  replace (Z.of_nat (String.length prefix + S (String.length cmd))
           - (Z.of_nat (String.length prefix) + 1))
    with (Z.of_nat (String.length cmd)) by lia.
  unfold wrap32. rewrite Z.mod_small by lia.
  destruct (Z.ltb_spec 6 (Z.of_nat (String.length cmd))) as [Hlong|Hfits].
  { exists PublishNothing, g. split; [reflexivity|]. split; [exact Hok|].
    split; [reflexivity|]. split; [reflexivity|]. split; [now split|lia]. }
  replace (Z.to_nat (Z.of_nat (String.length prefix) + 1))
    with (String.length prefix + 1)%nat by lia.
  rewrite string_drop_append.
  assert (Hname : forall name : string,
             strlen name = Z.of_nat (String.length name) -> strcmp cmd name = 0 -> cmd = name).
  { intros name Hn Hc. now apply strcmp_zero_eq. }
  destruct (Z.eqb_spec (strcmp cmd "all") 0) as [Hall|Hnot_all].
  { apply Hname in Hall; [subst cmd|reflexivity].
    destruct Hok as (Hwf & Hrest).
    rewrite (bind_run _ _ g g _ (allResponse_spec g Hwf)).
    eexists _, g. split; [reflexivity|]. split; [exact (conj Hwf Hrest)|].
    split; [reflexivity|]. split; [reflexivity|].
    split; [cbn; lia|congruence]. }
  destruct (Z.eqb_spec (strcmp cmd "color") 0) as [Hcolor|Hnot_color].
  { apply Hname in Hcolor; [subst cmd|reflexivity].
    specialize (Hpayload eq_refl).
    set (n := wrap8 (if MQTT_MAX_PAYLOAD_LENGTH - 1 <? Z.of_nat (String.length payload)
                     then MQTT_MAX_PAYLOAD_LENGTH - 1
                     else Z.of_nat (String.length payload))).
    assert (Hn : 7 <= n).
    { unfold n, MQTT_MAX_PAYLOAD_LENGTH, wrap8.
      destruct (Z.ltb_spec (15 - 1) (Z.of_nat (String.length payload)));
        rewrite Z.mod_small; lia. }
    destruct (Z.leb_spec 7 n) as [_|]; [|lia].
    rewrite (bind_run _ _ g g _ (lift_run _ _ _ eq_refl)).
    destruct (palette_ok_colorRequest
                (strncpy_text 6 (string_take (Z.to_nat n) payload))
                (wrap8 (atoi (string_drop 7 (string_take (Z.to_nat n) payload)))) g Hok)
      as (r & g' & Hrun & Hok' & Hsaved & Hflash & _).
    rewrite (bind_run _ _ _ _ _ Hrun).
    destruct (colorResponse_total r g' Hok') as [resp Hresp].
    rewrite (bind_run _ _ _ _ _ Hresp).
    eexists _, g'. split; [reflexivity|]. split; [exact Hok'|].
    split; [exact Hsaved|]. split; [exact Hflash|].
    split; [cbn; lia|congruence]. }
  destruct (Z.eqb_spec (strcmp cmd "off") 0) as [Hoff|Hnot_off].
  { apply Hname in Hoff; [subst cmd|reflexivity].
    destruct (palette_ok_offRequest g Hok) as (g' & Hrun & Hok' & Hsaved & Hflash).
    rewrite (bind_run _ _ _ _ _ Hrun).
    eexists _, g'. split; [reflexivity|]. split; [exact Hok'|].
    split; [exact Hsaved|]. split; [exact Hflash|].
    split; [cbn; lia|congruence]. }
  destruct (Z.eqb_spec (strcmp cmd "effect") 0) as [Heffect|Hnot_effect].
  { apply Hname in Heffect; [subst cmd|reflexivity].
    set (n := wrap8 (if MQTT_MAX_PAYLOAD_LENGTH - 1 <? Z.of_nat (String.length payload)
                     then MQTT_MAX_PAYLOAD_LENGTH - 1
                     else Z.of_nat (String.length payload))).
    destruct (palette_ok_effectRequest (string_take (Z.to_nat n) payload) g Hok)
      as (r & g' & Hrun & Hok' & Hsaved & Hflash).
    rewrite (bind_run _ _ _ _ _ Hrun).
    destruct (effectResponse_total r g' Hok') as [resp Hresp].
    rewrite (bind_run _ _ _ _ _ Hresp).
    eexists _, g'. split; [reflexivity|]. split; [exact Hok'|].
    split; [exact Hsaved|]. split; [exact Hflash|].
    split; [cbn; lia|congruence]. }
  exists PublishUnknown, g. split; [reflexivity|]. split; [exact Hok|].
  split; [reflexivity|]. split; [reflexivity|]. split; [lia|now split].
Qed.

Lemma mqttCallback_keeps_saved_witness :
  exists out g',
    mqttCallback decimal ("NPCTRL001/cmd" ++ String "/" "color") "00ff00,80"
      (three_colors 0)
    = Some (out, g') /\
    palette_ok g' /\
    saved g' = saved (three_colors 0) /\
    EEPROM_flash g' = EEPROM_flash (three_colors 0) /\
    ((6 < String.length "color")%nat -> out = PublishNothing /\ g' = three_colors 0) /\
    ((String.length "color" <= 6)%nat ->
     "color"%string <> "all"%string -> "color"%string <> "color"%string ->
     "color"%string <> "off"%string -> "color"%string <> "effect"%string ->
     out = PublishUnknown /\ g' = three_colors 0).
Proof.
  apply (mqttCallback_keeps_saved decimal "NPCTRL001/cmd" "color" "00ff00,80"
           (three_colors 0)).
  - repeat split; try (vm_compute; congruence).
    + apply (bool_decide_unpack (NoDup _)). vm_compute. exact I.
    + change (Forall valid_color [red; green; blue]).
      repeat (constructor; [vm_compute; intuition congruence|]). constructor.
  - reflexivity.
  - vm_compute. lia.
  - intros i c Hget. do 5 (destruct i as [|i]; [injection Hget as <-; discriminate|]).
    discriminate Hget.
  - intros _. vm_compute. lia.
Defined.

(** ** The effect [cylon] *)

Lemma cylon_frames_checked :
  forallb cylon_frame_check (List.map Z.of_nat (seq 0 120)) = true.
Proof. vm_compute. reflexivity. Qed.

Lemma cylon_frame_checked (f : Z) : 0 <= f < 120 -> cylon_frame_check f = true.
Proof.
  intros Hf. pose proof cylon_frames_checked as Hall.
  rewrite forallb_forall in Hall. apply Hall.
  apply in_map_iff. exists (Z.to_nat f). split; [lia|]. apply in_seq. lia.
Qed.

(** X24. The effect [cylon] runs over the frames 0 to 119.  At every
    frame but 59 and 119 each of its writes to [leds] has an index within
    the array.  At the frames 59 and 119, the last of each sweep, its
    first write goes to [leds[-1]], in front of the array; the writes
    after it are within the array again. *)
Theorem cylon_writes_in_front (g : Globals) :
  activeEffect (settings g) = 7 ->
  0 <= actualFrame g < 120 ->
  exists ws,
    cylon_effect g = Some (ws, g) /\
    (forallb led_in_bounds ws = true <-> actualFrame g <> 59 /\ actualFrame g <> 119) /\
    (actualFrame g = 59 \/ actualFrame g = 119 -> head ws = Some (SetLed (-1) 51 0 0)) /\
    forallb led_in_bounds (tail ws) = true.
Proof.
  intros Hactive Hframe.
  exists (cylon_writes (EFFECT_FRAMES_PER_SECOND * 4) (actualFrame g)). split.
  - unfold cylon_effect.
    rewrite (bind_run setting _ g g (settings g) eq_refl), Hactive. reflexivity.
  - pose proof (cylon_frame_checked (actualFrame g) Hframe) as Hcheck.
    unfold cylon_frame_check in Hcheck.
    apply andb_prop in Hcheck as [Hcheck Htail].
    apply andb_prop in Hcheck as [Hall Hhead].
    apply bool_decide_eq_true in Hall. apply bool_decide_eq_true in Hhead.
    split; [|split; [|exact Htail]].
    + rewrite Hall.
      destruct (Z.eqb_spec (actualFrame g) 59), (Z.eqb_spec (actualFrame g) 119);
        cbn; split; intros; try discriminate; try lia; reflexivity.
    + intros Hlast. rewrite Hhead.
      destruct (Z.eqb_spec (actualFrame g) 59), (Z.eqb_spec (actualFrame g) 119);
        cbn; try reflexivity; lia.
Qed.

Lemma cylon_writes_in_front_witness :
  exists ws,
    cylon_effect (with_actualFrame 59
                    (example_state (mk_setting 0 NEOPIXEL_EFFECT 0 7) [] zero_color))
    = Some (ws, with_actualFrame 59
                  (example_state (mk_setting 0 NEOPIXEL_EFFECT 0 7) [] zero_color)) /\
    (forallb led_in_bounds ws = true <-> 59 <> 59 /\ 59 <> 119) /\
    (59 = 59 \/ 59 = 119 -> head ws = Some (SetLed (-1) 51 0 0)) /\
    forallb led_in_bounds (tail ws) = true.
Proof.
  apply (cylon_writes_in_front
           (with_actualFrame 59
              (example_state (mk_setting 0 NEOPIXEL_EFFECT 0 7) [] zero_color)));
    [reflexivity|vm_compute; split; congruence].
Defined.

(** ** Sequences of passes and of commands *)






(** ** A corrupted record *)

(** X27. A record in the flash that differs in one byte from the record
    its checksum was computed for is not loaded: [setup] finds the
    checksum wrong, whichever byte it is and whatever it has become, and
    starts with no saved colours, [NEOPIXEL_OFF] and both indices 0. *)
Theorem setup_detects_changed_byte
    (struct_bytes : npControllerSettingType -> list colorType -> list Z)
    (percentUsed : Z) (commit_ok : bool) (pre post : list Z) (c c' : Z) (g : Globals) :
  0 <= percentUsed ->
  length (colors (EEPROM_flash g)) = Z.to_nat (COLOR_COUNT + 1) ->
  crc32 (EEPROM_flash g) = calculateCRC32 (pre ++ c :: post) ->
  struct_bytes (npControllerSetting (EEPROM_flash g)) (colors (EEPROM_flash g))
  = pre ++ c' :: post ->
  0 <= c < 256 -> 0 <= c' < 256 -> c <> c' ->
  exists g',
    setup struct_bytes percentUsed commit_ok g = Some (tt, g') /\
    settings g' = mk_setting 0 NEOPIXEL_OFF 0 0 /\
    saved g' = [] /\
    (forall j, 0 <= j < COLOR_COUNT -> palette g' !! Z.to_nat j = Some zero_color).
Proof.
  intros Hused Hlen Hstored Hbytes Hc Hc' Hdiff.
  assert (Hcrc : record_crc struct_bytes (EEPROM_flash g) <> crc32 (EEPROM_flash g)).
  { unfold record_crc. rewrite Hbytes, Hstored. intros Heq. apply Hdiff.
    symmetry. exact (calculateCRC32_byte_inj pre post c' c Hc' Hc Heq). }
  set (g1 := with_ram (EEPROM_flash g) (with_EEPROM_data (EEPROM_flash g) g)).
  destruct (resetEEPROM_spec struct_bytes commit_ok g1 Hlen)
    as (l' & Hrun & Hlen' & Hzero & Hlast).
  exists (reset_state struct_bytes commit_ok l' g1). split.
  - unfold setup, bind at 1, EEPROM_begin.
    destruct (Z.leb_spec 0 percentUsed); [|lia].
    unfold bind, EEPROM_get. cbn [EEPROM_data with_EEPROM_data npControllerEEPROM with_ram].
    destruct (Z.eqb_spec (record_crc struct_bytes (EEPROM_flash g)) (crc32 (EEPROM_flash g)));
      [contradiction|].
    exact Hrun.
  - unfold reset_state, saved. rewrite settings_committed, palette_committed.
    split; [reflexivity|]. split; [reflexivity|exact Hzero].
Qed.

Lemma setup_detects_changed_byte_witness :
  exists g',
    setup esp8266_struct_bytes 5 true
      (with_EEPROM_flash
         (mk_eeprom (calculateCRC32 ([] ++ 2 :: [0; 0; 0; 1; 0; 0; 0; 1; 4; 0; 0]
                                     ++ concat (List.map (fun c => [rgb_0 c; rgb_1 c; rgb_2 c; brtns c])
                                                  (palette stale_record))))
            (mk_setting 3 NEOPIXEL_COLOR 1 4) (palette stale_record))
         stale_record)
    = Some (tt, g') /\
    settings g' = mk_setting 0 NEOPIXEL_OFF 0 0 /\
    saved g' = [] /\
    (forall j, 0 <= j < COLOR_COUNT -> palette g' !! Z.to_nat j = Some zero_color).
Proof.
  apply (setup_detects_changed_byte esp8266_struct_bytes 5 true []
           ([0; 0; 0; 1; 0; 0; 0; 1; 4; 0; 0]
            ++ concat (List.map (fun c => [rgb_0 c; rgb_1 c; rgb_2 c; brtns c])
                         (palette stale_record)))
           2 3); try reflexivity; try lia.
Defined.

(** ** The effect [theatre] *)

Lemma theatre_frames_checked :
  forallb theatre_frame_check (List.map Z.of_nat (seq 0 15)) = true.
Proof. vm_compute. reflexivity. Qed.

Lemma theatre_frame_checked (f : Z) : 0 <= f < 15 -> theatre_frame_check f = true.
Proof.
  intros Hf. pose proof theatre_frames_checked as Hall.
  rewrite forallb_forall in Hall. apply Hall.
  apply in_map_iff. exists (Z.to_nat f). split; [lia|]. apply in_seq. lia.
Qed.

(** X28. The effect [theatre] runs over the frames 0 to 14.  At each of
    them it clears the LEDs and then sets to red exactly the LEDs [p]
    from 0 to [NUM_LEDS - 2] for which [(p - frame / 3) mod 5 < 3]: three
    red, two dark, the pattern moving on by one LED every three frames.
    It writes nothing else; in particular the last LED, at index
    [NUM_LEDS - 1], stays dark at every frame. *)
Theorem theatre_pattern (g : Globals) :
  activeEffect (settings g) = 11 ->
  0 <= actualFrame g < 15 ->
  exists ws,
    theatre_effect g = Some (ClearData :: ws, g) /\
    (forall w, w ∈ ws -> exists p, w = SetLed p 255 0 0 /\ 0 <= p < NUM_LEDS - 1) /\
    (forall p, SetLed p 255 0 0 ∈ ws
               <-> 0 <= p < NUM_LEDS - 1 /\ (p - actualFrame g / 3) mod 5 < 3).
Proof.
  intros Hactive Hframe.
  pose proof (theatre_frame_checked (actualFrame g) Hframe) as Hcheck.
  unfold theatre_frame_check in Hcheck.
  set (ws := theatre_writes (Z.quot EFFECT_FRAMES_PER_SECOND 2) (actualFrame g)) in *.
  apply andb_prop in Hcheck as [Hcheck Hpattern].
  apply andb_prop in Hcheck as [Hhead Hwrites].
  apply bool_decide_eq_true in Hhead.
  destruct ws as [|w0 ws'] eqn:Hws; [discriminate Hhead|].
  injection Hhead as ->. cbn [tail] in Hwrites.
  rewrite forallb_forall in Hwrites. rewrite forallb_forall in Hpattern.
  assert (Hall : forall w, w ∈ ws' -> exists p, w = SetLed p 255 0 0 /\ 0 <= p < NUM_LEDS - 1).
  { intros w Hw. apply list_elem_of_In in Hw. specialize (Hwrites w Hw).
    destruct w as [p r gr b| |]; try discriminate Hwrites.
    apply andb_prop in Hwrites as [Hrange Hred].
    apply andb_prop in Hrange as [Hlow Hhigh].
    apply bool_decide_eq_true in Hred. injection Hred as -> -> ->.
    exists p. split; [reflexivity|]. lia. }
  exists ws'. split; [|split; [exact Hall|]].
  - unfold theatre_effect.
    rewrite (bind_run setting _ g g (settings g) eq_refl), Hactive.
    cbn. unfold ret. now rewrite <- Hws.
  - intros p.
    assert (Hmember : SetLed p 255 0 0 ∈ ws' <-> SetLed p 255 0 0 ∈ ClearData :: ws').
    { rewrite elem_of_cons. split; [tauto|]. intros [Heq|Hin]; [discriminate Heq|exact Hin]. }
    destruct (decide (0 <= p < NUM_LEDS - 1)) as [Hp|Hp].
    + assert (Hin : In p (List.map Z.of_nat (seq 0 15))).
      { apply in_map_iff. exists (Z.to_nat p). unfold NUM_LEDS in Hp.
        split; [lia|]. apply in_seq. lia. }
      specialize (Hpattern p Hin). apply bool_decide_eq_true in Hpattern.
      unfold set_red in Hpattern. rewrite Hmember.
      destruct (Z.ltb_spec ((p - actualFrame g / 3) mod 5) 3) as [Hlt|Hge].
      * apply bool_decide_eq_true in Hpattern. tauto.
      * apply bool_decide_eq_false in Hpattern. split; [tauto|]. intros [_ ?]. lia.
    + split; [|tauto]. intros Hin. destruct (Hall _ Hin) as (p' & [= <-] & Hp').
      contradiction.
Qed.

Lemma theatre_pattern_witness :
  exists ws,
    theatre_effect (with_actualFrame 7
                      (example_state (mk_setting 0 NEOPIXEL_EFFECT 0 11) [] zero_color))
    = Some (ClearData :: ws,
            with_actualFrame 7
              (example_state (mk_setting 0 NEOPIXEL_EFFECT 0 11) [] zero_color)) /\
    (forall w, w ∈ ws -> exists p, w = SetLed p 255 0 0 /\ 0 <= p < NUM_LEDS - 1) /\
    (forall p, SetLed p 255 0 0 ∈ ws <-> 0 <= p < NUM_LEDS - 1 /\ (p - 7 / 3) mod 5 < 3).
Proof.
  apply (theatre_pattern
           (with_actualFrame 7
              (example_state (mk_setting 0 NEOPIXEL_EFFECT 0 11) [] zero_color)));
    [reflexivity|vm_compute; split; congruence].
Defined.
